(** * Run orchestration and tool approval of the agent chat backend

    A shallow embedding of [agent.py] and [app.py]: the Python values the
    code reads out of JSON bodies, the exceptions its unguarded accesses
    raise, the remote agent service as a state machine answering HTTP
    requests, and the two variants of [create_agent], [create_thread],
    [send_message], [chat] and [health], with the functions of
    [attach_learn_mcp_tool.py] that test an agent, followed by the
    properties of the polling loop, of the handlers and of the test
    script. *)

From Stdlib Require Import String List ZArith Bool Lia.
Import ListNotations.
Set Warnings "-register-all".
Local Open Scope string_scope.
Local Open Scope Z_scope.

(** ** Python values

    What [json.loads] produces and what the code passes around.  A dict is
    an association list in which a key is looked up from the front; numbers
    are integers. *)

Inductive value : Type :=
| VNone
| VBool (b : bool)
| VInt (z : Z)
| VStr (s : string)
| VList (l : list value)
| VDict (kv : list (string * value)).

Fixpoint lookup (k : string) (kv : list (string * value)) : option value :=
  match kv with
  | [] => None
  | (k', v) :: rest => if String.eqb k k' then Some v else lookup k rest
  end.

(** ** Exceptions

    An exception is its class and the text [str(e)] gives. *)

Record exn : Type := Exn { exn_class : string; exn_str : string }.

Inductive result (A : Type) : Type :=
| Ok (a : A)
| Raise (e : exn).
Arguments Ok {A} a.
Arguments Raise {A} e.

Definition type_name (v : value) : string :=
  match v with
  | VNone => "NoneType"
  | VBool _ => "bool"
  | VInt _ => "int"
  | VStr _ => "str"
  | VList _ => "list"
  | VDict _ => "dict"
  end.

(** [str(KeyError(k))] is [repr(k)]. *)
Definition KeyError (k : string) : exn := Exn "KeyError" ("'" ++ k ++ "'").
Definition IndexError (what : string) : exn :=
  Exn "IndexError" (what ++ " index out of range").
Definition TypeError (msg : string) : exn := Exn "TypeError" msg.
Definition AttributeError (v : value) (attr : string) : exn :=
  Exn "AttributeError"
      ("'" ++ type_name v ++ "' object has no attribute '" ++ attr ++ "'").
Definition RuntimeError (msg : string) : exn := Exn "RuntimeError" msg.
Definition HTTPError (msg : string) : exn := Exn "HTTPError" msg.

Definition not_subscriptable (v : value) : exn :=
  TypeError ("'" ++ type_name v ++ "' object is not subscriptable").
Definition not_iterable (v : value) : exn :=
  TypeError ("'" ++ type_name v ++ "' object is not iterable").

(** ** The operations of Python the code uses *)

Module Py.

Definition bind {A B} (r : result A) (f : A -> result B) : result B :=
  match r with
  | Ok a => f a
  | Raise e => Raise e
  end.

(** [bool(v)] *)
Definition truthy (v : value) : bool :=
  match v with
  | VNone => false
  | VBool b => b
  | VInt z => negb (z =? 0)
  | VStr s => negb (String.eqb s "")
  | VList l => match l with [] => false | _ => true end
  | VDict kv => match kv with [] => false | _ => true end
  end.

(** [v == 'literal'] *)
Definition eq_str (v : value) (s : string) : bool :=
  match v with
  | VStr s' => String.eqb s' s
  | _ => false
  end.

(** [v in [s1, s2, ...]] for string literals *)
Definition in_strs (v : value) (ss : list string) : bool :=
  existsb (eq_str v) ss.

(** [v[k]] for a string [k] *)
Definition getitem (v : value) (k : string) : result value :=
  match v with
  | VDict kv =>
      match lookup k kv with
      | Some x => Ok x
      | None => Raise (KeyError k)
      end
  | VList _ => Raise (TypeError "list indices must be integers or slices, not str")
  | VStr _ => Raise (TypeError "string indices must be integers, not 'str'")
  | _ => Raise (not_subscriptable v)
  end.

(** [v[0]] *)
Definition getitem0 (v : value) : result value :=
  match v with
  | VList l =>
      match l with
      | x :: _ => Ok x
      | [] => Raise (IndexError "list")
      end
  | VStr s =>
      match s with
      | String c _ => Ok (VStr (String c EmptyString))
      | EmptyString => Raise (IndexError "string")
      end
  | VDict _ => Raise (Exn "KeyError" "0")
  | _ => Raise (not_subscriptable v)
  end.

(** [v.get(k, default)] *)
Definition get (v : value) (k : string) (default : value) : result value :=
  match v with
  | VDict kv =>
      match lookup k kv with
      | Some x => Ok x
      | None => Ok default
      end
  | _ => Raise (AttributeError v "get")
  end.

Fixpoint chars (s : string) : list value :=
  match s with
  | EmptyString => []
  | String c rest => VStr (String c EmptyString) :: chars rest
  end.

(** The elements [for x in v] visits. *)
Definition iter (v : value) : result (list value) :=
  match v with
  | VList l => Ok l
  | VDict kv => Ok (map (fun p => VStr (fst p)) kv)
  | VStr s => Ok (chars s)
  | _ => Raise (not_iterable v)
  end.

End Py.

Declare Scope result_scope.
Delimit Scope result_scope with result.
Notation "x <- c ;; k" := (Py.bind c (fun x => k))
  (at level 61, c at next level, right associativity) : result_scope.

(** ** The remote service and the credential provider *)

Inductive method : Type := GET | POST.

(** The URL under [ENDPOINT], api-version query left out. *)
Inductive url : Type :=
| Assistants
| Threads
| ThreadMessages (thread_id : value)
| ThreadRuns (thread_id : value)
| ThreadRun (thread_id run_id : value)
| SubmitToolOutputs (thread_id run_id : value).

Record request : Type := Build_request {
  req_method : method;
  req_url : url;
  req_headers : value;
  req_json : option value;
  req_timeout : option Z
}.

(** A response object: its [status_code], what [.json()] returns or raises,
    and the text of the [HTTPError] that [raise_for_status()] raises on a
    4xx or 5xx status. *)
Record response : Type := Build_response {
  status_code : Z;
  json : result value;
  http_error : string
}.

(** [requests.get]/[requests.post] return a response or raise. *)
Inductive reply : Type :=
| Returns (r : response)
| Fails (e : exn).

(** What the process does to its environment, in order. *)
Inductive event : Type :=
| Request (rq : request) (rp : reply)
| Sleep (secs : Z)
| GetToken (r : result string).

(** The environment of the process: the remote service and the credential
    provider as one state machine, and the configuration read from the
    process environment. *)
Record World : Type := Build_World {
  server : Type;
  serve : server -> request -> reply * server;
  tick : Z -> server -> server;
  get_token : server -> result string * server;
  AZURE_AI_API_KEY : option string;
  MCP_SERVER_URL : string;
  MCP_SERVER_LABEL : string
}.

(** The module-level globals and the state of the environment. *)
Record state (W : World) : Type := Build_state {
  AGENT_ID : value;
  current_thread_id : value;
  remote : server W
}.
Arguments AGENT_ID {W} s.
Arguments current_thread_id {W} s.
Arguments remote {W} s.
Arguments Build_state {W} _ _ _.

(** ** The monad of the process: globals, exceptions, and the events issued *)

Definition M (W : World) (A : Type) : Type :=
  state W -> result A * state W * list event.

Section Monad.
Context {W : World}.

Definition ret {A} (a : A) : M W A := fun s => (Ok a, s, []).

Definition raise {A} (e : exn) : M W A := fun s => (Raise e, s, []).

Definition bind {A B} (m : M W A) (f : A -> M W B) : M W B :=
  fun s =>
    match m s with
    | (Ok a, s1, E1) =>
        match f a s1 with
        | (r, s2, E2) => (r, s2, (E1 ++ E2)%list)
        end
    | (Raise e, s1, E1) => (Raise e, s1, E1)
    end.

(** [try: m  except Exception as e: handler e] *)
Definition try_except {A} (m : M W A) (handler : exn -> M W A) : M W A :=
  fun s =>
    match m s with
    | (Ok a, s1, E1) => (Ok a, s1, E1)
    | (Raise e, s1, E1) =>
        match handler e s1 with
        | (r, s2, E2) => (r, s2, (E1 ++ E2)%list)
        end
    end.

Definition lift {A} (r : result A) : M W A := fun s => (r, s, []).

Definition get_AGENT_ID : M W value := fun s => (Ok (AGENT_ID s), s, []).
Definition set_AGENT_ID (v : value) : M W unit :=
  fun s => (Ok tt, Build_state v (current_thread_id s) (remote s), []).
Definition get_current_thread_id : M W value :=
  fun s => (Ok (current_thread_id s), s, []).
Definition set_current_thread_id (v : value) : M W unit :=
  fun s => (Ok tt, Build_state (AGENT_ID s) v (remote s), []).

Definition send (rq : request) : M W response :=
  fun s =>
    match serve W (remote s) rq with
    | (rp, sigma) =>
        (match rp with Returns r => Ok r | Fails e => Raise e end,
         Build_state (AGENT_ID s) (current_thread_id s) sigma,
         [Request rq rp])
    end.

(** [requests.get(url, headers=headers)] *)
Definition requests_get (u : url) (headers : value) : M W response :=
  send (Build_request GET u headers None None).

(** [requests.post(url, headers=headers, json=payload, timeout=timeout)] *)
Definition requests_post (u : url) (headers : value) (payload : value)
    (timeout : option Z) : M W response :=
  send (Build_request POST u headers (Some payload) timeout).

(** [time.sleep(secs)] *)
Definition sleep (secs : Z) : M W unit :=
  fun s =>
    (Ok tt,
     Build_state (AGENT_ID s) (current_thread_id s) (tick W secs (remote s)),
     [Sleep secs]).

(** [DefaultAzureCredential().get_token(...).token] *)
Definition credential_token : M W string :=
  fun s =>
    match get_token W (remote s) with
    | (r, sigma) =>
        (r, Build_state (AGENT_ID s) (current_thread_id s) sigma, [GetToken r])
    end.

(** [r.raise_for_status()] *)
Definition raise_for_status (r : response) : M W unit :=
  if (400 <=? status_code r) && (status_code r <? 600)
  then raise (HTTPError (http_error r))
  else ret tt.

End Monad.

Declare Scope proc_scope.
Delimit Scope proc_scope with proc.
Notation "x <- c ;; k" := (bind c (fun x => k))
  (at level 61, c at next level, right associativity) : proc_scope.
Notation "c ;;; k" := (bind c (fun _ => k))
  (at level 61, right associativity) : proc_scope.

(** [response.status_code in [200, 201]] *)
Definition created_ok (r : response) : bool :=
  (status_code r =? 200) || (status_code r =? 201).

(** How one pass through the body of the polling loop ends. *)
Inductive ctl : Type :=
| Next               (* falls through to [time.sleep(1)] *)
| Continue           (* [continue] *)
| Break              (* [break] *)
| Return (v : value) (* [return v] *).

Definition fallback : string :=
  "Sorry, I couldn't process your request at the moment.".

(** One record of [tool_approvals]. *)
Definition approval (tool_call_id : value) : value :=
  VDict [("tool_call_id", tool_call_id);
         ("approve", VBool true);
         ("headers", VDict [])].

Definition json_headers (k v : string) : value :=
  VDict [(k, VStr v); ("Content-Type", VStr "application/json")].

(** The loop [for tc in tool_calls: if tc.get('type') == 'mcp':
    tool_approvals.append({...})], the same text at each of its three
    places in the two files. *)
Fixpoint collect_tool_approvals (tool_calls : list value) : result (list value) :=
  match tool_calls with
  | [] => Ok []
  | tc :: rest =>
      (ty <- Py.get tc "type" VNone ;;
       if Py.eq_str ty "mcp" then
         id <- Py.getitem tc "id" ;;
         more <- collect_tool_approvals rest ;;
         Ok (approval id :: more)
       else collect_tool_approvals rest)%result
  end.

(** The scan [for msg in messages: if msg['role'] == 'assistant':
    return msg['content'][0]['text']['value']]; [None] when the loop runs
    out. *)
Fixpoint first_assistant_text (messages : list value) : result (option value) :=
  match messages with
  | [] => Ok None
  | msg :: rest =>
      (role <- Py.getitem msg "role" ;;
       if Py.eq_str role "assistant" then
         c <- Py.getitem msg "content" ;;
         c0 <- Py.getitem0 c ;;
         t <- Py.getitem c0 "text" ;;
         content <- Py.getitem t "value" ;;
         Ok (Some content)
       else first_assistant_text rest)%result
  end.

Definition is_nil {A} (l : list A) : bool :=
  match l with [] => true | _ => false end.

Definition terminal_failure : list string := ["failed"; "cancelled"; "expired"].

(** ** agent.py *)

Module agent.
Section Program.
Context {W : World}.
Local Open Scope proc_scope.

Definition get_headers : M W value :=
  try_except
    (token <- credential_token ;;
     ret (json_headers "Authorization" ("Bearer " ++ token)))
    (fun _ =>
       match AZURE_AI_API_KEY W with
       | Some api_key =>
           if String.eqb api_key ""
           then raise (RuntimeError "No Azure auth available. Set AZURE_AI_API_KEY or enable Managed Identity.")
           else ret (json_headers "api-key" api_key)
       | None =>
           raise (RuntimeError "No Azure auth available. Set AZURE_AI_API_KEY or enable Managed Identity.")
       end).

Definition agent_payload : value :=
  VDict [("model", VStr "gpt-4o");
         ("name", VStr "MCP Agent");
         ("description", VStr "An agent with MCP tools");
         ("instructions", VStr "You are a helpful AI assistant with access to Microsoft Learn documentation via MCP tools.");
         ("tools", VList [VDict [("type", VStr "mcp");
                                 ("server_url", VStr (MCP_SERVER_URL W));
                                 ("server_label", VStr (MCP_SERVER_LABEL W))]])].

Definition create_agent : M W value :=
  cached <- get_AGENT_ID ;;
  if Py.truthy cached then ret cached
  else
    headers <- get_headers ;;
    r <- requests_post Assistants headers agent_payload (Some 30) ;;
    raise_for_status r ;;;
    agent <- lift (json r) ;;
    id <- lift (Py.getitem agent "id") ;;
    set_AGENT_ID id ;;;
    get_AGENT_ID.

Definition create_thread : M W value :=
  try_except
    (headers <- get_headers ;;
     response <- requests_post Threads headers (VDict []) None ;;
     if created_ok response then
       thread_data <- lift (json response) ;;
       thread_id <- lift (Py.getitem thread_data "id") ;;
       ret thread_id
     else ret VNone)
    (fun _ => ret VNone).

(** The branch [elif status == 'requires_action'] of the polling loop. *)
Definition on_requires_action (thread_id run_id headers run_data : value)
    : M W ctl :=
  ra <- lift (Py.get run_data "required_action" VNone) ;;
  let required_action := if Py.truthy ra then ra else VDict [] in
  ra_type <- lift (Py.get required_action "type" (VStr "")) ;;
  if Py.eq_str ra_type "submit_tool_outputs" then
    details <- lift (Py.get required_action "submit_tool_outputs" (VDict [])) ;;
    tool_calls <- lift (Py.get details "tool_calls" (VList [])) ;;
    calls <- lift (Py.iter tool_calls) ;;
    tool_approvals <- lift (collect_tool_approvals calls) ;;
    if negb (is_nil tool_approvals) then
      submit_response <-
        requests_post (SubmitToolOutputs thread_id run_id) headers
          (VDict [("tool_approvals", VList tool_approvals)]) (Some 30) ;;
      if negb (status_code submit_response =? 200) then ret Break
      else ret Next
    else ret Break
  else if Py.eq_str ra_type "submit_tool_approval" then
    details <- lift (Py.get required_action "submit_tool_approval" (VDict [])) ;;
    tool_calls <- lift (Py.get details "tool_calls" (VList [])) ;;
    calls <- lift (Py.iter tool_calls) ;;
    tool_approvals <- lift (collect_tool_approvals calls) ;;
    if negb (is_nil tool_approvals) then
      submit_response <-
        requests_post (SubmitToolOutputs thread_id run_id) headers
          (VDict [("tool_approvals", VList tool_approvals)]) (Some 30) ;;
      if negb (status_code submit_response =? 200) then ret Break
      else ret Next
    else ret Break
  else ret Break.

(** The branch [if status == 'completed']. *)
Definition on_completed (thread_id headers : value) : M W ctl :=
  messages_response <- requests_get (ThreadMessages thread_id) headers ;;
  if status_code messages_response =? 200 then
    body <- lift (json messages_response) ;;
    messages <- lift (Py.getitem body "data") ;;
    msgs <- lift (Py.iter messages) ;;
    found <- lift (first_assistant_text msgs) ;;
    match found with
    | Some content => ret (Return content)
    | None => ret Break
    end
  else ret Break.

(** The body of [for _ in range(max_attempts)], up to [time.sleep(1)]. *)
Definition poll_once (thread_id run_id headers : value) : M W ctl :=
  status_response <- requests_get (ThreadRun thread_id run_id) headers ;;
  if status_code status_response =? 200 then
    run_data <- lift (json status_response) ;;
    status <- lift (Py.getitem run_data "status") ;;
    if Py.eq_str status "completed" then on_completed thread_id headers
    else if Py.eq_str status "requires_action" then
      on_requires_action thread_id run_id headers run_data
    else if Py.in_strs status terminal_failure then ret Break
    else ret Next
  else ret Next.

(** The loop; [Some v] when the body returned [v], [None] when the loop was
    left by [break] or ran out of attempts. *)
Fixpoint poll_loop (thread_id run_id headers : value) (attempts : nat)
    : M W (option value) :=
  match attempts with
  | O => ret None
  | S attempts' =>
      c <- poll_once thread_id run_id headers ;;
      match c with
      | Return v => ret (Some v)
      | Break => ret None
      | Continue => poll_loop thread_id run_id headers attempts'
      | Next => sleep 1 ;;; poll_loop thread_id run_id headers attempts'
      end
  end.

Definition max_attempts : nat := 30.

Definition send_message (thread_id message : value) : M W value :=
  agent_id <- create_agent ;;
  headers <- get_headers ;;
  response <-
    requests_post (ThreadMessages thread_id) headers
      (VDict [("role", VStr "user"); ("content", message)]) None ;;
  if negb (created_ok response) then ret VNone
  else
    run_response <-
      requests_post (ThreadRuns thread_id) headers
        (VDict [("assistant_id", agent_id)]) None ;;
    if negb (created_ok run_response) then ret VNone
    else
      run <- lift (json run_response) ;;
      run_id <- lift (Py.getitem run "id") ;;
      returned <- poll_loop thread_id run_id headers max_attempts ;;
      match returned with
      | Some content => ret content
      | None => ret (VStr fallback)
      end.

(** The /chat handler; [get_json] is what [request.get_json()] gives.  The
    result is the body handed to [jsonify] and the HTTP status. *)
Definition chat (get_json : result value) : M W (value * Z) :=
  try_except
    (data <- lift get_json ;;
     message <- lift (Py.get data "message" (VStr "")) ;;
     if negb (Py.truthy message) then
       ret (VDict [("error", VStr "No message provided")], 400)
     else
       cached <- get_current_thread_id ;;
       failed <-
         (if negb (Py.truthy cached) then
            created <- create_thread ;;
            set_current_thread_id created ;;;
            ret (negb (Py.truthy created))
          else ret false) ;;
       if (failed : bool) then
         ret (VDict [("error", VStr "Failed to create conversation thread")], 500)
       else
         thread_id <- get_current_thread_id ;;
         response <- send_message thread_id message ;;
         if Py.truthy response then
           thread_id' <- get_current_thread_id ;;
           ret (VDict [("response", response); ("thread_id", thread_id')], 200)
         else
           ret (VDict [("error", VStr "Failed to get response from agent")], 500))
    (fun e => ret (VDict [("error", VStr (exn_str e))], 500)).

(** The /health handler of [agent.py]; [create_agent] is not guarded, so
    what it raises leaves the handler. *)
Definition health (ENDPOINT : value) : M W (value * Z) :=
  agent_id <- create_agent ;;
  ret (VDict [("status", VStr "healthy");
              ("endpoint", ENDPOINT);
              ("agent_id", agent_id);
              ("api_version", VStr "v1")], 200).

End Program.
End agent.

(** ** app.py *)

Module app.
Section Program.
Context {W : World}.
Local Open Scope proc_scope.

(** When neither a token nor an API key is there the function falls off its
    end and returns [None]. *)
Definition get_auth_headers : M W value :=
  try_except
    (token <- credential_token ;;
     ret (json_headers "Authorization" ("Bearer " ++ token)))
    (fun _ =>
       match AZURE_AI_API_KEY W with
       | Some api_key =>
           if negb (String.eqb api_key "")
           then ret (json_headers "api-key" api_key)
           else ret VNone
       | None => ret VNone
       end).

Definition agent_payload : value :=
  VDict [("model", VStr "gpt-4o");
         ("name", VStr "Simple Agent");
         ("description", VStr "A simple AI assistant");
         ("instructions", VStr "You are a helpful AI assistant.");
         ("tools", VList [])].

Definition create_agent : M W value :=
  cached <- get_AGENT_ID ;;
  if Py.truthy cached then ret cached
  else
    headers <- get_auth_headers ;;
    r <- requests_post Assistants headers agent_payload (Some 30) ;;
    raise_for_status r ;;;
    agent <- lift (json r) ;;
    id <- lift (Py.getitem agent "id") ;;
    set_AGENT_ID id ;;;
    get_AGENT_ID.

Definition create_thread : M W value :=
  try_except
    (headers <- get_auth_headers ;;
     response <- requests_post Threads headers (VDict []) None ;;
     if created_ok response then
       thread_data <- lift (json response) ;;
       thread_id <- lift (Py.getitem thread_data "id") ;;
       ret thread_id
     else ret VNone)
    (fun _ => ret VNone).

(** The branch [elif status == 'requires_action'] of the polling loop. *)
Definition on_requires_action (thread_id run_id headers run_data : value)
    : M W ctl :=
  required_action <- lift (Py.getitem run_data "required_action") ;;
  primary <- lift (Py.get required_action "submit_tool_outputs" VNone) ;;
  details <-
    (if Py.truthy primary then ret primary
     else
       legacy <- lift (Py.get required_action "submit_tool_approval" VNone) ;;
       if Py.truthy legacy then ret legacy else ret (VDict [])) ;;
  calls <- lift (Py.get details "tool_calls" (VList [])) ;;
  if Py.truthy calls then
    tcs <- lift (Py.iter calls) ;;
    tool_approvals <- lift (collect_tool_approvals tcs) ;;
    if negb (is_nil tool_approvals) then
      submit_response <-
        requests_post (SubmitToolOutputs thread_id run_id) headers
          (VDict [("tool_approvals", VList tool_approvals)]) (Some 30) ;;
      if negb (status_code submit_response =? 200) then ret Break
      else ret Continue
    else ret Break
  else ret Break.

(** The branch [if status == 'completed']. *)
Definition on_completed (thread_id headers : value) : M W ctl :=
  messages_response <- requests_get (ThreadMessages thread_id) headers ;;
  if status_code messages_response =? 200 then
    body <- lift (json messages_response) ;;
    messages <- lift (Py.getitem body "data") ;;
    msgs <- lift (Py.iter messages) ;;
    found <- lift (first_assistant_text msgs) ;;
    match found with
    | Some content => ret (Return content)
    | None => ret Break
    end
  else ret Break.

(** The body of [for _ in range(max_attempts)], up to [time.sleep(1)]. *)
Definition poll_once (thread_id run_id headers : value) : M W ctl :=
  status_response <- requests_get (ThreadRun thread_id run_id) headers ;;
  if status_code status_response =? 200 then
    run_data <- lift (json status_response) ;;
    status <- lift (Py.getitem run_data "status") ;;
    if Py.eq_str status "completed" then on_completed thread_id headers
    else if Py.eq_str status "requires_action" then
      on_requires_action thread_id run_id headers run_data
    else if Py.in_strs status terminal_failure then ret Break
    else ret Next
  else ret Next.

Fixpoint poll_loop (thread_id run_id headers : value) (attempts : nat)
    : M W (option value) :=
  match attempts with
  | O => ret None
  | S attempts' =>
      c <- poll_once thread_id run_id headers ;;
      match c with
      | Return v => ret (Some v)
      | Break => ret None
      | Continue => poll_loop thread_id run_id headers attempts'
      | Next => sleep 1 ;;; poll_loop thread_id run_id headers attempts'
      end
  end.

Definition max_attempts : nat := 30.

Definition send_message (thread_id message : value) : M W value :=
  agent_id <- create_agent ;;
  headers <- get_auth_headers ;;
  response <-
    requests_post (ThreadMessages thread_id) headers
      (VDict [("role", VStr "user"); ("content", message)]) None ;;
  if negb (created_ok response) then ret VNone
  else
    run_response <-
      requests_post (ThreadRuns thread_id) headers
        (VDict [("assistant_id", agent_id)]) None ;;
    if negb (created_ok run_response) then ret VNone
    else
      run <- lift (json run_response) ;;
      run_id <- lift (Py.getitem run "id") ;;
      returned <- poll_loop thread_id run_id headers max_attempts ;;
      match returned with
      | Some content => ret content
      | None => ret (VStr fallback)
      end.

Definition chat (get_json : result value) : M W (value * Z) :=
  try_except
    (data <- lift get_json ;;
     message <- lift (Py.get data "message" (VStr "")) ;;
     if negb (Py.truthy message) then
       ret (VDict [("error", VStr "No message provided")], 400)
     else
       cached <- get_current_thread_id ;;
       failed <-
         (if negb (Py.truthy cached) then
            created <- create_thread ;;
            set_current_thread_id created ;;;
            ret (negb (Py.truthy created))
          else ret false) ;;
       if (failed : bool) then
         ret (VDict [("error", VStr "Failed to create conversation thread")], 500)
       else
         thread_id <- get_current_thread_id ;;
         response <- send_message thread_id message ;;
         if Py.truthy response then
           thread_id' <- get_current_thread_id ;;
           ret (VDict [("response", response); ("thread_id", thread_id')], 200)
         else
           ret (VDict [("error", VStr "Failed to get response from agent")], 500))
    (fun e => ret (VDict [("error", VStr (exn_str e))], 500)).

(** The /health handler of [app.py]: it reports the configuration and asks
    nothing of the service. *)
Definition health (ENDPOINT : value) : M W (value * Z) :=
  ret (VDict [("status", VStr "healthy");
              ("endpoint", ENDPOINT);
              ("api_version", VStr "v1")], 200).

End Program.
End app.

(** ** Reading a trace *)

Definition is_poll (rq : request) : bool :=
  match req_method rq, req_url rq with
  | GET, ThreadRun _ _ => true
  | _, _ => false
  end.

Definition is_listing (rq : request) : bool :=
  match req_method rq, req_url rq with
  | GET, ThreadMessages _ => true
  | _, _ => false
  end.

Definition is_submission (rq : request) : bool :=
  match req_method rq, req_url rq with
  | POST, SubmitToolOutputs _ _ => true
  | _, _ => false
  end.

Definition is_thread_creation (rq : request) : bool :=
  match req_method rq, req_url rq with
  | POST, Threads => true
  | _, _ => false
  end.

(** The requests of a kind in a trace, each with its reply, in order. *)
Fixpoint calls (kind : request -> bool) (E : list event)
    : list (request * reply) :=
  match E with
  | [] => []
  | Request rq rp :: rest =>
      if kind rq then (rq, rp) :: calls kind rest else calls kind rest
  | _ :: rest => calls kind rest
  end.

(** The replies to the run-status polls. *)
Definition polls (E : list event) : list reply := map snd (calls is_poll E).

(** The replies to the message listings. *)
Definition listings (E : list event) : list reply :=
  map snd (calls is_listing E).

(** The bodies posted to the approval endpoint. *)
Definition submissions (E : list event) : list (option value) :=
  map (fun c => req_json (fst c)) (calls is_submission E).

Fixpoint sleeps (E : list event) : list Z :=
  match E with
  | [] => []
  | Sleep secs :: rest => secs :: sleeps rest
  | _ :: rest => sleeps rest
  end.

(** The status a poll reply carries, when the loop reads one. *)
Definition polled_status (rp : reply) : option value :=
  match rp with
  | Returns r =>
      if status_code r =? 200 then
        match json r with
        | Ok run_data =>
            match Py.getitem run_data "status" with
            | Ok status => Some status
            | Raise _ => None
            end
        | Raise _ => None
        end
      else None
  | Fails _ => None
  end.

Definition polled (rp : reply) (status : string) : Prop :=
  polled_status rp = Some (VStr status).

(** What a poll reply carries under [required_action]. *)
Definition required_action_of (rp : reply) : option value :=
  match rp with
  | Returns r =>
      match json r with
      | Ok (VDict kv) => lookup "required_action" kv
      | _ => None
      end
  | Fails _ => None
  end.

(** The messages a listing reply with status 200 carries in [data]. *)
Definition listed_messages (rp : reply) : option (list value) :=
  match rp with
  | Returns r =>
      if status_code r =? 200 then
        match json r with
        | Ok (VDict kv) =>
            match lookup "data" kv with
            | Some (VList msgs) => Some msgs
            | _ => None
            end
        | _ => None
        end
      else None
  | Fails _ => None
  end.

(** ** What the two files share

    [poll_once], [poll_loop], [send_message] and [chat] have the same text in
    [agent.py] and [app.py] apart from the functions they call; here they are
    once, over those functions. *)

Module shared.
Section Program.
Context {W : World}.
Variable on_requires_action : value -> value -> value -> value -> M W ctl.
Variable create_agent : M W value.
Variable get_headers : M W value.
Variable create_thread : M W value.
Local Open Scope proc_scope.

Definition poll_once (thread_id run_id headers : value) : M W ctl :=
  status_response <- requests_get (ThreadRun thread_id run_id) headers ;;
  if status_code status_response =? 200 then
    run_data <- lift (json status_response) ;;
    status <- lift (Py.getitem run_data "status") ;;
    if Py.eq_str status "completed" then agent.on_completed thread_id headers
    else if Py.eq_str status "requires_action" then
      on_requires_action thread_id run_id headers run_data
    else if Py.in_strs status terminal_failure then ret Break
    else ret Next
  else ret Next.

Fixpoint poll_loop (thread_id run_id headers : value) (attempts : nat)
    : M W (option value) :=
  match attempts with
  | O => ret None
  | S attempts' =>
      c <- poll_once thread_id run_id headers ;;
      match c with
      | Return v => ret (Some v)
      | Break => ret None
      | Continue => poll_loop thread_id run_id headers attempts'
      | Next => sleep 1 ;;; poll_loop thread_id run_id headers attempts'
      end
  end.

Definition send_message (thread_id message : value) : M W value :=
  agent_id <- create_agent ;;
  headers <- get_headers ;;
  response <-
    requests_post (ThreadMessages thread_id) headers
      (VDict [("role", VStr "user"); ("content", message)]) None ;;
  if negb (created_ok response) then ret VNone
  else
    run_response <-
      requests_post (ThreadRuns thread_id) headers
        (VDict [("assistant_id", agent_id)]) None ;;
    if negb (created_ok run_response) then ret VNone
    else
      run <- lift (json run_response) ;;
      run_id <- lift (Py.getitem run "id") ;;
      returned <- poll_loop thread_id run_id headers 30 ;;
      match returned with
      | Some content => ret content
      | None => ret (VStr fallback)
      end.

Definition chat (get_json : result value) : M W (value * Z) :=
  try_except
    (data <- lift get_json ;;
     message <- lift (Py.get data "message" (VStr "")) ;;
     if negb (Py.truthy message) then
       ret (VDict [("error", VStr "No message provided")], 400)
     else
       cached <- get_current_thread_id ;;
       failed <-
         (if negb (Py.truthy cached) then
            created <- create_thread ;;
            set_current_thread_id created ;;;
            ret (negb (Py.truthy created))
          else ret false) ;;
       if (failed : bool) then
         ret (VDict [("error", VStr "Failed to create conversation thread")], 500)
       else
         thread_id <- get_current_thread_id ;;
         response <- send_message thread_id message ;;
         if Py.truthy response then
           thread_id' <- get_current_thread_id ;;
           ret (VDict [("response", response); ("thread_id", thread_id')], 200)
         else
           ret (VDict [("error", VStr "Failed to get response from agent")], 500))
    (fun e => ret (VDict [("error", VStr (exn_str e))], 500)).

End Program.
End shared.

(** ** What the properties speak of *)

(** The request of a run-status poll. *)
Definition poll_request (thread_id run_id headers : value) : request :=
  Build_request GET (ThreadRun thread_id run_id) headers None None.

(** [n] passes of the loop that each poll and then sleep. *)
Definition idle_cycles (rq : request) (replies : list reply) : list event :=
  flat_map (fun rp => [Request rq rp; Sleep 1]) replies.

(** What [send_message] returns for what its loop gave. *)
Definition finish (returned : result (option value)) : result value :=
  match returned with
  | Ok (Some content) => Ok content
  | Ok None => Ok (VStr fallback)
  | Raise e => Raise e
  end.

(** The approval records cover exactly the calls of type [mcp]: one record
    per such call, in order, with its id, [approve] true and no headers. *)
Definition is_mcp (tc : value) : bool :=
  match tc with
  | VDict kv =>
      match lookup "type" kv with
      | Some ty => Py.eq_str ty "mcp"
      | None => false
      end
  | _ => false
  end.

Definition approves (tc record : value) : Prop :=
  exists id,
    Py.getitem tc "id" = Ok id /\
    record = VDict [("tool_call_id", id);
                    ("approve", VBool true);
                    ("headers", VDict [])].

Definition covers_mcp_calls (tool_calls records : list value) : Prop :=
  Forall2 approves (filter is_mcp tool_calls) records.

(** A [required_action] payload that names its pending calls under [field]:
    its [type] is [field] and [field] holds a dict with the list
    [tool_calls]. *)
Definition names_calls_under (field : string) (required_action : value)
    (tool_calls : list value) : Prop :=
  exists kv details,
    required_action = VDict kv /\
    lookup "type" kv = Some (VStr field) /\
    lookup field kv = Some (VDict details) /\
    lookup "tool_calls" details = Some (VList tool_calls).

(** Tokens only. *)
Definition token_event (ev : event) : bool :=
  match ev with
  | GetToken _ => true
  | _ => false
  end.

(** The events before the polling loop: tokens and the requests that are
    neither polls, listings, approvals nor thread creations. *)
Definition prelude_event (ev : event) : bool :=
  match ev with
  | Request rq _ =>
      negb (is_poll rq) && negb (is_listing rq) && negb (is_submission rq)
      && negb (is_thread_creation rq)
  | Sleep _ => false
  | GetToken _ => true
  end.

(** The events of [create_thread]. *)
Definition thread_event (ev : event) : bool :=
  match ev with
  | Request rq _ => is_thread_creation rq
  | Sleep _ => false
  | GetToken _ => true
  end.

(** The events of [on_requires_action]. *)
Definition approval_event (ev : event) : bool :=
  match ev with
  | Request rq _ => is_submission rq
  | _ => false
  end.

(** Anything but the creation of a thread. *)
Definition run_event (ev : event) : bool :=
  match ev with
  | Request rq _ => negb (is_thread_creation rq)
  | _ => true
  end.

Definition all_events (p : event -> bool) (E : list event) : Prop :=
  Forall (fun ev => p ev = true) E.

(** [m] leaves the cached thread alone and emits only events of [p]. *)
Definition within {W : World} (p : event -> bool) {A} (m : M W A) : Prop :=
  forall s r s' E,
    m s = (r, s', E) ->
    current_thread_id s' = current_thread_id s /\ all_events p E.

(** The request of a message listing. *)
Definition listing_request (thread_id headers : value) : request :=
  Build_request GET (ThreadMessages thread_id) headers None None.

(** What the branch [completed] makes of the reply to its listing. *)
Definition completed_outcome (rp : reply) : result ctl :=
  match rp with
  | Fails e => Raise e
  | Returns r =>
      if status_code r =? 200 then
        (body <- json r ;;
         messages <- Py.getitem body "data" ;;
         msgs <- Py.iter messages ;;
         found <- first_assistant_text msgs ;;
         Ok (match found with
             | Some content => Return content
             | None => Break
             end))%result
      else Ok Break
  end.

(** What the loop gives when its body leaves it. *)
Definition leave (c : result ctl) : result (option value) :=
  match c with
  | Ok (Return v) => Ok (Some v)
  | Ok _ => Ok None
  | Raise e => Raise e
  end.

(** The body of the loop went on to the next attempt. *)
Definition goes_on (c : result ctl) : bool :=
  match c with
  | Ok Next | Ok Continue => true
  | _ => false
  end.

(** What the body of the loop does on the reply to its poll. *)
Inductive poll_class : Type :=
| Idle                              (* falls through to the sleep *)
| Failed                            (* failed, cancelled or expired *)
| Completed
| RequiresAction (run_data : value)
| Broken (e : exn)                  (* the request or the reading raised *).

Definition classify (rp : reply) : poll_class :=
  match rp with
  | Fails e => Broken e
  | Returns r =>
      if status_code r =? 200 then
        match json r with
        | Raise e => Broken e
        | Ok run_data =>
            match Py.getitem run_data "status" with
            | Raise e => Broken e
            | Ok status =>
                if Py.eq_str status "completed" then Completed
                else if Py.eq_str status "requires_action" then
                  RequiresAction run_data
                else if Py.in_strs status terminal_failure then Failed
                else Idle
            end
        end
      else Idle
  end.

(** The events [E0] put before those of a run. *)
Definition prepend {W : World} {A} (E0 : list event)
    (x : result A * state W * list event) : result A * state W * list event :=
  let '(r, s, E) := x in (r, s, (E0 ++ E)%list).

(** The state after a request, and the reply to it. *)
Definition after {W : World} (s : state W) (rq : request) : state W :=
  Build_state (AGENT_ID s) (current_thread_id s) (snd (serve W (remote s) rq)).

Definition answer {W : World} (s : state W) (rq : request) : reply :=
  fst (serve W (remote s) rq).

(** The state after [time.sleep(secs)]. *)
Definition slept {W : World} (secs : Z) (s : state W) : state W :=
  Build_state (AGENT_ID s) (current_thread_id s) (tick W secs (remote s)).

(** The request that submits approval records. *)
Definition submit_request (thread_id run_id headers : value)
    (records : list value) : request :=
  Build_request POST (SubmitToolOutputs thread_id run_id) headers
    (Some (VDict [("tool_approvals", VList records)])) (Some 30).

(** What the branch [requires_action] does once it holds the pending calls:
    nothing to approve leaves the loop, otherwise one submission, after
    which the loop goes on by [go] when the answer is 200. *)
Definition approval_run {W : World} (go : ctl)
    (thread_id run_id headers : value) (tool_calls : list value)
    (s : state W) : result ctl * state W * list event :=
  match collect_tool_approvals tool_calls with
  | Raise e => (Raise e, s, [])
  | Ok [] => (Ok Break, s, [])
  | Ok records =>
      let rq := submit_request thread_id run_id headers records in
      (match answer s rq with
       | Returns r => if status_code r =? 200 then Ok go else Ok Break
       | Fails e => Raise e
       end,
       after s rq,
       [Request rq (answer s rq)])
  end.

Definition error_body (message : string) : value :=
  VDict [("error", VStr message)].

Definition success_body (response thread_id : value) : value :=
  VDict [("response", response); ("thread_id", thread_id)].

(** What [chat] answers for what [send_message] gave on thread [thread_id]. *)
Definition reply_for (sent : result value) (thread_id : value) : value * Z :=
  match sent with
  | Ok response =>
      if Py.truthy response then (success_body response thread_id, 200)
      else (error_body "Failed to get response from agent", 500)
  | Raise e => (error_body (exn_str e), 500)
  end.

Definition has_key (k : string) (body : value) : bool :=
  match body with
  | VDict kv =>
      match lookup k kv with
      | Some _ => true
      | None => false
      end
  | _ => false
  end.

(** ** The two programs *)

Inductive file : Type := agent_py | app_py.

Definition on_requires_action_of {W : World} (f : file)
    : value -> value -> value -> value -> M W ctl :=
  match f with
  | agent_py => agent.on_requires_action
  | app_py => app.on_requires_action
  end.

Definition create_agent_of {W : World} (f : file) : M W value :=
  match f with
  | agent_py => agent.create_agent
  | app_py => app.create_agent
  end.

Definition get_headers_of {W : World} (f : file) : M W value :=
  match f with
  | agent_py => agent.get_headers
  | app_py => app.get_auth_headers
  end.

Definition create_thread_of {W : World} (f : file) : M W value :=
  match f with
  | agent_py => agent.create_thread
  | app_py => app.create_thread
  end.

Definition poll_loop_of {W : World} (f : file)
    : value -> value -> value -> nat -> M W (option value) :=
  match f with
  | agent_py => agent.poll_loop
  | app_py => app.poll_loop
  end.

Definition send_message_of {W : World} (f : file) : value -> value -> M W value :=
  match f with
  | agent_py => agent.send_message
  | app_py => app.send_message
  end.

Definition chat_of {W : World} (f : file) : result value -> M W (value * Z) :=
  match f with
  | agent_py => agent.chat
  | app_py => app.chat
  end.

(** How the loop goes on after an approval that was accepted: [agent.py]
    falls through to the sleep, [app.py] continues at once. *)
Definition goes_on_by (f : file) : ctl :=
  match f with
  | agent_py => Next
  | app_py => Continue
  end.

(** Consecutive calls of the /chat handler in one process. *)
Fixpoint chats {W : World} (f : file) (requests : list (result value))
    (s : state W) : list (result (value * Z)) * state W * list event :=
  match requests with
  | [] => ([], s, [])
  | g :: rest =>
      let '(resp, s1, E1) := chat_of f g s in
      let '(resps, s2, E2) := chats f rest s1 in
      (resp :: resps, s2, (E1 ++ E2)%list)
  end.

(** ** What a trace shows, as decidable readings *)

(** The poll was answered with status 200 and this status. *)
Definition has_status (status : string) (rp : reply) : bool :=
  match polled_status rp with
  | Some v => Py.eq_str v status
  | None => false
  end.

(** in_progress or queued *)
Definition non_terminal (rp : reply) : bool :=
  has_status "in_progress" rp || has_status "queued" rp.

(** failed, cancelled or expired *)
Definition terminal_failed (rp : reply) : bool :=
  has_status "failed" rp || has_status "cancelled" rp || has_status "expired" rp.

(** The poll was answered, with a status code other than 200. *)
Definition not_200 (rp : reply) : bool :=
  match rp with
  | Returns r => negb (status_code r =? 200)
  | Fails _ => false
  end.

(** The tool calls a [required_action] payload holds under [field], its
    [type] being [field] too. *)
Definition pending_calls (field : string) (required_action : value)
    : option (list value) :=
  match required_action with
  | VDict kv =>
      match lookup "type" kv, lookup field kv with
      | Some ty, Some (VDict details) =>
          if Py.eq_str ty field then
            match lookup "tool_calls" details with
            | Some (VList tool_calls) => Some tool_calls
            | _ => None
            end
          else None
      | _, _ => None
      end
  | _ => None
  end.

(** The payload has no entry under [field]. *)
Definition lacks (field : string) (required_action : value) : bool :=
  negb (has_key field required_action).

(** The role of a message. *)
Definition role_is (role : string) (msg : value) : bool :=
  match msg with
  | VDict kv =>
      match lookup "role" kv with
      | Some r => Py.eq_str r role
      | None => false
      end
  | _ => false
  end.

(** A message that has a role, which is not [assistant]. *)
Definition not_assistant (msg : value) : bool :=
  match msg with
  | VDict kv =>
      match lookup "role" kv with
      | Some r => negb (Py.eq_str r "assistant")
      | None => false
      end
  | _ => false
  end.

(** The [text.value] of a content element. *)
Definition text_value (element : value) : option value :=
  match element with
  | VDict kv =>
      match lookup "text" kv with
      | Some (VDict text) => lookup "value" text
      | _ => None
      end
  | _ => None
  end.

(** The content list of a message. *)
Definition content_of (msg : value) : option (list value) :=
  match msg with
  | VDict kv =>
      match lookup "content" kv with
      | Some (VList elements) => Some elements
      | _ => None
      end
  | _ => None
  end.

(** The text of a message: [text.value] of its first content element. *)
Definition message_text (msg : value) : option value :=
  match content_of msg with
  | Some (element :: _) => text_value element
  | _ => None
  end.

(** The service keeps answering the polls of a run, one second apart, with
    replies of [P], [n] times from state [sigma]. *)
Fixpoint keeps_answering {W : World} (P : reply -> bool) (n : nat)
    (sigma : server W) (rq : request) : bool :=
  match n with
  | O => true
  | S n' =>
      P (fst (serve W sigma rq))
      && keeps_answering P n' (tick W 1 (snd (serve W sigma rq))) rq
  end.

(** The parts of a run. *)
Definition result_of {W : World} {A} (x : A * state W * list event) : A :=
  fst (fst x).
Definition state_of {W : World} {A} (x : A * state W * list event) : state W :=
  snd (fst x).
Definition trace_of {W : World} {A} (x : A * state W * list event)
    : list event := snd x.

(** A poll that leaves the run unfinished: answered with a status code other
    than 200, or with the status [in_progress] or [queued]. *)
Definition idle_poll (rp : reply) : bool := non_terminal rp || not_200 rp.

(** ** Further readings of a trace *)

Definition any_request (rq : request) : bool := true.

Definition is_agent_creation (rq : request) : bool :=
  match req_method rq, req_url rq with
  | POST, Assistants => true
  | _, _ => false
  end.

Definition is_message_post (rq : request) : bool :=
  match req_method rq, req_url rq with
  | POST, ThreadMessages _ => true
  | _, _ => false
  end.

Definition is_run_creation (rq : request) : bool :=
  match req_method rq, req_url rq with
  | POST, ThreadRuns _ => true
  | _, _ => false
  end.

(** The events of [create_agent]: tokens and the creation of the agent. *)
Definition creation_event (ev : event) : bool :=
  match ev with
  | Request rq _ => is_agent_creation rq
  | Sleep _ => false
  | GetToken _ => true
  end.

(** The reply is a response with a status of [200, 201]. *)
Definition accepted (rp : reply) : bool :=
  match rp with
  | Returns r => created_ok r
  | Fails _ => false
  end.

(** The reply is a response with status 200. *)
Definition answered_200 (rp : reply) : bool :=
  match rp with
  | Returns r => status_code r =? 200
  | Fails _ => false
  end.

Definition is_dict (v : value) : bool :=
  match v with
  | VDict _ => true
  | _ => false
  end.

(** The credential provider gives no token, in whatever state it is. *)
Definition no_token (W : World) : Prop :=
  forall sigma, exists e, fst (get_token W sigma) = Raise e.

(** No API key is configured: the variable is unset or empty. *)
Definition no_api_key (W : World) : bool :=
  match AZURE_AI_API_KEY W with
  | Some k => String.eqb k ""
  | None => true
  end.

(** The headers of every request of a trace. *)
Definition request_headers (E : list event) : list value :=
  map (fun c => req_headers (fst c)) (calls any_request E).

(** The results of the token requests of a trace. *)
Fixpoint tokens (E : list event) : list (result string) :=
  match E with
  | [] => []
  | GetToken r :: rest => r :: tokens rest
  | _ :: rest => tokens rest
  end.

Definition raised {A} (r : result A) : bool :=
  match r with
  | Raise _ => true
  | Ok _ => false
  end.

(** Anything but the creation of the agent. *)
Definition conversation_request (rq : request) : bool :=
  negb (is_agent_creation rq).

Definition conversation_event (ev : event) : bool :=
  match ev with
  | Request rq _ => conversation_request rq
  | _ => true
  end.

(** [m] leaves the cached agent alone and emits only events of [p]. *)
Definition keeps_agent {W : World} (p : event -> bool) {A} (m : M W A) : Prop :=
  forall s r s' E,
    m s = (r, s', E) -> AGENT_ID s' = AGENT_ID s /\ all_events p E.

(** The request that adds the user's message to the thread. *)
Definition message_request (thread_id headers message : value) : request :=
  Build_request POST (ThreadMessages thread_id) headers
    (Some (VDict [("role", VStr "user"); ("content", message)])) None.

(** The request that starts the run. *)
Definition run_request (thread_id headers agent_id : value) : request :=
  Build_request POST (ThreadRuns thread_id) headers
    (Some (VDict [("assistant_id", agent_id)])) None.

(** The request that creates a thread. *)
Definition thread_request (headers : value) : request :=
  Build_request POST Threads headers (Some (VDict [])) None.

(** [response.json()['id']] of a reply that is a response. *)
Definition id_of (rp : reply) : result value :=
  match rp with
  | Returns r => (body <- json r ;; Py.getitem body "id")%result
  | Fails e => Raise e
  end.

(** What [send_message] gives when a request of its was not accepted: the
    exception of the request, or [None] for a response it does not take. *)
Definition refused (rp : reply) : result value :=
  match rp with
  | Returns _ => Ok VNone
  | Fails e => Raise e
  end.

(** What the headers function of a file gives for the result of the token
    request. *)
Definition headers_for (W : World) (f : file) (token : result string)
    : result value :=
  match token with
  | Ok t => Ok (json_headers "Authorization" ("Bearer " ++ t))
  | Raise _ =>
      if no_api_key W then
        match f with
        | agent_py =>
            Raise (RuntimeError "No Azure auth available. Set AZURE_AI_API_KEY or enable Managed Identity.")
        | app_py => Ok VNone
        end
      else
        Ok (json_headers "api-key"
              match AZURE_AI_API_KEY W with Some k => k | None => "" end)
  end.

Definition agent_payload_of (W : World) (f : file) : value :=
  match f with
  | agent_py => @agent.agent_payload W
  | app_py => app.agent_payload
  end.

(** The request that creates the agent. *)
Definition creation_request (W : World) (f : file) (headers : value) : request :=
  Build_request POST Assistants headers (Some (agent_payload_of W f)) (Some 30).

(** How a submission of approvals ends the pass of the loop. *)
Definition submitted (f : file) (rp : reply) : result ctl :=
  match rp with
  | Returns r => if status_code r =? 200 then Ok (goes_on_by f) else Ok Break
  | Fails e => Raise e
  end.

(** The pause after an accepted approval: [agent.py] falls through to the
    sleep, [app.py] continues at once. *)
Definition pause_after_approval (f : file) : list event :=
  match f with
  | agent_py => [Sleep 1]
  | app_py => []
  end.

(** The runs of the polling loop as a grammar of traces: [passes f t rid h n
    r E] when [n] attempts are left, the loop gives [r] and emits [E]. *)
Inductive passes {W : World} (f : file) (thread_id run_id headers : value)
    : nat -> result (option value) -> list event -> Prop :=
| passes_out :
    passes f thread_id run_id headers O (Ok None) []
| passes_idle n rp r E :
    classify rp = Idle ->
    passes f thread_id run_id headers n r E ->
    passes f thread_id run_id headers (S n) r
      (Request (poll_request thread_id run_id headers) rp :: Sleep 1 :: E)
| passes_failed n rp :
    classify rp = Failed ->
    passes f thread_id run_id headers (S n) (Ok None)
      [Request (poll_request thread_id run_id headers) rp]
| passes_broken n rp e :
    classify rp = Broken e ->
    passes f thread_id run_id headers (S n) (Raise e)
      [Request (poll_request thread_id run_id headers) rp]
| passes_completed n rp lrp :
    classify rp = Completed ->
    passes f thread_id run_id headers (S n) (leave (completed_outcome lrp))
      [Request (poll_request thread_id run_id headers) rp;
       Request (listing_request thread_id headers) lrp]
| passes_unapproved n rp run_data c (s1 s2 : state W) :
    classify rp = RequiresAction run_data ->
    on_requires_action_of f thread_id run_id headers run_data s1 = (c, s2, []) ->
    goes_on c = false ->
    passes f thread_id run_id headers (S n) (leave c)
      [Request (poll_request thread_id run_id headers) rp]
| passes_rejected n rp run_data records srp (s1 s2 : state W) :
    classify rp = RequiresAction run_data ->
    on_requires_action_of f thread_id run_id headers run_data s1 =
      (submitted f srp, s2,
       [Request (submit_request thread_id run_id headers records) srp]) ->
    records <> [] ->
    answered_200 srp = false ->
    passes f thread_id run_id headers (S n) (leave (submitted f srp))
      [Request (poll_request thread_id run_id headers) rp;
       Request (submit_request thread_id run_id headers records) srp]
| passes_approved n rp run_data records srp (s1 s2 : state W) r E :
    classify rp = RequiresAction run_data ->
    on_requires_action_of f thread_id run_id headers run_data s1 =
      (submitted f srp, s2,
       [Request (submit_request thread_id run_id headers records) srp]) ->
    records <> [] ->
    answered_200 srp = true ->
    passes f thread_id run_id headers n r E ->
    passes f thread_id run_id headers (S n) r
      (Request (poll_request thread_id run_id headers) rp
       :: Request (submit_request thread_id run_id headers records) srp
       :: pause_after_approval f ++ E).

(** What [create_thread] returns for the reply to its request. *)
Definition thread_made (rp : reply) : value :=
  if accepted rp then
    match id_of rp with
    | Ok id => id
    | Raise _ => VNone
    end
  else VNone.

(** The run of the loop, with what [send_message] makes of its result. *)
Definition finished {W : World}
    (x : result (option value) * state W * list event)
    : result value * state W * list event :=
  let '(r, s, E) := x in (finish r, s, E).

(** What [send_message] does once it holds the agent and the headers, over
    the loop it runs. *)
Definition exchange {W : World}
    (loop : value -> state W -> result (option value) * state W * list event)
    (thread_id message agent_id headers : value) (s : state W)
    : result value * state W * list event :=
  let rq1 := message_request thread_id headers message in
  let rp1 := answer s rq1 in
  let s1 := after s rq1 in
  if accepted rp1 then
    let rq2 := run_request thread_id headers agent_id in
    let rp2 := answer s1 rq2 in
    let s2 := after s1 rq2 in
    if accepted rp2 then
      match id_of rp2 with
      | Raise e => (Raise e, s2, [Request rq1 rp1; Request rq2 rp2])
      | Ok run_id =>
          prepend [Request rq1 rp1; Request rq2 rp2]
            (finished (loop run_id s2))
      end
    else (refused rp2, s2, [Request rq1 rp1; Request rq2 rp2])
  else (refused rp1, s1, [Request rq1 rp1]).

(** The events of the polling loop. *)
Definition loop_event (ev : event) : bool :=
  match ev with
  | Request rq _ => is_poll rq || is_listing rq || is_submission rq
  | Sleep _ => true
  | GetToken _ => false
  end.

(** The poll leaves the run unfinished: the loop falls through to its
    sleep. *)
Definition is_idle (rp : reply) : bool :=
  match classify rp with
  | Idle => true
  | _ => false
  end.

(** The poll could not be read: the request raised, or the body of a 200
    was no JSON or had no [status]. *)
Definition is_broken (rp : reply) : bool :=
  match classify rp with
  | Broken _ => true
  | _ => false
  end.

(** The replies to the submissions of approvals. *)
Definition approvals (E : list event) : list reply :=
  map snd (calls is_submission E).

(** The pauses [file] makes for the approvals that were accepted. *)
Definition approval_pauses (f : file) (E : list event) : nat :=
  match f with
  | agent_py => length (filter answered_200 (approvals E))
  | app_py => O
  end.

(** The trace ends with the events [tail]. *)
Definition ends_with (E tail : list event) : Prop :=
  exists E0, E = (E0 ++ tail)%list.

(** The exception a poll raises in the loop: that of the request, of
    [.json()] on a 200, or of [run_data['status']]. *)
Definition poll_exception (rp : reply) : option exn :=
  match rp with
  | Fails e => Some e
  | Returns r =>
      if status_code r =? 200 then
        match json r with
        | Raise e => Some e
        | Ok run_data =>
            match Py.getitem run_data "status" with
            | Raise e => Some e
            | Ok _ => None
            end
        end
      else None
  end.

(** The statuses the loop knows. *)
Definition known_statuses : list string :=
  ["completed"; "requires_action"; "failed"; "cancelled"; "expired"].

(** The poll was answered with status 200 and a status the loop does not
    know. *)
Definition other_status (rp : reply) : bool :=
  match polled_status rp with
  | Some status => negb (Py.in_strs status known_statuses)
  | None => false
  end.

(** A tool call the approval loop gets past: an object that, when of type
    [mcp], has an [id]. *)
Definition approvable (tc : value) : bool :=
  is_dict tc && (negb (is_mcp tc) || has_key "id" tc).

(** The requests of the exchange with the agent: all but the creation of
    the agent and of the thread. *)
Definition is_exchange (rq : request) : bool :=
  negb (is_agent_creation rq) && negb (is_thread_creation rq).

(** The replies to the requests of a kind. *)
Definition replies (kind : request -> bool) (E : list event) : list reply :=
  map snd (calls kind E).

Definition no_auth : string :=
  "No Azure auth available. Set AZURE_AI_API_KEY or enable Managed Identity.".

(** The thread and the run a URL addresses. *)
Definition thread_of (u : url) : option value :=
  match u with
  | ThreadMessages t | ThreadRuns t | ThreadRun t _ | SubmitToolOutputs t _ =>
      Some t
  | Assistants | Threads => None
  end.

Definition run_of (u : url) : option value :=
  match u with
  | ThreadRun _ r | SubmitToolOutputs _ r => Some r
  | _ => None
  end.
(** ** The service's side of an approved run *)

(** The tool calls a [required_action] payload holds under [field],
    whatever its [type]. *)
Definition held_under (field : string) (required_action : value)
    : option (list value) :=
  match required_action with
  | VDict kv =>
      match lookup field kv with
      | Some (VDict details) =>
          match lookup "tool_calls" details with
          | Some (VList tool_calls) => Some tool_calls
          | _ => None
          end
      | _ => None
      end
  | _ => None
  end.

(** The [type] of the payload is [field]. *)
Definition type_is (field : string) (required_action : value) : bool :=
  match required_action with
  | VDict kv =>
      match lookup "type" kv with
      | Some ty => Py.eq_str ty field
      | None => false
      end
  | _ => false
  end.

(** Whether a file reads the pending calls under [field]: [agent.py] reads
    the field that the [type] of the payload names, [app.py] the field that
    is there. *)
Definition reads_field (f : file) (field : string) (required_action : value)
    : bool :=
  match f with
  | agent_py => type_is field required_action
  | app_py => true
  end.

(** The [id] of a tool call. *)
Definition call_id (tc : value) : value :=
  match tc with
  | VDict kv =>
      match lookup "id" kv with
      | Some id => id
      | None => VNone
      end
  | _ => VNone
  end.

(** The approval records that are due for a list of pending calls: one for
    each call of type [mcp], in the order of the calls, with the id of the
    call, [approve] true and an empty [headers] map. *)
Definition approvals_for (tool_calls : list value) : list value :=
  map (fun tc =>
         VDict [("tool_call_id", call_id tc);
                ("approve", VBool true);
                ("headers", VDict [])])
      (filter is_mcp tool_calls).

(** The state of the process once [get_headers] has asked for its token. *)
Definition with_token {W : World} (s : state W) : state W :=
  Build_state (AGENT_ID s) (current_thread_id s)
    (snd (get_token W (remote s))).

(** The state in which [send_message] enters its loop, when the agent is
    cached and the headers are [h]: after the token, the message and the
    creation of the run. *)
Definition loop_entry {W : World} (t m h : value) (s : state W) : state W :=
  after (after (with_token s) (message_request t h m))
    (run_request t h (AGENT_ID s)).

(** The service lets [send_message] of [f] start a run: the agent is
    cached, the headers are [h], and the service accepts the message and
    creates the run [run_id]. *)
Definition starts_run {W : World} (f : file) (t m : value) (s : state W)
    (h run_id : value) : Prop :=
  Py.truthy (AGENT_ID s) = true /\
  headers_for W f (fst (get_token W (remote s))) = Ok h /\
  accepted (answer (with_token s) (message_request t h m)) = true /\
  accepted (answer (after (with_token s) (message_request t h m))
              (run_request t h (AGENT_ID s))) = true /\
  id_of (answer (after (with_token s) (message_request t h m))
           (run_request t h (AGENT_ID s))) = Ok run_id.

(** The state in which the poll after an accepted approval arrives:
    [agent.py] has paused a second, [app.py] has not. *)
Definition resumed {W : World} (f : file) (s : state W) : state W :=
  match f with
  | agent_py => slept 1 s
  | app_py => s
  end.

(** From state [s] on, the service answers the polls of the run with
    [queued], a second later with [requires_action] and the payload
    [required_action], takes the submission of [records] with status 200,
    and then answers the poll with [completed] and the listing with
    [messages]. *)
Definition approves_and_completes {W : World} (f : file) (t run_id h : value)
    (s : state W) (required_action : value) (records messages : list value)
    : Prop :=
  let poll := poll_request t run_id h in
  let submit := submit_request t run_id h records in
  let s1 := slept 1 (after s poll) in
  let s2 := after s1 poll in
  let s3 := resumed f (after s2 submit) in
  has_status "queued" (answer s poll) = true /\
  has_status "requires_action" (answer s1 poll) = true /\
  required_action_of (answer s1 poll) = Some required_action /\
  answered_200 (answer s2 submit) = true /\
  has_status "completed" (answer s3 poll) = true /\
  listed_messages (answer (after s3 poll) (listing_request t h))
  = Some messages.

(** The events of a loop that polls, pauses, polls, submits [records],
    resumes as [f] does, polls and lists. *)
Definition approval_trace {W : World} (f : file) (t run_id h : value)
    (s : state W) (records : list value) : list event :=
  let poll := poll_request t run_id h in
  let submit := submit_request t run_id h records in
  let listing := listing_request t h in
  let s1 := slept 1 (after s poll) in
  let s2 := after s1 poll in
  let s3 := resumed f (after s2 submit) in
  ([Request poll (answer s poll); Sleep 1;
    Request poll (answer s1 poll); Request submit (answer s2 submit)]
     ++ pause_after_approval f
     ++ [Request poll (answer s3 poll);
         Request listing (answer (after s3 poll) listing)])%list.

(** ** How a call ends *)

(** The last event of a pass of the loop that went on to the next attempt:
    the pause after the poll, or an approval the service accepted. *)
Definition went_on (ev : event) : bool :=
  match ev with
  | Sleep _ => true
  | Request rq rp => is_submission rq && answered_200 rp
  | GetToken _ => false
  end.

(** The poll budget is spent: thirty polls were made and the last pass of
    the loop went on, so that the loop ran out of attempts. *)
Definition budget_spent (E : list event) : bool :=
  (length (polls E) =? 30)%nat && went_on (last E (GetToken (Ok ""))).

(** The failed token of a call was asked for the headers of the thread
    creation: no thread was cached and it is the only token of the call. *)
Definition thread_token (W : World) (s : state W) (E : list event) : bool :=
  negb (Py.truthy (current_thread_id s)) && (length (tokens E) =? 1)%nat.


(** ** attach_learn_mcp_tool.py

    The script that tests an agent: it creates a thread and a run, polls
    the run and approves the pending tool calls.  [AGENT_ID] is the
    identifier the script reads from its environment.  Unlike the two
    applications the script makes its headers anew before every request,
    gives every request a timeout of 30 seconds and lets
    [raise_for_status] raise on an error status. *)

Module attach.
Section Program.
Context {W : World}.
Variable AGENT_ID : value.
Local Open Scope proc_scope.

Definition get_headers : M W value :=
  try_except
    (token <- credential_token ;;
     ret (json_headers "Authorization" ("Bearer " ++ token)))
    (fun _ =>
       match AZURE_AI_API_KEY W with
       | Some api_key =>
           if String.eqb api_key ""
           then raise (RuntimeError "No Azure auth available. Set AZURE_AI_API_KEY or enable Managed Identity.")
           else ret (json_headers "api-key" api_key)
       | None =>
           raise (RuntimeError "No Azure auth available. Set AZURE_AI_API_KEY or enable Managed Identity.")
       end).

Definition create_thread : M W value :=
  headers <- get_headers ;;
  r <- requests_post Threads headers (VDict []) (Some 30) ;;
  raise_for_status r ;;;
  body <- lift (json r) ;;
  lift (Py.getitem body "id").

Definition create_run (thread_id message : value) : M W value :=
  headers <- get_headers ;;
  r <- requests_post (ThreadMessages thread_id) headers
         (VDict [("role", VStr "user"); ("content", message)]) (Some 30) ;;
  raise_for_status r ;;;
  headers <- get_headers ;;
  r <- requests_post (ThreadRuns thread_id) headers
         (VDict [("assistant_id", AGENT_ID)]) (Some 30) ;;
  raise_for_status r ;;;
  body <- lift (json r) ;;
  lift (Py.getitem body "id").

Definition poll_run (thread_id run_id : value) : M W value :=
  headers <- get_headers ;;
  r <- send (Build_request GET (ThreadRun thread_id run_id) headers None
               (Some 30)) ;;
  raise_for_status r ;;;
  lift (json r).

Definition approve_pending_tool_calls (thread_id run_id required_action : value)
    : M W bool :=
  primary <- lift (Py.get required_action "submit_tool_outputs" VNone) ;;
  details <-
    (if Py.truthy primary then ret primary
     else
       legacy <- lift (Py.get required_action "submit_tool_approval" VNone) ;;
       if Py.truthy legacy then ret legacy else ret (VDict [])) ;;
  calls <- lift (Py.get details "tool_calls" (VList [])) ;;
  if negb (Py.truthy calls) then ret false
  else
    tcs <- lift (Py.iter calls) ;;
    tool_approvals <- lift (collect_tool_approvals tcs) ;;
    headers <- get_headers ;;
    r <- requests_post (SubmitToolOutputs thread_id run_id) headers
           (VDict [("tool_approvals", VList tool_approvals)]) (Some 30) ;;
    raise_for_status r ;;;
    ret true.

(** The body of [for _ in range(30)], up to [time.sleep(1)].  The message
    printed for a failed run reads [run.get('last_error') or
    run.get('error')]. *)
Definition test_once (thread_id run_id : value) : M W ctl :=
  run <- poll_run thread_id run_id ;;
  status <- lift (Py.getitem run "status") ;;
  if Py.eq_str status "completed" then ret (Return (VBool true))
  else if Py.eq_str status "requires_action" then
    required_action <- lift (Py.getitem run "required_action") ;;
    approved <- approve_pending_tool_calls thread_id run_id required_action ;;
    if (approved : bool) then ret Continue else ret Break
  else if Py.in_strs status terminal_failure then
    last_error <- lift (Py.get run "last_error" VNone) ;;
    (if Py.truthy last_error then ret tt
     else error <- lift (Py.get run "error" VNone) ;; ret tt) ;;;
    ret (Return (VBool false))
  else ret Next.

Fixpoint test_loop (thread_id run_id : value) (attempts : nat)
    : M W (option value) :=
  match attempts with
  | O => ret None
  | S attempts' =>
      c <- test_once thread_id run_id ;;
      match c with
      | Return v => ret (Some v)
      | Break => ret None
      | Continue => test_loop thread_id run_id attempts'
      | Next => sleep 1 ;;; test_loop thread_id run_id attempts'
      end
  end.

Definition test_mcp_functionality : M W value :=
  thread_id <- create_thread ;;
  run_id <- create_run thread_id (VStr "What is Azure AI Foundry?") ;;
  returned <- test_loop thread_id run_id 30 ;;
  match returned with
  | Some verdict => ret verdict
  | None => ret (VBool false)
  end.

End Program.
End attach.

(** The answer is an error status, on which [raise_for_status] raises. *)
Definition error_status (r : response) : bool :=
  (400 <=? status_code r) && (status_code r <? 600).

(** Every request has its own token request just before it; a token request
    that no request follows is the last event. *)
Fixpoint token_before_each_request (E : list event) : bool :=
  match E with
  | [] => true
  | GetToken _ :: rest =>
      match rest with
      | [] => true
      | Request _ _ :: rest' => token_before_each_request rest'
      | _ => false
      end
  | Sleep _ :: rest => token_before_each_request rest
  | Request _ _ :: _ => false
  end.

(** Every token request is followed by its request: no token request is
    left without one. *)
Fixpoint token_with_each_request (E : list event) : bool :=
  match E with
  | [] => true
  | GetToken _ :: rest =>
      match rest with
      | Request _ _ :: rest' => token_with_each_request rest'
      | _ => false
      end
  | Sleep _ :: rest => token_with_each_request rest
  | Request _ _ :: _ => false
  end.

(** [m] asks for a token before each of its requests; when it returns, no
    token request of its is left without a request. *)
Definition paired {W : World} {A} (m : M W A) : Prop :=
  forall s r s' E,
    m s = (r, s', E) ->
    match r with
    | Ok _ => token_with_each_request E = true
    | Raise _ => token_before_each_request E = true
    end.

(** In [m] a request answered with an error status is the last event, and
    its [HTTPError] the result. *)
Definition strict {W : World} {A} (m : M W A) : Prop :=
  forall s r s' E,
    m s = (r, s', E) ->
    forall rq x,
      In (rq, Returns x) (calls any_request E) ->
      error_status x = true ->
      r = Raise (HTTPError (http_error x)) /\
      ends_with E [Request rq (Returns x)].

(** The events of [approve_pending_tool_calls]: a token request and the
    submission. *)
Definition approval_event_or_token (ev : event) : bool :=
  match ev with
  | Request rq _ => is_submission rq
  | Sleep _ => false
  | GetToken _ => true
  end.

(** The trace ends with a poll that was answered without an error status
    and whose body reads [completed]. *)
Definition read_completed (E : list event) : Prop :=
  exists rq x run,
    ends_with E [Request rq (Returns x)] /\
    is_poll rq = true /\ error_status x = false /\ json x = Ok run /\
    Py.getitem run "status" = Ok (VStr "completed").
(** ** Services that follow a script *)

Module script.

Definition ok (body : value) : reply :=
  Returns (Build_response 200 (Ok body) "").

Definition with_id (id : string) : reply := ok (VDict [("id", VStr id)]).

Definition run_status (status : string) : reply :=
  ok (VDict [("id", VStr "run_1"); ("status", VStr status)]).

Definition unavailable : reply :=
  Returns (Build_response 503 (Raise (Exn "JSONDecodeError" "Expecting value"))
             "503 Server Error").

Definition tool_call (id ty : string) : value :=
  VDict [("id", VStr id); ("type", VStr ty)].

Definition pending : list value :=
  [tool_call "call_1" "mcp"; tool_call "call_2" "function";
   tool_call "call_3" "mcp"].

Definition run_requires (field : string) : reply :=
  ok (VDict [("id", VStr "run_1"); ("status", VStr "requires_action");
             ("required_action",
              VDict [("type", VStr field);
                     (field, VDict [("tool_calls", VList pending)])])]).

Definition message (role : string) (content : list value) : value :=
  VDict [("role", VStr role); ("content", VList content)].

Definition text (t : string) : value :=
  VDict [("type", VStr "text"); ("text", VDict [("value", VStr t)])].

Definition listing (messages : list value) : reply :=
  ok (VDict [("data", VList messages)]).

(** The service answers the [n]-th poll with the [n]-th reply of
    [poll_script] and with [poll_default] after them, every listing with
    [on_listing] and every approval with [on_submit]; its state is the
    number of polls so far and the number of threads created. *)
Definition world (poll_script : list reply) (poll_default : reply)
    (on_listing on_submit : reply) : World :=
  Build_World (nat * nat)
    (fun sigma rq =>
       if is_poll rq then
         (nth (fst sigma) poll_script poll_default, (S (fst sigma), snd sigma))
       else if is_listing rq then (on_listing, sigma)
       else if is_submission rq then (on_submit, sigma)
       else if is_thread_creation rq then
         (with_id (if Nat.eqb (snd sigma) 0 then "thread_1" else "thread_2"),
          (fst sigma, S (snd sigma)))
       else (with_id (match req_url rq with
                      | Assistants => "asst_1"
                      | ThreadRuns _ => "run_1"
                      | _ => "msg_1"
                      end), sigma))
    (fun _ sigma => sigma)
    (fun sigma => (Ok "token", sigma))
    None
    "https://learn.microsoft.com/api/mcp"
    "mslearn".

Definition start (W : World) (sigma : server W) : state W :=
  Build_state VNone VNone sigma.

Definition hello : list value :=
  [message "assistant" [text "Hello"]; message "user" [text "Hi"]].

(** queued, requires_action, completed *)
Definition approving (field : string) : World :=
  world [run_status "queued"; run_requires field; run_status "completed"]
        (run_status "completed") (listing hello) (ok (VDict [])).

Definition always (status : string) : World :=
  world [] (run_status status) (listing hello) (ok (VDict [])).

Definition down : World :=
  world [] unavailable (listing hello) (ok (VDict [])).

Definition completed_with (messages : list value) : World :=
  world [] (run_status "completed") (listing messages) (ok (VDict [])).

Definition say (message : string) : result value :=
  Ok (VDict [("message", VStr message)]).

(** [W] with every request of [kind] answered by [rp]. *)
Definition answering (kind : request -> bool) (rp : reply) (W : World) : World :=
  Build_World (server W)
    (fun sigma rq => if kind rq then (rp, sigma) else serve W sigma rq)
    (tick W) (get_token W) (AZURE_AI_API_KEY W) (MCP_SERVER_URL W)
    (MCP_SERVER_LABEL W).

(** [W] with a credential provider that has no credential, and the API key
    [api_key]. *)
Definition without_token (api_key : option string) (W : World) : World :=
  Build_World (server W) (serve W) (tick W)
    (fun sigma =>
       (Raise (Exn "CredentialUnavailableError" "no credential"), sigma))
    api_key (MCP_SERVER_URL W) (MCP_SERVER_LABEL W).

Definition refusal : reply :=
  Returns (Build_response 400 (Ok (VDict [("error", VStr "bad request")]))
             "400 Client Error").

Definition timed_out : reply := Fails (Exn "ReadTimeout" "read timed out").

(** A poll that reads [requires_action] with the pending calls [calls]
    under [field]. *)
Definition run_requiring (field : string) (calls : list value) : reply :=
  ok (VDict [("id", VStr "run_1"); ("status", VStr "requires_action");
             ("required_action",
              VDict [("type", VStr field);
                     (field, VDict [("tool_calls", VList calls)])])]).

End script.
(** ** Running the monad: inversion of its operations *)

Section Inversion.
Context {W : World}.

Lemma bind_inv {A B} (m : M W A) (f : A -> M W B) s r s' E :
  bind m f s = (r, s', E) ->
  (exists a s1 E1 E2,
      m s = (Ok a, s1, E1) /\ f a s1 = (r, s', E2) /\ E = (E1 ++ E2)%list) \/
  (exists e, m s = (Raise e, s', E) /\ r = Raise e).
Proof.
  unfold bind. destruct (m s) as [[[a|e] s1] E1].
  - destruct (f a s1) as [[r2 s2] E2] eqn:Hf. intros H. inversion H; subst.
    left. exists a, s1, E1, E2. auto.
  - intros H. inversion H; subst. right. exists e. auto.
Qed.

Lemma try_except_inv {A} (m : M W A) (h : exn -> M W A) s r s' E :
  try_except m h s = (r, s', E) ->
  (exists a, m s = (Ok a, s', E) /\ r = Ok a) \/
  (exists e s1 E1 E2,
      m s = (Raise e, s1, E1) /\ h e s1 = (r, s', E2) /\ E = (E1 ++ E2)%list).
Proof.
  unfold try_except. destruct (m s) as [[[a|e] s1] E1].
  - intros H. inversion H; subst. left. exists a. auto.
  - destruct (h e s1) as [[r2 s2] E2] eqn:Hh. intros H. inversion H; subst.
    right. exists e, s1, E1, E2. auto.
Qed.

Lemma send_inv rq (s : state W) r s' E :
  send rq s = (r, s', E) ->
  exists rp,
    rp = fst (serve W (remote s) rq) /\
    E = [Request rq rp] /\
    AGENT_ID s' = AGENT_ID s /\
    current_thread_id s' = current_thread_id s /\
    remote s' = snd (serve W (remote s) rq) /\
    r = match rp with Returns x => Ok x | Fails e => Raise e end.
Proof.
  unfold send. destruct (serve W (remote s) rq) as [rp sigma].
  intros H. inversion H; subst. exists rp. simpl. auto 10.
Qed.

End Inversion.

Ltac clean_results :=
  repeat match goal with
         | Q : Ok _ = Raise _ |- _ => discriminate Q
         | Q : Raise _ = Ok _ |- _ => discriminate Q
         | Q : Ok _ = Ok _ |- _ => injection Q; clear Q; intros; subst
         | Q : Raise _ = Raise _ |- _ => injection Q; clear Q; intros; subst
         | Q : ?x = ?x |- _ => clear Q
         end.

Ltac use_eq Q :=
  first [ discriminate Q
        | injection Q; clear Q; intros; subst
        | subst
        | idtac ];
  clean_results.

(** A run that is a triple by itself. *)
Ltac inv_triple H :=
  first [ discriminate H
        | injection H; clear H; intros; subst; clean_results ].

(** One step of inversion on a hypothesis that runs a computation. *)
Ltac run_inv H :=
  lazymatch type of H with
  | bind _ _ _ = _ =>
      let a := fresh "a" in
      let s1 := fresh "s" in
      let E1 := fresh "E" in
      let E2 := fresh "E" in
      let e := fresh "e" in
      let H1 := fresh "Hrun" in
      let H2 := fresh "Hrun" in
      let Q := fresh "Heq" in
      apply bind_inv in H;
      destruct H as [(a & s1 & E1 & E2 & H1 & H2 & Q) | (e & H1 & Q)];
      use_eq Q
  | try_except _ _ _ = _ =>
      let a := fresh "a" in
      let s1 := fresh "s" in
      let E1 := fresh "E" in
      let E2 := fresh "E" in
      let e := fresh "e" in
      let H1 := fresh "Hrun" in
      let H2 := fresh "Hrun" in
      let Q := fresh "Heq" in
      apply try_except_inv in H;
      destruct H as [(a & H1 & Q) | (e & s1 & E1 & E2 & H1 & H2 & Q)];
      use_eq Q
  | ret _ _ = _ => unfold ret in H; inv_triple H
  | raise _ _ = _ => unfold raise in H; inv_triple H
  | lift _ _ = _ => unfold lift in H; inv_triple H
  | get_AGENT_ID _ = _ => unfold get_AGENT_ID in H; inv_triple H
  | set_AGENT_ID _ _ = _ => unfold set_AGENT_ID in H; inv_triple H
  | get_current_thread_id _ = _ =>
      unfold get_current_thread_id in H; inv_triple H
  | set_current_thread_id _ _ = _ =>
      unfold set_current_thread_id in H; inv_triple H
  | sleep _ _ = _ => unfold sleep in H; inv_triple H
  | raise_for_status _ _ = _ => unfold raise_for_status in H
  | (if ?b then _ else _) _ = _ => destruct b eqn:?
  | (match ?c with Some _ => _ | None => _ end) _ = _ => destruct c eqn:?
  | (match ?c with Next => _ | Continue => _ | Break => _ | Return _ => _ end) _ = _ =>
      destruct c eqn:?
  end.

Ltac run_all :=
  repeat match goal with
         | H : _ = (_, _, _) |- _ => progress (run_inv H)
         end.

(** ** Traces: what a computation may emit *)

Lemma calls_app kind E1 E2 :
  calls kind (E1 ++ E2) = (calls kind E1 ++ calls kind E2)%list.
Proof.
  induction E1 as [|ev E1 IH]; simpl; [reflexivity|].
  destruct ev as [rq rp| |]; auto.
  destruct (kind rq); simpl; congruence.
Qed.

Lemma polls_app E1 E2 : polls (E1 ++ E2) = (polls E1 ++ polls E2)%list.
Proof. unfold polls. now rewrite calls_app, map_app. Qed.

Lemma listings_app E1 E2 :
  listings (E1 ++ E2) = (listings E1 ++ listings E2)%list.
Proof. unfold listings. now rewrite calls_app, map_app. Qed.

Lemma submissions_app E1 E2 :
  submissions (E1 ++ E2) = (submissions E1 ++ submissions E2)%list.
Proof. unfold submissions. now rewrite calls_app, map_app. Qed.

Lemma sleeps_app E1 E2 : sleeps (E1 ++ E2) = (sleeps E1 ++ sleeps E2)%list.
Proof.
  induction E1 as [|ev E1 IH]; simpl; [reflexivity|].
  destruct ev; simpl; congruence.
Qed.

Lemma all_events_app p E1 E2 :
  all_events p E1 -> all_events p E2 -> all_events p (E1 ++ E2).
Proof. intros H1 H2. apply Forall_app. auto. Qed.

Lemma all_events_weaken (p q : event -> bool) E :
  (forall ev, p ev = true -> q ev = true) -> all_events p E -> all_events q E.
Proof. intros Hpq H. eapply Forall_impl; [|exact H]. auto. Qed.

Lemma calls_none kind p E :
  (forall rq rp, p (Request rq rp) = true -> kind rq = false) ->
  all_events p E -> calls kind E = [].
Proof.
  intros Hk H. induction H as [|ev E Hev _ IH]; simpl; [reflexivity|].
  destruct ev as [rq rp| |]; auto. now rewrite (Hk rq rp Hev).
Qed.

Lemma sleeps_none p E :
  (forall secs, p (Sleep secs) = false) -> all_events p E -> sleeps E = [].
Proof.
  intros Hk H. induction H as [|ev E Hev _ IH]; simpl; [reflexivity|].
  destruct ev as [rq rp|secs|]; auto. rewrite Hk in Hev. discriminate.
Qed.

Lemma prelude_is_run_event ev : prelude_event ev = true -> run_event ev = true.
Proof.
  destruct ev as [rq rp| |]; simpl; auto.
  destruct (is_thread_creation rq); simpl; auto.
  now rewrite andb_false_r.
Qed.

Lemma approval_is_run_event ev : approval_event ev = true -> run_event ev = true.
Proof.
  destruct ev as [rq rp| |]; simpl; auto.
  destruct rq as [[] [] ? ? ?]; simpl; auto.
Qed.

Section Within.
Context {W : World}.

Lemma within_ret p {A} (a : A) : @within W p A (ret a).
Proof. intros s r s' E H. inversion H; subst. split; [reflexivity|constructor]. Qed.

Lemma within_raise p {A} e : within p (@raise W A e).
Proof. intros s r s' E H. inversion H; subst. split; [reflexivity|constructor]. Qed.

Lemma within_lift p {A} (x : result A) : @within W p A (lift x).
Proof. intros s r s' E H. inversion H; subst. split; [reflexivity|constructor]. Qed.

Lemma within_bind p {A B} (m : M W A) (f : A -> M W B) :
  within p m -> (forall a, within p (f a)) -> within p (bind m f).
Proof.
  intros Hm Hf s r s' E H. run_inv H.
  - destruct (Hm _ _ _ _ Hrun) as [T1 P1].
    destruct (Hf _ _ _ _ _ Hrun0) as [T2 P2].
    split; [congruence|]. now apply all_events_app.
  - exact (Hm _ _ _ _ Hrun).
Qed.

Lemma within_try_except p {A} (m : M W A) (h : exn -> M W A) :
  within p m -> (forall e, within p (h e)) -> within p (try_except m h).
Proof.
  intros Hm Hh s r s' E H. run_inv H.
  - exact (Hm _ _ _ _ Hrun).
  - destruct (Hm _ _ _ _ Hrun) as [T1 P1].
    destruct (Hh _ _ _ _ _ Hrun0) as [T2 P2].
    split; [congruence|]. now apply all_events_app.
Qed.

Lemma within_send p rq :
  (forall rp, p (Request rq rp) = true) -> @within W p _ (send rq).
Proof.
  intros Hp s r s' E H. apply send_inv in H.
  destruct H as (rp & _ & -> & _ & T & _). split; [exact T|].
  constructor; [apply Hp|constructor].
Qed.

Lemma within_sleep p secs :
  p (Sleep secs) = true -> @within W p _ (sleep secs).
Proof.
  intros Hp s r s' E H. inversion H; subst. split; [reflexivity|].
  constructor; [exact Hp|constructor].
Qed.

Lemma within_credential_token p :
  (forall r, p (GetToken r) = true) -> within p (@credential_token W).
Proof.
  intros Hp s r s' E H. unfold credential_token in H.
  destruct (get_token W (remote s)) as [r0 sigma]. inversion H; subst.
  split; [reflexivity|]. constructor; [apply Hp|constructor].
Qed.

Lemma within_get_AGENT_ID p : within p (@get_AGENT_ID W).
Proof. intros s r s' E H. inversion H; subst. split; [reflexivity|constructor]. Qed.

Lemma within_set_AGENT_ID p v : within p (@set_AGENT_ID W v).
Proof. intros s r s' E H. inversion H; subst. split; [reflexivity|constructor]. Qed.

Lemma within_raise_for_status p r : within p (@raise_for_status W r).
Proof.
  unfold raise_for_status.
  destruct (_ && _); [apply within_raise|apply within_ret].
Qed.

Lemma within_weaken (p q : event -> bool) {A} (m : M W A) :
  (forall ev, p ev = true -> q ev = true) -> within p m -> within q m.
Proof.
  intros Hpq Hm s r s' E H. destruct (Hm _ _ _ _ H) as [T P].
  split; [exact T|]. eapply all_events_weaken; eauto.
Qed.

End Within.

(** Decomposes a goal [within p m] along the structure of [m]. *)
Ltac within_step :=
  lazymatch goal with
  | |- within _ (bind _ _) => apply within_bind; [|intros ?]
  | |- within _ (try_except _ _) => apply within_try_except; [|intros ?]
  | |- within _ (ret _) => apply within_ret
  | |- within _ (raise _) => apply within_raise
  | |- within _ (lift _) => apply within_lift
  | |- within _ (requests_get _ _) => apply within_send; intros ?; reflexivity
  | |- within _ (requests_post _ _ _ _) => apply within_send; intros ?; reflexivity
  | |- within _ (sleep _) => apply within_sleep; reflexivity
  | |- within _ credential_token => apply within_credential_token; intros ?; reflexivity
  | |- within _ get_AGENT_ID => apply within_get_AGENT_ID
  | |- within _ (set_AGENT_ID _) => apply within_set_AGENT_ID
  | |- within _ (raise_for_status _) => apply within_raise_for_status
  | |- within _ (if ?b then _ else _) => destruct b
  | |- within _ (match ?c with Some _ => _ | None => _ end) => destruct c
  | |- within _ (match ?c with Next => _ | Continue => _ | Break => _ | Return _ => _ end) =>
      destruct c
  | |- within _ (let _ := _ in _) => cbv zeta
  end.

Ltac within_auto := repeat within_step.


Lemma eq_str_true v s : Py.eq_str v s = true -> v = VStr s.
Proof.
  destruct v; simpl; try discriminate. intros H.
  apply String.eqb_eq in H. congruence.
Qed.

Ltac case_match :=
  match goal with
  | |- context [match ?x with _ => _ end] =>
      lazymatch type of x with
      | prod _ _ => fail
      | _ => destruct x eqn:?; simpl
      end
  end.

(** *** Reading a poll reply *)

Lemma classify_polled_completed rp :
  polled rp "completed" -> classify rp = Completed.
Proof.
  unfold polled, polled_status, classify. destruct rp as [r|e]; [|discriminate].
  destruct (status_code r =? 200); [|discriminate].
  destruct (json r) as [d|]; [|discriminate].
  destruct (Py.getitem d "status"); [|discriminate].
  intros H. inversion H; subst. reflexivity.
Qed.

Lemma classify_polled_requires_action rp :
  polled rp "requires_action" ->
  exists r run_data,
    rp = Returns r /\ json r = Ok run_data /\
    classify rp = RequiresAction run_data.
Proof.
  unfold polled, polled_status, classify. destruct rp as [r|e]; [|discriminate].
  destruct (status_code r =? 200); [|discriminate].
  destruct (json r) as [d|] eqn:Hd; [|discriminate].
  destruct (Py.getitem d "status"); [|discriminate].
  intros H. inversion H; subst. exists r, d. repeat split; auto.
Qed.

Lemma classify_polled_failure rp status :
  polled_status rp = Some status ->
  Py.in_strs status terminal_failure = true ->
  classify rp = Failed.
Proof.
  unfold polled_status, classify. destruct rp as [r|e]; [|discriminate].
  destruct (status_code r =? 200); [|discriminate].
  destruct (json r) as [d|]; [|discriminate].
  destruct (Py.getitem d "status"); [|discriminate].
  intros H Hf. inversion H; subst.
  destruct (Py.eq_str status "completed") eqn:E1.
  { apply eq_str_true in E1. subst. discriminate. }
  destruct (Py.eq_str status "requires_action") eqn:E2.
  { apply eq_str_true in E2. subst. discriminate. }
  now rewrite Hf.
Qed.

Lemma classify_polled_idle rp status :
  polled_status rp = Some status ->
  Py.eq_str status "completed" = false ->
  Py.eq_str status "requires_action" = false ->
  Py.in_strs status terminal_failure = false ->
  classify rp = Idle.
Proof.
  unfold polled_status, classify. destruct rp as [r|e]; [|discriminate].
  destruct (status_code r =? 200); [|discriminate].
  destruct (json r) as [d|]; [|discriminate].
  destruct (Py.getitem d "status"); [|discriminate].
  intros H H1 H2 H3. inversion H; subst. now rewrite H1, H2, H3.
Qed.

Lemma classify_not_200 r : status_code r <> 200 -> classify (Returns r) = Idle.
Proof.
  intros H. unfold classify.
  destruct (status_code r =? 200) eqn:E; [|reflexivity].
  apply Z.eqb_eq in E. contradiction.
Qed.

Section Shared.
Context {W : World}.
Variable on_requires_action : value -> value -> value -> value -> M W ctl.
Hypothesis on_requires_action_within :
  forall t r h d, within approval_event (on_requires_action t r h d).

Lemma on_completed_eq tid h (s : state W) :
  agent.on_completed tid h s =
  (completed_outcome (answer s (listing_request tid h)),
   after s (listing_request tid h),
   [Request (listing_request tid h) (answer s (listing_request tid h))]).
Proof.
  unfold agent.on_completed, requests_get, send, bind, lift, ret,
    completed_outcome, answer, after, listing_request, Py.bind.
  destruct (serve W (remote s) _) as [[r|e] sigma]; simpl; [|reflexivity].
  repeat case_match; reflexivity.
Qed.

Lemma poll_once_eq tid rid h (s : state W) :
  let rq := poll_request tid rid h in
  shared.poll_once on_requires_action tid rid h s =
  match classify (answer s rq) with
  | Idle => (Ok Next, after s rq, [Request rq (answer s rq)])
  | Failed => (Ok Break, after s rq, [Request rq (answer s rq)])
  | Completed =>
      prepend [Request rq (answer s rq)] (agent.on_completed tid h (after s rq))
  | RequiresAction run_data =>
      prepend [Request rq (answer s rq)]
        (on_requires_action tid rid h run_data (after s rq))
  | Broken e => (Raise e, after s rq, [Request rq (answer s rq)])
  end.
Proof.
  unfold shared.poll_once, requests_get, send, bind, lift, ret, classify,
    answer, after, poll_request, prepend.
  destruct (serve W (remote s) _) as [[r|e] sigma]; simpl; [|reflexivity].
  destruct (status_code r =? 200); simpl; [|reflexivity].
  destruct (json r) as [d|e]; simpl; [|reflexivity].
  destruct (Py.getitem d "status") as [st|e]; simpl; [|reflexivity].
  destruct (Py.eq_str st "completed"); simpl.
  { destruct (agent.on_completed _ _ _) as [[c s1] E1]. reflexivity. }
  destruct (Py.eq_str st "requires_action"); simpl.
  { destruct (on_requires_action _ _ _ _ _) as [[c s1] E1]. reflexivity. }
  repeat case_match; reflexivity.
Qed.

Lemma poll_loop_S tid rid h n (s : state W) :
  shared.poll_loop on_requires_action tid rid h (S n) s =
  match shared.poll_once on_requires_action tid rid h s with
  | (Ok Next, s1, E1) =>
      prepend (E1 ++ [Sleep 1])
        (shared.poll_loop on_requires_action tid rid h n (slept 1 s1))
  | (Ok Continue, s1, E1) =>
      prepend E1 (shared.poll_loop on_requires_action tid rid h n s1)
  | (c, s1, E1) => (leave c, s1, E1)
  end.
Proof.
  simpl. unfold bind at 1.
  destruct (shared.poll_once _ _ _ _ _) as [[[c|e] s1] E1]; [|reflexivity].
  destruct c; simpl.
  - unfold bind, sleep, prepend, slept. simpl.
    destruct (shared.poll_loop _ _ _ _ _ _) as [[r s2] E2].
    now rewrite <- app_assoc.
  - unfold prepend. destruct (shared.poll_loop _ _ _ _ _ _) as [[r s2] E2].
    reflexivity.
  - now rewrite app_nil_r.
  - now rewrite app_nil_r.
Qed.

End Shared.

Lemma completed_outcome_leaves rp : goes_on (completed_outcome rp) = false.
Proof.
  unfold completed_outcome, Py.bind. destruct rp as [r|e]; simpl; [|reflexivity].
  destruct (status_code r =? 200); [|reflexivity].
  destruct (json r) as [body|]; [|reflexivity].
  destruct (Py.getitem body "data") as [messages|]; [|reflexivity].
  destruct (Py.iter messages) as [msgs|]; [|reflexivity].
  destruct (first_assistant_text msgs) as [[content|]|]; reflexivity.
Qed.

Section Loop.
Context {W : World}.
Variable on_requires_action : value -> value -> value -> value -> M W ctl.
Hypothesis on_requires_action_within :
  forall t r h d, within approval_event (on_requires_action t r h d).
Variables thread_id run_id headers : value.

Let rq := poll_request thread_id run_id headers.
Let loop := shared.poll_loop on_requires_action thread_id run_id headers.

(** One pass of the loop, by what the poll was answered. *)
Lemma poll_loop_S_inv n (s : state W) r s' E :
  loop (S n) s = (r, s', E) ->
  exists E',
    E = Request rq (answer s rq) :: E' /\
    match classify (answer s rq) with
    | Idle =>
        exists E2,
          E' = Sleep 1 :: E2 /\ loop n (slept 1 (after s rq)) = (r, s', E2)
    | Failed => E' = [] /\ r = Ok None
    | Broken e => E' = [] /\ r = Raise e
    | Completed =>
        exists rp,
          E' = [Request (listing_request thread_id headers) rp] /\
          r = leave (completed_outcome rp)
    | RequiresAction run_data =>
        exists c s1 E1,
          on_requires_action thread_id run_id headers run_data (after s rq)
          = (c, s1, E1) /\
          all_events approval_event E1 /\
          match c with
          | Ok Next =>
              exists E2,
                E' = (E1 ++ Sleep 1 :: E2)%list /\
                loop n (slept 1 s1) = (r, s', E2)
          | Ok Continue =>
              exists E2, E' = (E1 ++ E2)%list /\ loop n s1 = (r, s', E2)
          | _ => E' = E1 /\ r = leave c
          end
    end.
Proof.
  unfold loop. rewrite poll_loop_S, poll_once_eq. fold rq.
  destruct (classify (answer s rq)) as [| | |d|e]; simpl.
  - destruct (shared.poll_loop _ _ _ _ _ _) as [[r2 s2] E2] eqn:Hl. simpl.
    intros H. inversion H; subst. eexists. split; [reflexivity|].
    exists E2. split; [reflexivity|first [exact Hl|reflexivity]].
  - intros H. inversion H; subst. eauto.
  - rewrite on_completed_eq. simpl.
    set (lrp := answer (after s rq) (listing_request thread_id headers)).
    pose proof (completed_outcome_leaves lrp) as L.
    destruct (completed_outcome lrp) as [[]|] eqn:Ho; try discriminate;
      intros H; inversion H; subst; eexists; (split; [reflexivity|]);
      exists lrp; rewrite Ho; auto.
  - destruct (on_requires_action _ _ _ _ _) as [[c s1] E1] eqn:Hra.
    pose proof (on_requires_action_within _ _ _ _ _ _ _ _ Hra) as [_ HE].
    destruct c as [[]|]; simpl.
    + destruct (shared.poll_loop _ _ _ _ _ _) as [[r2 s2] E2] eqn:Hl. simpl.
      intros H. inversion H; subst. eexists. split; [reflexivity|].
      exists (Ok Next), s1, E1. repeat split; auto.
      exists E2. rewrite <- app_assoc. split; [reflexivity|first [exact Hl|reflexivity]].
    + destruct (shared.poll_loop _ _ _ _ _ _) as [[r2 s2] E2] eqn:Hl. simpl.
      intros H. inversion H; subst. eexists. split; [reflexivity|].
      exists (Ok Continue), s1, E1. repeat split; auto.
      exists E2. split; [reflexivity|first [exact Hl|reflexivity]].
    + intros H. inversion H; subst. eexists. split; [reflexivity|].
      do 3 eexists. split; [first [exact Hra|reflexivity]|]. simpl. auto.
    + intros H. inversion H; subst. eexists. split; [reflexivity|].
      do 3 eexists. split; [first [exact Hra|reflexivity]|]. simpl. auto.
    + intros H. inversion H; subst. eexists. split; [reflexivity|].
      do 3 eexists. split; [first [exact Hra|reflexivity]|]. simpl. auto.
  - intros H. inversion H; subst. eauto.
Qed.

Lemma polls_rq rp E : polls (Request rq rp :: E) = rp :: polls E.
Proof. reflexivity. Qed.

Lemma listings_rq rp E : listings (Request rq rp :: E) = listings E.
Proof. reflexivity. Qed.

Lemma submissions_rq rp E : submissions (Request rq rp :: E) = submissions E.
Proof. reflexivity. Qed.

Lemma polls_sleep secs E : polls (Sleep secs :: E) = polls E.
Proof. reflexivity. Qed.

Lemma listings_sleep secs E : listings (Sleep secs :: E) = listings E.
Proof. reflexivity. Qed.

Lemma submissions_sleep secs E : submissions (Sleep secs :: E) = submissions E.
Proof. reflexivity. Qed.

Ltac trace_simpl :=
  rewrite ?polls_rq, ?listings_rq, ?submissions_rq, ?polls_sleep,
    ?listings_sleep, ?submissions_sleep in *.

Lemma approvals_only E :
  all_events approval_event E ->
  polls E = [] /\ listings E = [] /\ sleeps E = [].
Proof.
  intros H. unfold polls, listings.
  rewrite (calls_none is_poll approval_event E),
    (calls_none is_listing approval_event E); auto.
  - repeat split. apply (sleeps_none approval_event); auto.
  - intros [[] [] ? ? ?] rp; cbv; intros ?; congruence.
  - intros [[] [] ? ? ?] rp; cbv; intros ?; congruence.
Qed.

(** While every poll is answered idly the loop polls and sleeps, [n] times
    over, and is left without a result. *)
Lemma loop_idle n : forall (s : state W) r s' E,
  loop n s = (r, s', E) ->
  Forall (fun rp => classify rp = Idle) (polls E) ->
  r = Ok None /\ E = idle_cycles rq (polls E) /\ length (polls E) = n.
Proof.
  induction n as [|n IH]; intros s r s' E H Hidle.
  - inversion H; subst. auto.
  - apply poll_loop_S_inv in H. destruct H as (E' & -> & H).
    trace_simpl.
    inversion Hidle as [|? ? Hrp Hrest]; subst. rewrite Hrp in H.
    destruct H as (E2 & -> & H).
    trace_simpl.
    destruct (IH _ _ _ _ H Hrest) as (-> & HE & Hn).
    repeat split; simpl; congruence.
Qed.

(** A poll that reads a terminal failure ends the loop without a result. *)
Lemma loop_failed n : forall (s : state W) r s' E,
  loop n s = (r, s', E) ->
  Exists (fun rp => classify rp = Failed) (polls E) ->
  r = Ok None.
Proof.
  induction n as [|n IH]; intros s r s' E H Hex.
  - inversion H; subst. inversion Hex.
  - apply poll_loop_S_inv in H. destruct H as (E' & -> & H).
    trace_simpl.
    destruct (classify (answer s rq)) as [| | |d|e] eqn:Hc.
    + destruct H as (E2 & -> & H).
      inversion Hex as [? ? Hrp|? ? Hrest]; subst; [congruence|]. eauto.
    + tauto.
    + destruct H as (rp & -> & _).
      inversion Hex as [? ? Hrp|? ? Hrest]; subst; [congruence|]. inversion Hrest.
    + destruct H as (c & s1 & E1 & _ & HE1 & H).
      apply approvals_only in HE1. destruct HE1 as (P1 & _ & _).
      inversion Hex as [? ? Hrp|? ? Hrest]; subst; [congruence|].
      destruct c as [[]|].
      * destruct H as (E2 & -> & H). rewrite polls_app, P1 in Hrest. eauto.
      * destruct H as (E2 & -> & H). rewrite polls_app, P1 in Hrest. eauto.
      * destruct H as [-> _]. rewrite P1 in Hrest. inversion Hrest.
      * destruct H as [-> _]. rewrite P1 in Hrest. inversion Hrest.
      * destruct H as [-> _]. rewrite P1 in Hrest. inversion Hrest.
    + destruct H as [-> _].
      inversion Hex as [? ? Hrp|? ? Hrest]; subst; [congruence|]. inversion Hrest.
Qed.

(** A poll that reads [completed] is followed by one listing, and the loop
    gives what the listing holds. *)
Lemma loop_completed n : forall (s : state W) r s' E,
  loop n s = (r, s', E) ->
  Exists (fun rp => classify rp = Completed) (polls E) ->
  exists rp, listings E = [rp] /\ r = leave (completed_outcome rp).
Proof.
  induction n as [|n IH]; intros s r s' E H Hex.
  - inversion H; subst. inversion Hex.
  - apply poll_loop_S_inv in H. destruct H as (E' & -> & H).
    trace_simpl.
    trace_simpl.
    destruct (classify (answer s rq)) as [| | |d|e] eqn:Hc.
    + destruct H as (E2 & -> & H).
      inversion Hex as [? ? Hrp|? ? Hrest]; subst; [congruence|].
      exact (IH _ _ _ _ H Hrest).
    + destruct H as [-> _].
      inversion Hex as [? ? Hrp|? ? Hrest]; subst; [congruence|]. inversion Hrest.
    + destruct H as (rp & -> & ->). exists rp. auto.
    + destruct H as (c & s1 & E1 & _ & HE1 & H).
      apply approvals_only in HE1. destruct HE1 as (P1 & L1 & _).
      inversion Hex as [? ? Hrp|? ? Hrest]; subst; [congruence|].
      destruct c as [[]|].
      * destruct H as (E2 & -> & H). rewrite polls_app, P1 in Hrest.
        rewrite listings_app, L1. exact (IH _ _ _ _ H Hrest).
      * destruct H as (E2 & -> & H). rewrite polls_app, P1 in Hrest.
        rewrite listings_app, L1. exact (IH _ _ _ _ H Hrest).
      * destruct H as [-> _]. rewrite P1 in Hrest. inversion Hrest.
      * destruct H as [-> _]. rewrite P1 in Hrest. inversion Hrest.
      * destruct H as [-> _]. rewrite P1 in Hrest. inversion Hrest.
    + destruct H as [-> _].
      inversion Hex as [? ? Hrp|? ? Hrest]; subst; [congruence|]. inversion Hrest.
Qed.

(** Polls answered idly, with [requires_action], with [completed]: the
    branch [requires_action] ran once and went on, the approvals of the run
    are its approvals, and the loop gives what the listing holds. *)
Lemma loop_approved n (s : state W) r s' E rp1 rp2 rp3 run_data :
  loop n s = (r, s', E) ->
  polls E = [rp1; rp2; rp3] ->
  classify rp1 = Idle ->
  classify rp2 = RequiresAction run_data ->
  classify rp3 = Completed ->
  (exists c s1 s2 E1,
      on_requires_action thread_id run_id headers run_data s1 = (c, s2, E1) /\
      goes_on c = true /\ submissions E = submissions E1) /\
  exists rp, listings E = [rp] /\ r = leave (completed_outcome rp).
Proof.
  intros H HP C1 C2 C3. split.
  2:{ eapply loop_completed; eauto. rewrite HP. auto. }
  destruct n as [|n]; [inversion H; subst; discriminate|].
  apply poll_loop_S_inv in H. destruct H as (E' & -> & H).
  trace_simpl.
  inversion HP as [[Hrp1 HP']]. rewrite Hrp1, C1 in H.
  destruct H as (E2 & -> & H).
    trace_simpl.
    trace_simpl.
  clear HP Hrp1. revert H HP'. generalize (slept 1 (after s rq)). intros s0 H HP.
  destruct n as [|n]; [inversion H; subst; discriminate|].
  apply poll_loop_S_inv in H. destruct H as (E' & -> & H).
  trace_simpl.
    trace_simpl.
  inversion HP as [[Hrp2 HP']]. rewrite Hrp2, C2 in H.
  destruct H as (c & s1 & E1 & Hra & HE1 & H).
  exists c, (after s0 rq), s1, E1. split; [exact Hra|].
  apply approvals_only in HE1. destruct HE1 as (P1 & _ & _).
  assert (Hlast : forall m (s2 : state W) E2,
             loop m s2 = (r, s', E2) -> polls E2 = [rp3] -> submissions E2 = []).
  { intros m s2 E3 Hl HP3.
    destruct m as [|m]; [inversion Hl; subst; discriminate|].
    apply poll_loop_S_inv in Hl. destruct Hl as (E4 & -> & Hl).
    trace_simpl.
    inversion HP3 as [[Hrp3 HP4]]. rewrite Hrp3, C3 in Hl.
    destruct Hl as (rp & -> & _). reflexivity. }
  destruct c as [[]|].
  - destruct H as (E2 & -> & H). rewrite polls_app, P1 in HP'.
    split; [reflexivity|]. rewrite submissions_app.
    trace_simpl.
    rewrite (Hlast _ _ _ H HP'). now rewrite app_nil_r.
  - destruct H as (E2 & -> & H). rewrite polls_app, P1 in HP'.
    split; [reflexivity|]. rewrite submissions_app.
    rewrite (Hlast _ _ _ H HP'). now rewrite app_nil_r.
  - destruct H as [-> _]. rewrite P1 in HP'. discriminate.
  - destruct H as [-> _]. rewrite P1 in HP'. discriminate.
  - destruct H as [-> _]. rewrite P1 in HP'. discriminate.
Qed.

End Loop.

(** *** The approval records *)

Lemma collect_covers tool_calls : forall records,
  collect_tool_approvals tool_calls = Ok records ->
  covers_mcp_calls tool_calls records.
Proof.
  unfold covers_mcp_calls.
  induction tool_calls as [|tc rest IH]; intros records H; simpl in H.
  - inversion H; subst. constructor.
  - destruct tc as [| | | | |kv]; simpl in H; try discriminate.
    simpl. destruct (lookup "type" kv) as [ty|]; simpl in H.
    + destruct (Py.eq_str ty "mcp").
      * destruct (lookup "id" kv) as [id|] eqn:Hid; simpl in H; [|discriminate].
        destruct (collect_tool_approvals rest) as [more|]; simpl in H;
          [|discriminate].
        inversion H; subst. constructor; auto.
        exists id. simpl. rewrite Hid. auto.
      * auto.
    + auto.
Qed.

Lemma approval_run_goes_on {W : World} go tid rid h tool_calls
    (s : state W) c s' E :
  approval_run go tid rid h tool_calls s = (c, s', E) ->
  goes_on c = true ->
  exists records,
    submissions E = [Some (VDict [("tool_approvals", VList records)])] /\
    covers_mcp_calls tool_calls records /\ records <> [].
Proof.
  unfold approval_run.
  destruct (collect_tool_approvals tool_calls) as [[|rec records]|e] eqn:Hc;
    intros H; inversion H; subst; try discriminate.
  intros _. exists (rec :: records). repeat split.
  - now apply collect_covers.
  - discriminate.
Qed.

(** *** Equal continuations give equal runs *)

Lemma bind_ext {W : World} {A B} (m : M W A) (f g : A -> M W B) s :
  (forall a s1, f a s1 = g a s1) -> bind m f s = bind m g s.
Proof.
  intros H. unfold bind. destruct (m s) as [[[a|e] s1] E1]; [|reflexivity].
  now rewrite H.
Qed.

Lemma bind_ext_run {W : World} {A B} (m m' : M W A) (f : A -> M W B) s :
  (forall s1, m s1 = m' s1) -> bind m f s = bind m' f s.
Proof. intros H. unfold bind. now rewrite H. Qed.

Lemma try_except_ext {W : World} {A} (m m' : M W A) (h : exn -> M W A) s :
  (forall s1, m s1 = m' s1) -> try_except m h s = try_except m' h s.
Proof. intros H. unfold try_except. now rewrite H. Qed.

Ltac ext_step :=
  match goal with
  | |- bind ?m _ ?s = bind ?m _ ?s => apply bind_ext; intros ? ?
  | |- try_except _ ?h ?s = try_except _ ?h ?s => apply try_except_ext; intros ?
  | |- (if ?b then _ else _) _ = (if ?b then _ else _) _ => destruct b
  | |- ?x = ?x => reflexivity
  end.

Section Components.
Context {W : World}.

Lemma token_is_prelude_event ev : token_event ev = true -> prelude_event ev = true.
Proof. destruct ev; simpl; auto; discriminate. Qed.

Lemma token_is_thread_event ev : token_event ev = true -> thread_event ev = true.
Proof. destruct ev; simpl; auto; discriminate. Qed.

Lemma agent_get_headers_within : within token_event (@agent.get_headers W).
Proof. unfold agent.get_headers. within_auto. Qed.

Lemma app_get_auth_headers_within : within token_event (@app.get_auth_headers W).
Proof. unfold app.get_auth_headers. within_auto. Qed.

Lemma agent_create_agent_within : within prelude_event (@agent.create_agent W).
Proof.
  unfold agent.create_agent. within_auto.
  eapply within_weaken; [exact token_is_prelude_event|].
  apply agent_get_headers_within.
Qed.

Lemma app_create_agent_within : within prelude_event (@app.create_agent W).
Proof.
  unfold app.create_agent. within_auto.
  eapply within_weaken; [exact token_is_prelude_event|].
  apply app_get_auth_headers_within.
Qed.

Lemma agent_create_thread_within : within thread_event (@agent.create_thread W).
Proof.
  unfold agent.create_thread. within_auto.
  eapply within_weaken; [exact token_is_thread_event|].
  apply agent_get_headers_within.
Qed.

Lemma app_create_thread_within : within thread_event (@app.create_thread W).
Proof.
  unfold app.create_thread. within_auto.
  eapply within_weaken; [exact token_is_thread_event|].
  apply app_get_auth_headers_within.
Qed.

Lemma agent_on_requires_action_within t r h d :
  within approval_event (@agent.on_requires_action W t r h d).
Proof. unfold agent.on_requires_action. within_auto. Qed.

Lemma app_on_requires_action_within t r h d :
  within approval_event (@app.on_requires_action W t r h d).
Proof. unfold app.on_requires_action. within_auto. Qed.

Lemma agent_create_thread_once (s : state W) r s' E :
  agent.create_thread s = (r, s', E) ->
  (length (calls is_thread_creation E) <= 1)%nat.
Proof.
  unfold agent.create_thread, requests_post. intros H. run_all;
    repeat match goal with
           | H : agent.get_headers _ = _ |- _ =>
               apply agent_get_headers_within in H; destruct H as [_ H];
               apply (calls_none is_thread_creation) in H;
               [|intros ? ? Q; destruct rq; discriminate Q]
           | H : send _ _ = _ |- _ =>
               apply send_inv in H; destruct H as (? & _ & -> & _ & _ & _ & _)
           end;
    rewrite ?calls_app;
    repeat match goal with
           | H : calls _ _ = [] |- _ => rewrite H
           end; simpl; lia.
Qed.

Lemma app_create_thread_once (s : state W) r s' E :
  app.create_thread s = (r, s', E) ->
  (length (calls is_thread_creation E) <= 1)%nat.
Proof.
  unfold app.create_thread, requests_post. intros H. run_all;
    repeat match goal with
           | H : app.get_auth_headers _ = _ |- _ =>
               apply app_get_auth_headers_within in H; destruct H as [_ H];
               apply (calls_none is_thread_creation) in H;
               [|intros ? ? Q; destruct rq; discriminate Q]
           | H : send _ _ = _ |- _ =>
               apply send_inv in H; destruct H as (? & _ & -> & _ & _ & _ & _)
           end;
    rewrite ?calls_app;
    repeat match goal with
           | H : calls _ _ = [] |- _ => rewrite H
           end; simpl; lia.
Qed.

(** The two files run the shared text. *)
Lemma agent_poll_loop_shared t r h n :
  @agent.poll_loop W t r h n = shared.poll_loop agent.on_requires_action t r h n.
Proof.
  induction n as [|n IH]; [reflexivity|].
  cbn [agent.poll_loop app.poll_loop shared.poll_loop]. rewrite IH. reflexivity.
Qed.

Lemma app_poll_loop_shared t r h n :
  @app.poll_loop W t r h n = shared.poll_loop app.on_requires_action t r h n.
Proof.
  induction n as [|n IH]; [reflexivity|].
  cbn [agent.poll_loop app.poll_loop shared.poll_loop]. rewrite IH. reflexivity.
Qed.

Lemma agent_send_message_shared t m s :
  @agent.send_message W t m s =
  shared.send_message agent.on_requires_action agent.create_agent
    agent.get_headers t m s.
Proof.
  unfold agent.send_message, shared.send_message, agent.max_attempts.
  repeat ext_step. now rewrite agent_poll_loop_shared.
Qed.

Lemma app_send_message_shared t m s :
  @app.send_message W t m s =
  shared.send_message app.on_requires_action app.create_agent
    app.get_auth_headers t m s.
Proof.
  unfold app.send_message, shared.send_message, app.max_attempts.
  repeat ext_step. now rewrite app_poll_loop_shared.
Qed.

Lemma agent_chat_shared g s :
  @agent.chat W g s =
  shared.chat agent.on_requires_action agent.create_agent agent.get_headers
    agent.create_thread g s.
Proof.
  unfold agent.chat, shared.chat. repeat ext_step.
  apply bind_ext_run. intros ?. apply agent_send_message_shared.
Qed.

Lemma app_chat_shared g s :
  @app.chat W g s =
  shared.chat app.on_requires_action app.create_agent app.get_auth_headers
    app.create_thread g s.
Proof.
  unfold app.chat, shared.chat. repeat ext_step.
  apply bind_ext_run. intros ?. apply app_send_message_shared.
Qed.

End Components.

Ltac all_events_auto :=
  repeat first
    [ assumption
    | apply Forall_nil
    | apply Forall_cons; [reflexivity|]
    | match goal with
      | |- all_events _ (_ ++ _) => apply all_events_app
      end ].

Section Run.
Context {W : World}.
Variable on_requires_action : value -> value -> value -> value -> M W ctl.
Variable create_agent : M W value.
Variable get_headers : M W value.
Variable create_thread : M W value.
Hypothesis on_requires_action_within :
  forall t r h d, within approval_event (on_requires_action t r h d).
Hypothesis create_agent_within : within prelude_event create_agent.
Hypothesis get_headers_within : within token_event get_headers.
Hypothesis create_thread_within : within thread_event create_thread.
Hypothesis create_thread_once :
  forall s r s' E,
    create_thread s = (r, s', E) ->
    (length (calls is_thread_creation E) <= 1)%nat.

Let send_message :=
  shared.send_message on_requires_action create_agent get_headers.
Let chat :=
  shared.chat on_requires_action create_agent get_headers create_thread.

Lemma poll_loop_within t r h n :
  within run_event (shared.poll_loop on_requires_action t r h n).
Proof.
  induction n as [|n IH]; simpl; [apply within_ret|].
  apply within_bind.
  - unfold shared.poll_once, agent.on_completed. within_auto.
    eapply within_weaken; [exact approval_is_run_event|]. auto.
  - intros []; within_auto; auto.
Qed.

Lemma send_message_within t m : within run_event (send_message t m).
Proof.
  unfold send_message, shared.send_message. within_auto.
  - eapply within_weaken; [exact prelude_is_run_event|]. auto.
  - eapply within_weaken; [|exact get_headers_within].
    intros ev H. now apply prelude_is_run_event, token_is_prelude_event.
  - apply poll_loop_within.
Qed.

(** [send_message] either stops before its loop, having polled nothing,
    or runs the loop of thirty attempts and returns by what it gave. *)
Lemma send_message_inv t m (s : state W) r s' E :
  send_message t m s = (r, s', E) ->
  (all_events prelude_event E /\ r <> Ok (VStr fallback)) \/
  (exists E0 E1 s0 rid h r1,
      E = (E0 ++ E1)%list /\ all_events prelude_event E0 /\
      shared.poll_loop on_requires_action t rid h 30 s0 = (r1, s', E1) /\
      r = finish r1).
Proof.
  unfold send_message, shared.send_message, requests_post. intros H.
  run_all;
    repeat match goal with
           | H : create_agent _ = _ |- _ =>
               apply create_agent_within in H; destruct H as [_ H]
           | H : get_headers _ = _ |- _ =>
               apply get_headers_within in H; destruct H as [_ H];
               apply (all_events_weaken _ _ _ token_is_prelude_event) in H
           | H : send _ _ = _ |- _ =>
               apply send_inv in H; destruct H as (? & _ & -> & _ & _ & _ & _)
           end;
    rewrite ?app_nil_r, ?app_nil_l, ?app_assoc;
    lazymatch goal with
    | H : shared.poll_loop _ _ _ _ _ _ = _ |- _ =>
        right; do 6 eexists;
        (split; [reflexivity|]);
        (split; [all_events_auto|]);
        (split; [exact H|reflexivity])
    | _ => left; (split; [all_events_auto|congruence])
    end.
Qed.

Lemma prelude_quiet E :
  all_events prelude_event E ->
  polls E = [] /\ listings E = [] /\ submissions E = [] /\ sleeps E = [] /\
  calls is_thread_creation E = [].
Proof.
  intros H. unfold polls, listings, submissions.
  rewrite (calls_none is_poll prelude_event E),
    (calls_none is_listing prelude_event E),
    (calls_none is_submission prelude_event E),
    (calls_none is_thread_creation prelude_event E); auto.
  - repeat split. apply (sleeps_none prelude_event); auto.
  - intros [[] [] ? ? ?] rp; cbv; intros ?; congruence.
  - intros [[] [] ? ? ?] rp; cbv; intros ?; congruence.
  - intros [[] [] ? ? ?] rp; cbv; intros ?; congruence.
  - intros [[] [] ? ? ?] rp; cbv; intros ?; congruence.
Qed.

(** Every poll answered idly: thirty polls, each followed by the sleep, and
    the fallback. *)
Lemma send_message_idle t m (s : state W) r s' E :
  send_message t m s = (r, s', E) ->
  polls E <> [] ->
  Forall (fun rp => classify rp = Idle) (polls E) ->
  r = Ok (VStr fallback) /\ length (polls E) = 30%nat /\
  exists E0 rid h,
    E = (E0 ++ idle_cycles (poll_request t rid h) (polls E))%list /\
    all_events prelude_event E0.
Proof.
  intros H Hne Hidle. apply send_message_inv in H.
  destruct H as [[HE _]|(E0 & E1 & s0 & rid & h & r1 & -> & HE0 & Hloop & ->)].
  { apply prelude_quiet in HE. destruct HE as (P & _). contradiction. }
  pose proof (prelude_quiet _ HE0) as (P0 & _).
  rewrite polls_app, P0 in Hne, Hidle |- *. simpl app in Hne, Hidle |- *.
  destruct (loop_idle _ on_requires_action_within _ _ _ _ _ _ _ _ Hloop Hidle)
    as (-> & HE1 & Hn).
  repeat split; auto. exists E0, rid, h. split; [congruence|assumption].
Qed.

(** A poll that reads a terminal failure: the fallback. *)
Lemma send_message_failed t m (s : state W) r s' E :
  send_message t m s = (r, s', E) ->
  Exists (fun rp => classify rp = Failed) (polls E) ->
  r = Ok (VStr fallback).
Proof.
  intros H Hex. apply send_message_inv in H.
  destruct H as [[HE _]|(E0 & E1 & s0 & rid & h & r1 & -> & HE0 & Hloop & ->)].
  { apply prelude_quiet in HE. destruct HE as (P & _). rewrite P in Hex.
    inversion Hex. }
  pose proof (prelude_quiet _ HE0) as (P0 & _).
  rewrite polls_app, P0 in Hex. simpl in Hex.
  now rewrite (loop_failed _ on_requires_action_within _ _ _ _ _ _ _ _ Hloop Hex).
Qed.

(** A poll that reads [completed]: one listing, and the result is what the
    listing holds. *)
Lemma send_message_completed t m (s : state W) r s' E :
  send_message t m s = (r, s', E) ->
  Exists (fun rp => classify rp = Completed) (polls E) ->
  exists rp, listings E = [rp] /\ r = finish (leave (completed_outcome rp)).
Proof.
  intros H Hex. apply send_message_inv in H.
  destruct H as [[HE _]|(E0 & E1 & s0 & rid & h & r1 & -> & HE0 & Hloop & ->)].
  { apply prelude_quiet in HE. destruct HE as (P & _). rewrite P in Hex.
    inversion Hex. }
  pose proof (prelude_quiet _ HE0) as (P0 & L0 & _).
  rewrite polls_app, P0 in Hex. simpl in Hex.
  destruct (loop_completed _ on_requires_action_within _ _ _ _ _ _ _ _ Hloop Hex)
    as (rp & HL & ->).
  exists rp. rewrite listings_app, L0. auto.
Qed.

(** Polls answered idly, with [requires_action], with [completed]. *)
Lemma send_message_approved t m (s : state W) r s' E rp1 rp2 rp3 run_data :
  send_message t m s = (r, s', E) ->
  polls E = [rp1; rp2; rp3] ->
  classify rp1 = Idle ->
  classify rp2 = RequiresAction run_data ->
  classify rp3 = Completed ->
  (exists c s1 s2 E1 rid h,
      on_requires_action t rid h run_data s1 = (c, s2, E1) /\
      goes_on c = true /\ submissions E = submissions E1) /\
  exists rp, listings E = [rp] /\ r = finish (leave (completed_outcome rp)).
Proof.
  intros H HP C1 C2 C3. split.
  2:{ eapply send_message_completed; eauto. rewrite HP. auto. }
  apply send_message_inv in H.
  destruct H as [[HE _]|(E0 & E1 & s0 & rid & h & r1 & -> & HE0 & Hloop & ->)].
  { apply prelude_quiet in HE. destruct HE as (P & _). congruence. }
  pose proof (prelude_quiet _ HE0) as (P0 & _ & S0 & _).
  rewrite polls_app, P0 in HP. simpl in HP.
  destruct (loop_approved _ on_requires_action_within _ _ _ _ _ _ _ _ _ _ _ _
              Hloop HP C1 C2 C3) as [(c & s1 & s2 & E2 & Hra & Hgo & HS) _].
  exists c, s1, s2, E2, rid, h. rewrite submissions_app, S0. auto.
Qed.

(** The ways [chat] ends: before any request, on a thread that could not be
    created, or with what [send_message] gave on the cached thread. *)
Lemma chat_inv g (s : state W) resp s' E :
  chat g s = (resp, s', E) ->
  exists body code,
    resp = Ok (body, code) /\
    ((E = [] /\ s' = s /\ (exists m, body = error_body m) /\
      (code = 400 \/ code = 500) /\
      (code = 400 ->
       exists data message,
         g = Ok data /\ Py.get data "message" (VStr "") = Ok message /\
         Py.truthy message = false)) \/
     (Py.truthy (current_thread_id s) = false /\
      all_events thread_event E /\
      (length (calls is_thread_creation E) <= 1)%nat /\
      (exists m, body = error_body m) /\
      code = 500 /\ Py.truthy (current_thread_id s') = false) \/
     (exists E0 E1 s0 message sent,
         E = (E0 ++ E1)%list /\ all_events thread_event E0 /\
         (length (calls is_thread_creation E0) <= 1)%nat /\
         (Py.truthy (current_thread_id s) = true -> E0 = [] /\ s0 = s) /\
         Py.truthy (current_thread_id s0) = true /\
         Py.truthy message = true /\
         send_message (current_thread_id s0) message s0 = (sent, s', E1) /\
         current_thread_id s' = current_thread_id s0 /\
         (body, code) = reply_for sent (current_thread_id s0))).
Proof.
  unfold chat, shared.chat. intros H. run_all.
  all: rewrite ?app_nil_r, ?app_nil_l.
  all: repeat match goal with
              | H : negb _ = true |- _ => apply negb_true_iff in H
              | H : negb _ = false |- _ => apply negb_false_iff in H
              end.
  all: try match goal with
           | H : create_thread _ = _ |- _ =>
               let T := fresh "T" in
               let P := fresh "P" in
               let O := fresh "O" in
               pose proof (create_thread_within _ _ _ _ H) as [T P];
               pose proof (create_thread_once _ _ _ _ H) as O
           end.
  all: repeat (progress (cbn [app]; rewrite ?app_nil_r)).
  all: do 2 eexists; (split; [reflexivity|]).
  all: lazymatch goal with
       | H : shared.send_message _ _ _ _ ?msg ?s0 = (?sent, _, ?E1) |- _ =>
           right; right;
           pose proof (send_message_within _ _ _ _ _ _ H) as [T' _];
           lazymatch goal with
           | Hc : create_thread _ = (_, _, ?E3) |- _ =>
               exists E3, E1, s0, msg, sent
           | _ => exists [], E1, s0, msg, sent
           end;
           split; [reflexivity|];
           split; [all_events_auto|];
           split; [first [assumption|simpl; lia]|];
           split; [intros; try congruence; auto|];
           split; [simpl; assumption|];
           split; [assumption|];
           split; [exact H|];
           split; [exact T'|];
           simpl in *; unfold reply_for, success_body, error_body;
           rewrite ?T'; simpl;
           repeat match goal with
                  | H : Py.truthy _ = _ |- _ => rewrite H
                  end; reflexivity
       | H : create_thread _ = _ |- _ =>
           right; left; simpl in *;
           repeat split; unfold error_body; eauto; try congruence
       | _ =>
           left; repeat split; unfold error_body; eauto;
           try (intros Q; discriminate Q)
       end.
Qed.

End Run.

(** *** The branch [requires_action] on a payload that names its calls *)

Section Approval.
Context {W : World}.
Local Arguments lookup : simpl never.
Local Arguments collect_tool_approvals : simpl never.

Lemma agent_on_requires_action_named field tid rid h kv ra tool_calls
    (s : state W) :
  field = "submit_tool_outputs" \/ field = "submit_tool_approval" ->
  lookup "required_action" kv = Some ra ->
  names_calls_under field ra tool_calls ->
  agent.on_requires_action tid rid h (VDict kv) s =
  approval_run Next tid rid h tool_calls s.
Proof.
  intros Hfield Hra (rkv & details & -> & Hty & Hdet & Hcalls).
  unfold agent.on_requires_action, approval_run, bind, lift, ret,
    requests_post, send, submit_request, answer, after.
  destruct rkv as [|p rkv]; [discriminate|].
  simpl. rewrite Hra. simpl. rewrite Hty. simpl.
  destruct Hfield as [-> | ->]; simpl; rewrite Hdet; simpl; rewrite Hcalls;
    simpl;
    (destruct (collect_tool_approvals tool_calls) as [[|rec recs]|e];
     simpl; [reflexivity| |reflexivity]);
    (destruct (serve W (remote s) _) as [[r|e] sigma]; simpl;
     [destruct (status_code r =? 200); reflexivity|reflexivity]).
Qed.

Lemma app_on_requires_action_primary tid rid h kv ra tool_calls (s : state W) :
  lookup "required_action" kv = Some ra ->
  names_calls_under "submit_tool_outputs" ra tool_calls ->
  app.on_requires_action tid rid h (VDict kv) s =
  approval_run Continue tid rid h tool_calls s.
Proof.
  intros Hra (rkv & details & -> & Hty & Hdet & Hcalls).
  unfold app.on_requires_action, approval_run, bind, lift, ret,
    requests_post, send, submit_request, answer, after.
  destruct details as [|p details]; [discriminate|].
  simpl. rewrite Hra. simpl. rewrite Hdet. simpl. rewrite Hcalls. simpl.
  destruct tool_calls as [|tc rest]; [reflexivity|]. simpl.
  destruct (collect_tool_approvals (tc :: rest)) as [[|rec recs]|e];
    simpl; [reflexivity| |reflexivity].
  destruct (serve W (remote s) _) as [[r|e] sigma]; simpl;
    [destruct (status_code r =? 200); reflexivity|reflexivity].
Qed.

Lemma app_on_requires_action_legacy tid rid h kv rkv tool_calls (s : state W) :
  lookup "required_action" kv = Some (VDict rkv) ->
  lookup "submit_tool_outputs" rkv = None ->
  names_calls_under "submit_tool_approval" (VDict rkv) tool_calls ->
  app.on_requires_action tid rid h (VDict kv) s =
  approval_run Continue tid rid h tool_calls s.
Proof.
  intros Hra Hnone (rkv' & details & Heq & Hty & Hdet & Hcalls).
  inversion Heq; subst rkv'. clear Heq.
  unfold app.on_requires_action, approval_run, bind, lift, ret,
    requests_post, send, submit_request, answer, after.
  destruct details as [|p details]; [discriminate|].
  simpl. rewrite Hra. simpl. rewrite Hnone. simpl. rewrite Hdet. simpl.
  rewrite Hcalls. simpl.
  destruct tool_calls as [|tc rest]; [reflexivity|]. simpl.
  destruct (collect_tool_approvals (tc :: rest)) as [[|rec recs]|e];
    simpl; [reflexivity| |reflexivity].
  destruct (serve W (remote s) _) as [[r|e] sigma]; simpl;
    [destruct (status_code r =? 200); reflexivity|reflexivity].
Qed.

End Approval.

(** *** Decidable readings and what the loop makes of them *)

Lemma has_status_polled status rp :
  has_status status rp = true -> polled rp status.
Proof.
  unfold has_status, polled. destruct (polled_status rp) as [v|]; [|discriminate].
  intros H. apply eq_str_true in H. congruence.
Qed.

Lemma non_terminal_idle rp : non_terminal rp = true -> classify rp = Idle.
Proof.
  unfold non_terminal. intros H. apply orb_true_iff in H.
  destruct H as [H|H]; apply has_status_polled in H;
    eapply classify_polled_idle; eauto.
Qed.

Lemma not_200_idle rp : not_200 rp = true -> classify rp = Idle.
Proof.
  destruct rp as [r|e]; simpl; [|discriminate]. intros H.
  apply negb_true_iff, Z.eqb_neq in H. now apply classify_not_200.
Qed.

Lemma terminal_failed_failed rp : terminal_failed rp = true -> classify rp = Failed.
Proof.
  unfold terminal_failed. intros H. rewrite !orb_true_iff in H.
  destruct H as [[H|H]|H]; apply has_status_polled in H;
    eapply classify_polled_failure; eauto.
Qed.

Lemma completed_completed rp :
  has_status "completed" rp = true -> classify rp = Completed.
Proof. intros H. now apply classify_polled_completed, has_status_polled. Qed.

Lemma forallb_Forall_idle (p : reply -> bool) l :
  (forall rp, p rp = true -> classify rp = Idle) ->
  forallb p l = true -> Forall (fun rp => classify rp = Idle) l.
Proof.
  intros Hp H. rewrite forallb_forall in H. apply Forall_forall. auto.
Qed.

Lemma existsb_Exists (p : reply -> bool) (c : poll_class) l :
  (forall rp, p rp = true -> classify rp = c) ->
  existsb p l = true -> Exists (fun rp => classify rp = c) l.
Proof.
  intros Hp H. apply existsb_exists in H. destruct H as (rp & Hin & H).
  apply Exists_exists. eauto.
Qed.

Lemma pending_calls_names field ra tool_calls :
  pending_calls field ra = Some tool_calls ->
  names_calls_under field ra tool_calls.
Proof.
  unfold pending_calls, names_calls_under.
  destruct ra as [| | | | |kv]; try discriminate.
  destruct (lookup "type" kv) as [ty|] eqn:Hty; [|discriminate].
  destruct (lookup field kv) as [[| | | | |details]|] eqn:Hf; try discriminate.
  destruct (Py.eq_str ty field) eqn:He; [|discriminate].
  apply eq_str_true in He. subst ty.
  destruct (lookup "tool_calls" details) as [[| | | |tcs|]|] eqn:Hc;
    try discriminate.
  intros H. inversion H; subst. exists kv, details. auto.
Qed.

(** *** The scan of the listed messages *)

Lemma first_assistant_text_skip earlier rest :
  forallb not_assistant earlier = true ->
  first_assistant_text (earlier ++ rest) = first_assistant_text rest.
Proof.
  induction earlier as [|msg earlier IH]; simpl; [reflexivity|].
  intros H. apply andb_true_iff in H. destruct H as [Hm He].
  destruct msg as [| | | | |kv]; try discriminate. simpl in *.
  destruct (lookup "role" kv) as [role|]; [|discriminate]. simpl.
  apply negb_true_iff in Hm. rewrite Hm. auto.
Qed.

Lemma first_assistant_text_none msgs :
  forallb not_assistant msgs = true -> first_assistant_text msgs = Ok None.
Proof.
  intros H. rewrite <- (app_nil_r msgs). now rewrite first_assistant_text_skip.
Qed.

Lemma first_assistant_text_found msg later content :
  role_is "assistant" msg = true ->
  message_text msg = Some content ->
  first_assistant_text (msg :: later) = Ok (Some content).
Proof.
  unfold role_is, message_text, content_of, text_value.
  destruct msg as [| | | | |kv]; try discriminate. simpl.
  destruct (lookup "role" kv) as [role|]; [|discriminate]. simpl.
  intros ->. destruct (lookup "content" kv) as [[| | | |[|c0 cs]|]|];
    try discriminate. simpl.
  destruct c0 as [| | | | |ckv]; try discriminate. simpl.
  destruct (lookup "text" ckv) as [[| | | | |tkv]|]; try discriminate. simpl.
  intros ->. reflexivity.
Qed.

(** Without a text the extraction raises. *)
Lemma first_assistant_text_raises msg later :
  role_is "assistant" msg = true ->
  message_text msg = None ->
  exists e,
    first_assistant_text (msg :: later) = Raise e /\
    (content_of msg = Some [] -> e = IndexError "list") /\
    (forall kv rest,
        content_of msg = Some (VDict kv :: rest) ->
        (lookup "text" kv = None -> e = KeyError "text") /\
        (forall text,
            lookup "text" kv = Some (VDict text) -> e = KeyError "value")).
Proof.
  unfold role_is, message_text, content_of, text_value.
  destruct msg as [| | | | |kv]; try discriminate. simpl.
  destruct (lookup "role" kv) as [role|]; [|discriminate]. simpl.
  intros ->.
  destruct (lookup "content" kv) as [content|]; simpl.
  2:{ intros _. eexists. split; [reflexivity|]. split; [discriminate|].
      intros; discriminate. }
  destruct content as [| | |str|[|c0 cs]|ckv]; simpl;
    try (intros _; eexists; split; [reflexivity|];
         split; [discriminate|intros; discriminate]).
  - destruct str; simpl; intros _; eexists; (split; [reflexivity|]);
      (split; [discriminate|intros; discriminate]).
  - intros _. eexists. split; [reflexivity|]. split; [reflexivity|].
    intros; discriminate.
  - destruct c0 as [| | | | |ekv]; simpl;
      try (intros _; eexists; split; [reflexivity|];
           split; [discriminate|intros ? ? Q; discriminate Q]).
    destruct (lookup "text" ekv) as [text|] eqn:Ht; simpl.
    + destruct text as [| | | | |tkv]; simpl;
        try (intros _; eexists; split; [reflexivity|];
             split; [discriminate|];
             intros ? ? Q; injection Q; clear Q; intros; subst;
             split; [congruence|intros ? Q2; congruence]).
      destruct (lookup "value" tkv) eqn:Hv; [discriminate|]. simpl.
      intros _. eexists. split; [reflexivity|]. split; [discriminate|].
      intros ? ? Q; injection Q; clear Q; intros; subst.
      split; [congruence|reflexivity].
    + intros _. eexists. split; [reflexivity|]. split; [discriminate|].
      intros ? ? Q; injection Q; clear Q; intros; subst.
      split; [reflexivity|congruence].
Qed.

Lemma completed_outcome_listed rp msgs :
  listed_messages rp = Some msgs ->
  completed_outcome rp =
  match first_assistant_text msgs with
  | Ok (Some content) => Ok (Return content)
  | Ok None => Ok Break
  | Raise e => Raise e
  end.
Proof.
  unfold listed_messages, completed_outcome.
  destruct rp as [r|e]; [|discriminate].
  destruct (status_code r =? 200); [|discriminate].
  destruct (json r) as [[| | | | |kv]|]; try discriminate. simpl.
  destruct (lookup "data" kv) as [[| | | |l|]|]; try discriminate. simpl.
  intros H. inversion H; subst.
  destruct (first_assistant_text msgs) as [[c|]|]; reflexivity.
Qed.

(** *** Either file runs the shared text *)

Section Files.
Context {W : World}.

Lemma on_requires_action_of_within f t r h d :
  within approval_event (@on_requires_action_of W f t r h d).
Proof.
  destruct f; [apply agent_on_requires_action_within
              |apply app_on_requires_action_within].
Qed.

Lemma create_agent_of_within f : within prelude_event (@create_agent_of W f).
Proof. destruct f; [apply agent_create_agent_within|apply app_create_agent_within]. Qed.

Lemma get_headers_of_within f : within token_event (@get_headers_of W f).
Proof. destruct f; [apply agent_get_headers_within|apply app_get_auth_headers_within]. Qed.

Lemma create_thread_of_within f : within thread_event (@create_thread_of W f).
Proof. destruct f; [apply agent_create_thread_within|apply app_create_thread_within]. Qed.

Lemma create_thread_of_once f (s : state W) r s' E :
  create_thread_of f s = (r, s', E) ->
  (length (calls is_thread_creation E) <= 1)%nat.
Proof. destruct f; [apply agent_create_thread_once|apply app_create_thread_once]. Qed.

Lemma poll_loop_of_shared f t r h n :
  @poll_loop_of W f t r h n =
  shared.poll_loop (on_requires_action_of f) t r h n.
Proof. destruct f; [apply agent_poll_loop_shared|apply app_poll_loop_shared]. Qed.

Lemma send_message_of_shared f t m s :
  @send_message_of W f t m s =
  shared.send_message (on_requires_action_of f) (create_agent_of f)
    (get_headers_of f) t m s.
Proof. destruct f; [apply agent_send_message_shared|apply app_send_message_shared]. Qed.

Lemma chat_of_shared f g s :
  @chat_of W f g s =
  shared.chat (on_requires_action_of f) (create_agent_of f) (get_headers_of f)
    (create_thread_of f) g s.
Proof. destruct f; [apply agent_chat_shared|apply app_chat_shared]. Qed.

Lemma on_requires_action_of_primary f tid rid h kv ra tool_calls (s : state W) :
  lookup "required_action" kv = Some ra ->
  pending_calls "submit_tool_outputs" ra = Some tool_calls ->
  on_requires_action_of f tid rid h (VDict kv) s =
  approval_run (goes_on_by f) tid rid h tool_calls s.
Proof.
  intros Hra Hp. apply pending_calls_names in Hp. destruct f; simpl.
  - apply (agent_on_requires_action_named "submit_tool_outputs") with (ra := ra);
      auto.
  - eapply app_on_requires_action_primary; eauto.
Qed.

Lemma on_requires_action_of_legacy f tid rid h kv ra tool_calls (s : state W) :
  lookup "required_action" kv = Some ra ->
  pending_calls "submit_tool_approval" ra = Some tool_calls ->
  lacks "submit_tool_outputs" ra = true ->
  on_requires_action_of f tid rid h (VDict kv) s =
  approval_run (goes_on_by f) tid rid h tool_calls s.
Proof.
  intros Hra Hp Hl. pose proof (pending_calls_names _ _ _ Hp) as Hn.
  destruct f; simpl.
  - apply (agent_on_requires_action_named "submit_tool_approval") with (ra := ra);
      auto.
  - destruct Hn as (rkv & details & -> & _). 
    eapply app_on_requires_action_legacy; eauto.
    + unfold lacks, has_key in Hl.
      destruct (lookup "submit_tool_outputs" rkv); [discriminate|reflexivity].
    + now apply pending_calls_names.
Qed.

(** The server form of idling: if the service keeps answering idly, the
    loop polls and sleeps [n] times and is left without a result. *)
Lemma poll_loop_keeps_idle f (p : reply -> bool) tid rid h :
  (forall rp, p rp = true -> classify rp = Idle) ->
  forall n (s : state W),
    keeps_answering p n (remote s) (poll_request tid rid h) = true ->
    exists s' replies,
      poll_loop_of f tid rid h n s =
      (Ok None, s', idle_cycles (poll_request tid rid h) replies) /\
      length replies = n /\ forallb p replies = true.
Proof.
  intros Hp. induction n as [|n IH]; intros s Hk.
  - exists s, []. destruct f; repeat split; reflexivity.
  - simpl in Hk. apply andb_true_iff in Hk. destruct Hk as [H1 H2].
    destruct (poll_loop_of f tid rid h (S n) s) as [[r s'] E] eqn:Hl.
    rewrite poll_loop_of_shared in Hl.
    apply (poll_loop_S_inv _ (on_requires_action_of_within f)) in Hl.
    destruct Hl as (E' & -> & Hl).
    unfold answer in Hl. rewrite (Hp _ H1) in Hl.
    destruct Hl as (E2 & -> & Hl).
    rewrite <- poll_loop_of_shared in Hl.
    destruct (IH (slept 1 (after s (poll_request tid rid h))) H2)
      as (s2 & replies & Hrun & Hlen & Hall).
    rewrite Hrun in Hl. injection Hl; intros; subst.
    exists s', (fst (serve W (remote s) (poll_request tid rid h)) :: replies).
    repeat split; simpl; auto. now rewrite H1, Hall.
Qed.

End Files.

(** *** Chat over the shared lemmas *)

Lemma thread_quiet E :
  all_events thread_event E ->
  polls E = [] /\ listings E = [] /\ submissions E = [] /\ sleeps E = [].
Proof.
  intros H. unfold polls, listings, submissions.
  rewrite (calls_none is_poll thread_event E),
    (calls_none is_listing thread_event E),
    (calls_none is_submission thread_event E); auto.
  - repeat split. apply (sleeps_none thread_event); auto.
  - intros [[] [] ? ? ?] rp; cbv; intros ?; congruence.
  - intros [[] [] ? ? ?] rp; cbv; intros ?; congruence.
  - intros [[] [] ? ? ?] rp; cbv; intros ?; congruence.
Qed.

Lemma sleeps_idle_cycles rq replies :
  sleeps (idle_cycles rq replies) = repeat 1 (length replies).
Proof.
  induction replies as [|rp replies IH]; simpl; [reflexivity|]. now rewrite IH.
Qed.

Section Chat.
Context {W : World}.
Variable f : file.

Lemma send_message_of_inv tid msg (s : state W) r s' E :
  send_message_of f tid msg s = (r, s', E) ->
  shared.send_message (on_requires_action_of f) (create_agent_of f)
    (get_headers_of f) tid msg s = (r, s', E).
Proof. now rewrite send_message_of_shared. Qed.

(** What [chat] answers when its trace shows polls: it reached
    [send_message] on the cached thread, and the polls, listings and
    approvals of the trace are those of [send_message]. *)
Lemma chat_of_polled g (s : state W) resp s' E :
  chat_of f g s = (resp, s', E) ->
  polls E <> [] ->
  exists E0 E1 s0 message sent,
    E = (E0 ++ E1)%list /\
    polls E = polls E1 /\ listings E = listings E1 /\
    send_message_of f (current_thread_id s0) message s0 = (sent, s', E1) /\
    current_thread_id s' = current_thread_id s0 /\
    resp = Ok (reply_for sent (current_thread_id s0)).
Proof.
  rewrite chat_of_shared. intros H Hne.
  apply (chat_inv _ _ _ _ (on_requires_action_of_within f)
           (create_agent_of_within f) (get_headers_of_within f)
           (create_thread_of_within f) (create_thread_of_once f)) in H.
  destruct H as (body & code & -> & [H|[H|H]]).
  - destruct H as (-> & _). contradiction.
  - destruct H as (_ & HE & _). apply thread_quiet in HE.
    destruct HE as (P & _). contradiction.
  - destruct H as (E0 & E1 & s0 & message & sent & -> & HE0 & _ & _ & _ & _
                   & Hsend & Ht & Hr).
    apply thread_quiet in HE0. destruct HE0 as (P0 & L0 & _).
    exists E0, E1, s0, message, sent.
    rewrite polls_app, listings_app, P0, L0, send_message_of_shared, Hr.
    auto 10.
Qed.

End Chat.

(** * Properties of the orchestrator and of the /chat handler *)

(** C8: a POST /chat whose JSON body has no [message], or has the empty
    string as [message], is answered with status 400 and the body
    [{"error": "No message provided"}]; the handler issues no request at
    all, so it neither creates a thread nor starts a run, and it leaves the
    globals as they were.  This holds in [agent.py] and in [app.py]. *)
Theorem chat_without_message_is_400 (W : World) (f : file)
    (kv : list (string * value)) (s : state W) :
  lookup "message" kv = None \/ lookup "message" kv = Some (VStr "") ->
  chat_of f (Ok (VDict kv)) s =
  (Ok (error_body "No message provided", 400), s, []).
Proof.
  intros H.
  destruct f; unfold chat_of, agent.chat, app.chat, try_except, bind, lift, ret;
    simpl; destruct H as [-> | ->]; reflexivity.
Qed.

Lemma chat_without_message_is_400_witness :
  lookup "message" [("text", VStr "hello")] = None /\
  agent.chat (Ok (VDict [("text", VStr "hello")]))
    (script.start (script.always "completed") (0%nat, 0%nat)) =
  (Ok (error_body "No message provided", 400),
   script.start (script.always "completed") (0%nat, 0%nat), []).
Proof.
  split; [reflexivity|].
  apply (chat_without_message_is_400 (script.always "completed") agent_py
           [("text", VStr "hello")]).
  left. reflexivity.
Defined.

(** C6: for a non-empty message the /chat handler returns, without raising,
    exactly one of two bodies: a success body with the keys [response] and
    [thread_id] (status 200, the thread being the cached one), which has no
    key [error]; or an error body with the key [error] (status 500), which
    has neither [response] nor [thread_id]. *)
Theorem chat_answers_one_of_two (W : World) (f : file) (data message : value)
    (s : state W) :
  Py.get data "message" (VStr "") = Ok message ->
  Py.truthy message = true ->
  exists body code s' E,
    chat_of f (Ok data) s = (Ok (body, code), s', E) /\
    (((exists response,
          body = success_body response (current_thread_id s') /\
          Py.truthy response = true) /\
      code = 200 /\
      has_key "response" body = true /\ has_key "thread_id" body = true /\
      has_key "error" body = false) \/
     ((exists text, body = error_body text) /\
      code = 500 /\
      has_key "error" body = true /\
      has_key "response" body = false /\ has_key "thread_id" body = false)).
Proof.
  intros Hget Htruthy.
  destruct (chat_of f (Ok data) s) as [[resp s'] E] eqn:H.
  pose proof H as H'. rewrite chat_of_shared in H'.
  apply (chat_inv _ _ _ _ (on_requires_action_of_within f)
           (create_agent_of_within f) (get_headers_of_within f)
           (create_thread_of_within f) (create_thread_of_once f)) in H'.
  destruct H' as (body & code & -> & [Hc|[Hc|Hc]]).
  - destruct Hc as (-> & -> & (text & ->) & Hcode & H400).
    exists (error_body text), code, s, []. split; [reflexivity|]. right.
    destruct Hcode as [->| ->].
    + destruct (H400 eq_refl) as (data' & message' & Hd & Hg & Hf).
      injection Hd; intros; subst. congruence.
    + repeat split; eauto.
  - destruct Hc as (_ & _ & _ & (text & ->) & -> & _).
    exists (error_body text), 500, s', E. split; [reflexivity|]. right.
    repeat split; eauto.
  - destruct Hc as (E0 & E1 & s0 & message' & sent & -> & _ & _ & _ & Ht & _
                    & _ & Hs' & Hr).
    exists body, code, s', (E0 ++ E1)%list. split; [reflexivity|].
    unfold reply_for in Hr. rewrite Hs'.
    destruct sent as [response|e].
    + destruct (Py.truthy response) eqn:Hresp; injection Hr; intros; subst.
      * left. repeat split; eauto.
      * right. repeat split; eauto.
    + injection Hr; intros; subst. right. repeat split; eauto.
Qed.

Lemma chat_answers_one_of_two_witness :
  exists body code s' E,
    chat_of app_py (Ok (VDict [("message", VStr "hello")]))
      (script.start (script.approving "submit_tool_outputs") (0%nat, 0%nat)) =
    (Ok (body, code), s', E) /\
    (((exists response,
          body = success_body response (current_thread_id s') /\
          Py.truthy response = true) /\
      code = 200 /\
      has_key "response" body = true /\ has_key "thread_id" body = true /\
      has_key "error" body = false) \/
     ((exists text, body = error_body text) /\
      code = 500 /\
      has_key "error" body = true /\
      has_key "response" body = false /\ has_key "thread_id" body = false)).
Proof.
  exact (chat_answers_one_of_two (script.approving "submit_tool_outputs") app_py
           (VDict [("message", VStr "hello")]) (VStr "hello")
           (script.start (script.approving "submit_tool_outputs") (0%nat, 0%nat))
           eq_refl eq_refl).
Defined.

(** Consecutive calls on a cached thread keep it and create none. *)
Lemma chat_keeps_thread {W : World} (f : file) g (s : state W) resp s' E :
  Py.truthy (current_thread_id s) = true ->
  chat_of f g s = (resp, s', E) ->
  current_thread_id s' = current_thread_id s /\
  calls is_thread_creation E = [] /\
  (forall response thread_id code,
      resp = Ok (success_body response thread_id, code) ->
      thread_id = current_thread_id s).
Proof.
  intros Ht H. rewrite chat_of_shared in H.
  apply (chat_inv _ _ _ _ (on_requires_action_of_within f)
           (create_agent_of_within f) (get_headers_of_within f)
           (create_thread_of_within f) (create_thread_of_once f)) in H.
  destruct H as (body & code & -> & [Hc|[Hc|Hc]]).
  - destruct Hc as (-> & -> & (text & ->) & _). repeat split; auto.
    intros ? ? ? Q. discriminate Q.
  - destruct Hc as (Hf & _). congruence.
  - destruct Hc as (E0 & E1 & s0 & message & sent & -> & _ & _ & Hsame & _ & _
                    & Hsend & Hs' & Hr).
    destruct (Hsame Ht) as [-> ->]. simpl.
    pose proof (send_message_within _ _ _ (on_requires_action_of_within f)
                  (create_agent_of_within f) (get_headers_of_within f)
                  _ _ _ _ _ _ Hsend) as [_ HE].
    repeat split; auto.
    + apply (calls_none is_thread_creation run_event); auto.
      intros rq rp Q. simpl in Q. now apply negb_true_iff in Q.
    + intros response thread_id code' Q. injection Q; intros; subst.
      unfold reply_for in Hr. destruct sent as [v|e].
      * destruct (Py.truthy v); injection Hr; intros; congruence.
      * discriminate Hr.
Qed.

Lemma chats_keep_thread {W : World} (f : file) requests :
  forall (s : state W) resps s' E,
    Py.truthy (current_thread_id s) = true ->
    chats f requests s = (resps, s', E) ->
    current_thread_id s' = current_thread_id s /\
    calls is_thread_creation E = [].
Proof.
  induction requests as [|g rest IH]; intros s resps s' E Ht H; simpl in H.
  - injection H; intros; subst. auto.
  - destruct (chat_of f g s) as [[resp s1] E1] eqn:H1.
    destruct (chats f rest s1) as [[resps' s2] E2] eqn:H2.
    injection H; intros; subst.
    destruct (chat_keeps_thread f g s resp s1 E1 Ht H1) as (T1 & C1 & _).
    assert (Ht1 : Py.truthy (current_thread_id s1) = true) by congruence.
    destruct (IH s1 resps' s' E2 Ht1 H2) as (T2 & C2).
    split; [congruence|]. now rewrite calls_app, C1, C2.
Qed.

Lemma chat_creates_at_most_once {W : World} (f : file) g (s : state W)
    resp s' E :
  chat_of f g s = (resp, s', E) ->
  (length (calls is_thread_creation E) <= 1)%nat.
Proof.
  intros H. rewrite chat_of_shared in H.
  apply (chat_inv _ _ _ _ (on_requires_action_of_within f)
           (create_agent_of_within f) (get_headers_of_within f)
           (create_thread_of_within f) (create_thread_of_once f)) in H.
  destruct H as (body & code & -> & [Hc|[Hc|Hc]]).
  - destruct Hc as (-> & _). simpl. lia.
  - tauto.
  - destruct Hc as (E0 & E1 & s0 & message & sent & -> & _ & Hone & _ & _ & _
                    & Hsend & _).
    pose proof (send_message_within _ _ _ (on_requires_action_of_within f)
                  (create_agent_of_within f) (get_headers_of_within f)
                  _ _ _ _ _ _ Hsend) as [_ HE].
    rewrite calls_app, (calls_none is_thread_creation run_event E1); auto.
    + now rewrite app_nil_r.
    + intros rq rp Q. simpl in Q. now apply negb_true_iff in Q.
Qed.

(** C7: under sequential calls the thread is created at most once.  When
    the first of two consecutive /chat calls leaves a thread cached, the
    second call issues no thread creation, leaves the cached identifier as
    it is and answers a success with that identifier, the two calls
    together create at most one thread, and however many calls follow, the
    cached identifier stays the same and no thread is created. *)
Theorem thread_is_created_at_most_once (W : World) (f : file)
    (g1 g2 : result value) (later : list (result value))
    (s s1 s2 s3 : state W) resp1 resp2 resps E1 E2 E3 :
  chat_of f g1 s = (resp1, s1, E1) ->
  chat_of f g2 s1 = (resp2, s2, E2) ->
  chats f later s2 = (resps, s3, E3) ->
  Py.truthy (current_thread_id s1) = true ->
  calls is_thread_creation E2 = [] /\
  current_thread_id s2 = current_thread_id s1 /\
  (forall response thread_id code,
      resp2 = Ok (success_body response thread_id, code) ->
      thread_id = current_thread_id s1) /\
  (length (calls is_thread_creation (E1 ++ E2)) <= 1)%nat /\
  calls is_thread_creation E3 = [] /\
  current_thread_id s3 = current_thread_id s1.
Proof.
  intros H1 H2 H3 Ht.
  destruct (chat_keeps_thread f g2 s1 resp2 s2 E2 Ht H2) as (T2 & C2 & R2).
  assert (Ht2 : Py.truthy (current_thread_id s2) = true) by congruence.
  destruct (chats_keep_thread f later s2 resps s3 E3 Ht2 H3) as (T3 & C3).
  repeat split; auto.
  - rewrite calls_app, C2, app_nil_r.
    exact (chat_creates_at_most_once f g1 s resp1 s1 E1 H1).
  - congruence.
Qed.

Lemma run_eta {W : World} {A} (x : A * state W * list event) :
  x = (result_of x, state_of x, trace_of x).
Proof. destruct x as [[r s] E]. reflexivity. Qed.

Lemma thread_is_created_at_most_once_witness :
  let W := script.always "completed" in
  let x1 := chat_of agent_py (script.say "hi") (script.start W (0%nat, 0%nat)) in
  let x2 := chat_of agent_py (script.say "again") (state_of x1) in
  let x3 := chats agent_py [script.say "and again"] (state_of x2) in
  Py.truthy (current_thread_id (state_of x1)) = true /\
  calls is_thread_creation (trace_of x2) = [] /\
  current_thread_id (state_of x2) = current_thread_id (state_of x1) /\
  (forall response thread_id code,
      result_of x2 = Ok (success_body response thread_id, code) ->
      thread_id = current_thread_id (state_of x1)) /\
  (length (calls is_thread_creation (trace_of x1 ++ trace_of x2)) <= 1)%nat /\
  calls is_thread_creation (trace_of x3) = [] /\
  current_thread_id (state_of x3) = current_thread_id (state_of x1).
Proof.
  intros W x1 x2 x3.
  assert (Ht : Py.truthy (current_thread_id (state_of x1)) = true)
    by (vm_compute; reflexivity).
  split; [exact Ht|].
  exact (thread_is_created_at_most_once W agent_py
           (script.say "hi") (script.say "again") [script.say "and again"]
           (script.start W (0%nat, 0%nat)) (state_of x1) (state_of x2)
           (state_of x3) (result_of x1) (result_of x2) (result_of x3)
           (trace_of x1) (trace_of x2) (trace_of x3)
           (run_eta x1) (run_eta x2) (run_eta x3) Ht).
Defined.

(** C3: thirty consecutive non-terminal status responses end the loop by
    timeout.  First, for a run of [send_message] that polled at all and in
    which every poll was answered with status [in_progress] or [queued]:
    exactly 30 status requests were issued, each followed by a sleep of one
    second (the trace after the prelude is thirty times poll then sleep),
    and the fallback string is returned.  Second, from the side of the
    service: when it answers the next thirty polls of a run, one second
    apart, with [in_progress] or [queued], the loop makes exactly these
    thirty polls, sleeps one second after each, and ends without a result,
    on which [send_message] returns the fallback. *)
Theorem thirty_idle_polls_time_out (W : World) (f : file) :
  (forall tid msg (s : state W) r s' E,
      send_message_of f tid msg s = (r, s', E) ->
      polls E <> [] ->
      forallb non_terminal (polls E) = true ->
      r = Ok (VStr fallback) /\
      length (polls E) = 30%nat /\
      sleeps E = repeat 1 30 /\
      exists E0 rid h,
        E = (E0 ++ idle_cycles (poll_request tid rid h) (polls E))%list /\
        polls E0 = [] /\ sleeps E0 = []) /\
  (forall tid rid h (s : state W),
      keeps_answering non_terminal 30 (remote s) (poll_request tid rid h)
      = true ->
      exists s' replies,
        poll_loop_of f tid rid h 30 s =
        (Ok None, s', idle_cycles (poll_request tid rid h) replies) /\
        length replies = 30%nat /\
        forallb non_terminal replies = true /\
        finish (Ok None) = Ok (VStr fallback)).
Proof.
  split.
  - intros tid msg s r s' E H Hne Hall.
    apply send_message_of_inv in H.
    apply forallb_Forall_idle with (1 := non_terminal_idle) in Hall.
    destruct (send_message_idle _ _ _ (on_requires_action_of_within f)
                (create_agent_of_within f) (get_headers_of_within f)
                _ _ _ _ _ _ H Hne Hall)
      as (-> & Hlen & E0 & rid & h & HE & HE0).
    apply prelude_quiet in HE0. destruct HE0 as (P0 & _ & _ & S0 & _).
    repeat split; auto.
    + rewrite HE at 1. now rewrite sleeps_app, S0, sleeps_idle_cycles, Hlen.
    + exists E0, rid, h. auto.
  - intros tid rid h s Hk.
    destruct (poll_loop_keeps_idle f non_terminal tid rid h non_terminal_idle
                30 s Hk) as (s' & replies & H & Hlen & Hall).
    exists s', replies. auto.
Qed.

Lemma thirty_idle_polls_time_out_witness :
  let W := script.always "in_progress" in
  let s := script.start W (0%nat, 0%nat) in
  let x := send_message_of app_py (VStr "thread_1") (VStr "hi") s in
  (polls (trace_of x) <> [] /\
   forallb non_terminal (polls (trace_of x)) = true /\
   result_of x = Ok (VStr fallback) /\
   length (polls (trace_of x)) = 30%nat /\
   sleeps (trace_of x) = repeat 1 30) /\
  (keeps_answering non_terminal 30 (remote s)
     (poll_request (VStr "thread_1") (VStr "run_1") VNone) = true /\
   exists s' replies,
     poll_loop_of app_py (VStr "thread_1") (VStr "run_1") VNone 30 s =
     (Ok None, s',
      idle_cycles (poll_request (VStr "thread_1") (VStr "run_1") VNone) replies)
     /\ length replies = 30%nat).
Proof.
  intros W s x.
  pose proof (thirty_idle_polls_time_out W app_py) as [T1 T2].
  split.
  - assert (Hne : polls (trace_of x) <> []) by (vm_compute; discriminate).
    assert (Hall : forallb non_terminal (polls (trace_of x)) = true)
      by (vm_compute; reflexivity).
    destruct (T1 (VStr "thread_1") (VStr "hi") s (result_of x) (state_of x)
                (trace_of x) (run_eta x) Hne Hall) as (R & L & S & _).
    auto.
  - assert (Hk : keeps_answering non_terminal 30 (remote s)
                   (poll_request (VStr "thread_1") (VStr "run_1") VNone) = true)
      by (vm_compute; reflexivity).
    split; [exact Hk|].
    destruct (T2 (VStr "thread_1") (VStr "run_1") VNone s Hk)
      as (s' & replies & H & L & _).
    exists s', replies. auto.
Defined.

(** C9: a status poll answered with an HTTP status other than 200 neither
    ends the loop nor raises: the pass that made it only records the
    request and sleeps one second, and the loop goes on with one attempt
    fewer.  So a run of [send_message] that polled, and whose polls were all
    answered with a status other than 200, made exactly thirty polls, slept
    one second after each, and returned the fallback string. *)
Theorem failed_poll_only_uses_an_attempt (W : World) (f : file) :
  (forall tid rid h n (s : state W) resp,
      answer s (poll_request tid rid h) = Returns resp ->
      status_code resp <> 200 ->
      poll_loop_of f tid rid h (S n) s =
      prepend [Request (poll_request tid rid h) (Returns resp); Sleep 1]
        (poll_loop_of f tid rid h n
           (slept 1 (after s (poll_request tid rid h))))) /\
  (forall tid msg (s : state W) r s' E,
      send_message_of f tid msg s = (r, s', E) ->
      polls E <> [] ->
      forallb not_200 (polls E) = true ->
      r = Ok (VStr fallback) /\
      length (polls E) = 30%nat /\
      sleeps E = repeat 1 30).
Proof.
  split.
  - intros tid rid h n s resp Ha Hs.
    rewrite !poll_loop_of_shared, poll_loop_S, poll_once_eq, Ha.
    rewrite (classify_not_200 _ Hs). reflexivity.
  - intros tid msg s r s' E H Hne Hall.
    apply send_message_of_inv in H.
    apply forallb_Forall_idle with (1 := not_200_idle) in Hall.
    destruct (send_message_idle _ _ _ (on_requires_action_of_within f)
                (create_agent_of_within f) (get_headers_of_within f)
                _ _ _ _ _ _ H Hne Hall)
      as (-> & Hlen & E0 & rid & h & HE & HE0).
    apply prelude_quiet in HE0. destruct HE0 as (P0 & _ & _ & S0 & _).
    repeat split; auto.
    rewrite HE at 1. now rewrite sleeps_app, S0, sleeps_idle_cycles, Hlen.
Qed.

Lemma failed_poll_only_uses_an_attempt_witness :
  let W := script.down in
  let s := script.start W (0%nat, 0%nat) in
  let x := send_message_of agent_py (VStr "thread_1") (VStr "hi") s in
  polls (trace_of x) <> [] /\
  forallb not_200 (polls (trace_of x)) = true /\
  result_of x = Ok (VStr fallback) /\
  length (polls (trace_of x)) = 30%nat /\
  sleeps (trace_of x) = repeat 1 30.
Proof.
  intros W s x.
  pose proof (failed_poll_only_uses_an_attempt W agent_py) as [_ T].
  assert (Hne : polls (trace_of x) <> []) by (vm_compute; discriminate).
  assert (Hall : forallb not_200 (polls (trace_of x)) = true)
    by (vm_compute; reflexivity).
  destruct (T (VStr "thread_1") (VStr "hi") s (result_of x) (state_of x)
              (trace_of x) (run_eta x) Hne Hall) as (R & L & S).
  auto.
Defined.

(** C5: [send_message] returns the fallback string, and so raises nothing,
    both when one of its polls read the status [failed], [cancelled] or
    [expired], and when a poll read [completed] and the message listing was
    answered with status 200 and a list of messages none of which has the
    role [assistant]. *)
Theorem failure_returns_the_fallback (W : World) (f : file) tid msg
    (s : state W) r s' E :
  send_message_of f tid msg s = (r, s', E) ->
  existsb terminal_failed (polls E) = true \/
  (existsb (has_status "completed") (polls E) = true /\
   exists rp messages,
     listings E = [rp] /\ listed_messages rp = Some messages /\
     forallb not_assistant messages = true) ->
  r = Ok (VStr fallback).
Proof.
  intros H Hcase. apply send_message_of_inv in H.
  destruct Hcase as [Hf|(Hc & rp & messages & HL & Hm & Hna)].
  - apply existsb_Exists with (1 := terminal_failed_failed) in Hf.
    exact (send_message_failed _ _ _ (on_requires_action_of_within f)
             (create_agent_of_within f) (get_headers_of_within f)
             _ _ _ _ _ _ H Hf).
  - apply existsb_Exists with (1 := completed_completed) in Hc.
    destruct (send_message_completed _ _ _ (on_requires_action_of_within f)
                (create_agent_of_within f) (get_headers_of_within f)
                _ _ _ _ _ _ H Hc) as (rp' & HL' & ->).
    rewrite HL in HL'. injection HL'; intros <-.
    rewrite (completed_outcome_listed _ _ Hm), first_assistant_text_none; auto.
Qed.

Lemma failure_returns_the_fallback_witness :
  let x :=
    send_message_of agent_py (VStr "thread_1") (VStr "hi")
      (script.start (script.always "expired") (0%nat, 0%nat)) in
  let y :=
    send_message_of app_py (VStr "thread_1") (VStr "hi")
      (script.start
         (script.completed_with
            [script.message "user" [script.text "hi"];
             script.message "user" [script.text "hello"]])
         (0%nat, 0%nat)) in
  (existsb terminal_failed (polls (trace_of x)) = true /\
   result_of x = Ok (VStr fallback)) /\
  (existsb (has_status "completed") (polls (trace_of y)) = true /\
   result_of y = Ok (VStr fallback)).
Proof.
  intros x y. split.
  - assert (Hf : existsb terminal_failed (polls (trace_of x)) = true)
      by (vm_compute; reflexivity).
    split; [exact Hf|].
    exact (failure_returns_the_fallback (script.always "expired") agent_py
             (VStr "thread_1") (VStr "hi") _ (result_of x) (state_of x)
             (trace_of x) (run_eta x) (or_introl Hf)).
  - assert (Hc : existsb (has_status "completed") (polls (trace_of y)) = true)
      by (vm_compute; reflexivity).
    split; [exact Hc|].
    refine (failure_returns_the_fallback _ app_py
              (VStr "thread_1") (VStr "hi") _ (result_of y) (state_of y)
              (trace_of y) (run_eta y) (or_intror (conj Hc _))).
    exists (script.listing
              [script.message "user" [script.text "hi"];
               script.message "user" [script.text "hello"]]),
      [script.message "user" [script.text "hi"];
       script.message "user" [script.text "hello"]].
    repeat split; vm_compute; reflexivity.
Defined.

Lemma idle_poll_idle rp : idle_poll rp = true -> classify rp = Idle.
Proof.
  unfold idle_poll. intros H. apply orb_true_iff in H.
  destruct H; [now apply non_terminal_idle|now apply not_200_idle].
Qed.

(** C10: when a poll of the run behind a /chat request read [completed] and
    the first assistant message of the listing has a content list that is
    empty, or whose first element has no [text.value], the unguarded
    [msg['content'][0]['text']['value']] raises, the exception leaves
    [send_message], and the handler answers with status 500 and the body
    [{"error": str(e)}]: ["list index out of range"] for the empty list,
    the quoted key for a missing [text] or [value]. *)
Theorem missing_text_is_a_500 (W : World) (f : file) g (s : state W)
    resp s' E listing earlier m later elements :
  chat_of f g s = (resp, s', E) ->
  existsb (has_status "completed") (polls E) = true ->
  listings E = [listing] ->
  listed_messages listing = Some (earlier ++ m :: later)%list ->
  forallb not_assistant earlier = true ->
  role_is "assistant" m = true ->
  content_of m = Some elements ->
  message_text m = None ->
  exists e,
    (exists tid message s0 E1,
        send_message_of f tid message s0 = (Raise e, s', E1)) /\
    resp = Ok (error_body (exn_str e), 500) /\
    (elements = [] ->
     e = IndexError "list" /\ exn_str e = "list index out of range") /\
    (forall kv rest,
        elements = VDict kv :: rest ->
        (lookup "text" kv = None ->
         e = KeyError "text" /\ exn_str e = "'text'") /\
        (forall text,
            lookup "text" kv = Some (VDict text) ->
            e = KeyError "value" /\ exn_str e = "'value'")).
Proof.
  intros H Hc HL Hlisted Hearlier Hrole Hcontent Htext.
  assert (Hne : polls E <> []).
  { destruct (polls E); discriminate. }
  destruct (chat_of_polled f g s resp s' E H Hne)
    as (E0 & E1 & s0 & message & sent & -> & HP & HL1 & Hsend & Hs' & ->).
  rewrite HP in Hc. rewrite HL1 in HL.
  pose proof (send_message_of_inv f _ _ _ _ _ _ Hsend) as Hshared.
  apply existsb_Exists with (1 := completed_completed) in Hc.
  destruct (send_message_completed _ _ _ (on_requires_action_of_within f)
              (create_agent_of_within f) (get_headers_of_within f)
              _ _ _ _ _ _ Hshared Hc) as (rp' & HL' & Hsent).
  rewrite HL in HL'. injection HL'; intros <-.
  rewrite (completed_outcome_listed _ _ Hlisted), first_assistant_text_skip
    in Hsent by assumption.
  destruct (first_assistant_text_raises m later Hrole Htext)
    as (e & He & Hempty & Hkey).
  rewrite He in Hsent. simpl in Hsent. subst sent.
  exists e. split; [|split; [reflexivity|split]].
  - exists (current_thread_id s0), message, s0, E1. exact Hsend.
  - intros ->. rewrite (Hempty Hcontent). split; reflexivity.
  - intros kv rest ->. destruct (Hkey kv rest Hcontent) as [K1 K2]. split.
    + intros Hn. rewrite (K1 Hn). split; reflexivity.
    + intros text Ht. rewrite (K2 text Ht). split; reflexivity.
Qed.

Lemma missing_text_is_a_500_witness :
  let W := script.completed_with [script.message "assistant" []] in
  let x := chat_of agent_py (script.say "hi") (script.start W (0%nat, 0%nat)) in
  exists e,
    (exists tid message s0 E1,
        send_message_of agent_py tid message s0 = (Raise e, state_of x, E1)) /\
    result_of x = Ok (error_body (exn_str e), 500) /\
    ([] = @nil value ->
     e = IndexError "list" /\ exn_str e = "list index out of range") /\
    (forall kv rest,
        [] = VDict kv :: rest ->
        (lookup "text" kv = None ->
         e = KeyError "text" /\ exn_str e = "'text'") /\
        (forall text,
            lookup "text" kv = Some (VDict text) ->
            e = KeyError "value" /\ exn_str e = "'value'")).
Proof.
  intros W x.
  exact (missing_text_is_a_500 W agent_py (script.say "hi")
           (script.start W (0%nat, 0%nat)) (result_of x) (state_of x)
           (trace_of x) (script.listing [script.message "assistant" []])
           [] (script.message "assistant" []) [] []
           (run_eta x)
           ltac:(vm_compute; reflexivity) ltac:(vm_compute; reflexivity)
           ltac:(vm_compute; reflexivity) ltac:(vm_compute; reflexivity)
           ltac:(vm_compute; reflexivity) ltac:(vm_compute; reflexivity)
           ltac:(vm_compute; reflexivity)).
Defined.

(** * Further properties: the functions around the loop *)

(** ** The headers, the agent and the thread *)

Section Headers.
Context {W : World}.

Lemma get_headers_of_eq f (s : state W) :
  get_headers_of f s =
  (headers_for W f (fst (get_token W (remote s))),
   Build_state (AGENT_ID s) (current_thread_id s) (snd (get_token W (remote s))),
   [GetToken (fst (get_token W (remote s)))]).
Proof.
  destruct f; unfold get_headers_of, agent.get_headers, app.get_auth_headers,
    try_except, bind, credential_token, ret, raise, headers_for, no_api_key;
    destruct (get_token W (remote s)) as [[t|e] sigma]; simpl; try reflexivity;
    destruct (AZURE_AI_API_KEY W) as [k|]; simpl; try reflexivity;
    destruct (String.eqb k ""); reflexivity.
Qed.

Lemma get_headers_of_inv f (s : state W) r s' E :
  get_headers_of f s = (r, s', E) ->
  exists token,
    E = [GetToken token] /\ r = headers_for W f token /\
    AGENT_ID s' = AGENT_ID s /\ current_thread_id s' = current_thread_id s.
Proof.
  rewrite get_headers_of_eq. intros H. injection H; intros; subst.
  eexists. repeat split.
Qed.

Lemma create_agent_of_cached f (s : state W) :
  Py.truthy (AGENT_ID s) = true ->
  create_agent_of f s = (Ok (AGENT_ID s), s, []).
Proof.
  intros H.
  destruct f; unfold create_agent_of, agent.create_agent, app.create_agent,
    bind, get_AGENT_ID, ret; rewrite H; reflexivity.
Qed.

Lemma create_agent_of_unfold f (s : state W) :
  Py.truthy (AGENT_ID s) = false ->
  create_agent_of f s =
  (headers <- get_headers_of f ;;
   r <- send (creation_request W f headers) ;;
   raise_for_status r ;;;
   agent <- lift (json r) ;;
   id <- lift (Py.getitem agent "id") ;;
   set_AGENT_ID id ;;;
   get_AGENT_ID)%proc s.
Proof.
  intros H.
  destruct f; unfold create_agent_of, agent.create_agent, app.create_agent;
    unfold bind at 1; unfold get_AGENT_ID at 1; rewrite H;
    match goal with
    | |- (let (_, _) := ?x in _) = ?y =>
        change y with x; destruct x as [[? ?] ?]
    end; reflexivity.
Qed.

(** What [create_agent] does once it holds the headers. *)
Lemma creation_eq f h (s : state W) :
  (r <- send (creation_request W f h) ;;
   raise_for_status r ;;;
   agent <- lift (json r) ;;
   id <- lift (Py.getitem agent "id") ;;
   set_AGENT_ID id ;;;
   get_AGENT_ID)%proc s =
  let rq := creation_request W f h in
  (match answer s rq with
   | Fails e => Raise e
   | Returns x =>
       if (400 <=? status_code x) && (status_code x <? 600)
       then Raise (HTTPError (http_error x))
       else id_of (Returns x)
   end,
   match answer s rq with
   | Fails e => after s rq
   | Returns x =>
       if (400 <=? status_code x) && (status_code x <? 600) then after s rq
       else
         match id_of (Returns x) with
         | Ok id => Build_state id (current_thread_id s) (remote (after s rq))
         | Raise _ => after s rq
         end
   end,
   [Request rq (answer s rq)]).
Proof.
  unfold bind, send, raise_for_status, lift, set_AGENT_ID, get_AGENT_ID, ret,
    raise, answer, after, id_of, Py.bind.
  cbv zeta.
  destruct (serve W (remote s) (creation_request W f h)) as [[x|e] sigma];
    simpl; [|reflexivity].
  destruct ((400 <=? status_code x) && (status_code x <? 600)); simpl;
    [reflexivity|].
  destruct (json x) as [body|e]; simpl; [|reflexivity].
  destruct (Py.getitem body "id") as [id|e]; reflexivity.
Qed.

(** What a run of [create_agent] looks like when no agent is cached. *)
Lemma create_agent_of_inv f (s : state W) r s' E :
  Py.truthy (AGENT_ID s) = false ->
  create_agent_of f s = (r, s', E) ->
  current_thread_id s' = current_thread_id s /\
  exists token,
    (E = [GetToken token] /\ headers_for W f token = r /\
     raised r = true /\ AGENT_ID s' = AGENT_ID s) \/
    exists h rp,
      headers_for W f token = Ok h /\
      E = [GetToken token; Request (creation_request W f h) rp] /\
      match rp with
      | Fails e => r = Raise e /\ AGENT_ID s' = AGENT_ID s
      | Returns x =>
          if (400 <=? status_code x) && (status_code x <? 600)
          then r = Raise (HTTPError (http_error x)) /\ AGENT_ID s' = AGENT_ID s
          else
            match id_of rp with
            | Ok id => r = Ok id /\ AGENT_ID s' = id
            | Raise e => r = Raise e /\ AGENT_ID s' = AGENT_ID s
            end
      end.
Proof.
  intros Hc H. rewrite (create_agent_of_unfold f s Hc) in H.
  unfold bind at 1 in H. rewrite get_headers_of_eq in H.
  destruct (headers_for W f (fst (get_token W (remote s)))) as [h|e] eqn:Hh.
  - rewrite creation_eq in H. cbv zeta in H.
    set (s0 := Build_state _ _ _) in H.
    set (rq := creation_request W f h) in H.
    injection H; intros; subst; clear H.
    split.
    + destruct (answer s0 rq) as [x|e]; [|reflexivity].
      destruct (_ && _); [reflexivity|].
      simpl. destruct (Py.bind _ _); reflexivity.
    + eexists. right. exists h, (answer s0 rq).
      split; [exact Hh|]. split; [reflexivity|].
      destruct (answer s0 rq) as [x|e]; [|auto].
      destruct (_ && _); [auto|].
      simpl. destruct (Py.bind _ _); auto.
  - injection H; intros; subst; clear H. split; [reflexivity|].
    eexists. left. repeat split. exact Hh.
Qed.

End Headers.

Section Thread.
Context {W : World}.

Lemma create_thread_of_eq f (s : state W) :
  create_thread_of f s =
  let token := fst (get_token W (remote s)) in
  let s0 :=
    Build_state (AGENT_ID s) (current_thread_id s)
      (snd (get_token W (remote s))) in
  match headers_for W f token with
  | Raise _ => (Ok VNone, s0, [GetToken token])
  | Ok h =>
      (Ok (thread_made (answer s0 (thread_request h))),
       after s0 (thread_request h),
       [GetToken token;
        Request (thread_request h) (answer s0 (thread_request h))])
  end.
Proof.
  assert (Hshape : create_thread_of f s =
    try_except
      (headers <- get_headers_of f ;;
       response <- send (thread_request headers) ;;
       if created_ok response then
         thread_data <- lift (json response) ;;
         thread_id <- lift (Py.getitem thread_data "id") ;;
         ret thread_id
       else ret VNone)%proc
      (fun _ => ret VNone) s) by (destruct f; reflexivity).
  rewrite Hshape. unfold try_except. unfold bind at 1.
  rewrite get_headers_of_eq. cbv zeta.
  destruct (headers_for W f (fst (get_token W (remote s)))) as [h|e];
    [|reflexivity].
  unfold bind, send, lift, ret, thread_made, accepted, id_of, Py.bind, answer,
    after.
  set (s0 := Build_state _ _ _).
  destruct (serve W (remote s0) (thread_request h)) as [[x|e] sigma]; simpl;
    [|reflexivity].
  destruct (created_ok x); simpl; [|reflexivity].
  destruct (json x) as [body|e]; simpl; [|reflexivity].
  destruct (Py.getitem body "id") as [id|e]; reflexivity.
Qed.

End Thread.

(** ** The branch [requires_action], on any payload *)

Section Branch.
Context {W : World}.

Lemma submit_eq f tid rid h records (s : state W) :
  (submit_response <-
     requests_post (SubmitToolOutputs tid rid) h
       (VDict [("tool_approvals", VList records)]) (Some 30) ;;
   if negb (status_code submit_response =? 200) then ret Break
   else ret (goes_on_by f))%proc s =
  (submitted f (answer s (submit_request tid rid h records)),
   after s (submit_request tid rid h records),
   [Request (submit_request tid rid h records)
      (answer s (submit_request tid rid h records))]).
Proof.
  unfold bind, requests_post, send, ret, submitted, answer, after,
    submit_request.
  destruct (serve W (remote s) _) as [[x|e] sigma]; simpl; [|reflexivity].
  destruct (status_code x =? 200); reflexivity.
Qed.

Lemma submit_if_any f tid rid h records (s : state W) c s' E :
  (if negb (is_nil records) then
     (submit_response <-
        requests_post (SubmitToolOutputs tid rid) h
          (VDict [("tool_approvals", VList records)]) (Some 30) ;;
      if negb (status_code submit_response =? 200) then ret Break
      else ret (goes_on_by f))%proc
   else ret Break) s = (c, s', E) ->
  (E = [] /\ s' = s /\ goes_on c = false) \/
  exists records,
    records <> [] /\
    E = [Request (submit_request tid rid h records)
           (answer s (submit_request tid rid h records))] /\
    s' = after s (submit_request tid rid h records) /\
    c = submitted f (answer s (submit_request tid rid h records)).
Proof.
  intros Hs. destruct records as [|r0 records]; simpl in Hs.
  - run_inv Hs. left. auto.
  - rewrite submit_eq in Hs. injection Hs; intros; subst.
    right. exists (r0 :: records). repeat split. discriminate.
Qed.

(** The branch either emits nothing and leaves the loop, or submits a
    non-empty list of approvals and ends by the answer. *)
Lemma on_requires_action_of_cases f tid rid h d (s : state W) c s' E :
  on_requires_action_of f tid rid h d s = (c, s', E) ->
  (E = [] /\ s' = s /\ goes_on c = false) \/
  exists records,
    records <> [] /\
    E = [Request (submit_request tid rid h records)
           (answer s (submit_request tid rid h records))] /\
    s' = after s (submit_request tid rid h records) /\
    c = submitted f (answer s (submit_request tid rid h records)).
Proof.
  intros H.
  destruct f; unfold on_requires_action_of, agent.on_requires_action,
    app.on_requires_action in H; cbv zeta in H.
  all: repeat match goal with
              | Q : (if negb (is_nil _) then _ else _) _ = _ |- _ =>
                  first [ apply (submit_if_any agent_py) in Q
                        | apply (submit_if_any app_py) in Q ]
              | Q : _ = (_, _, _) |- _ => progress (run_inv Q)
              end.
  all: simpl; try assumption; left; auto.
Qed.

End Branch.

(** ** The loop follows the grammar of passes *)

Section Passes.
Context {W : World}.
Variable f : file.
Variables thread_id run_id headers : value.

Lemma submitted_goes_on srp :
  answered_200 srp = true -> submitted f srp = Ok (goes_on_by f).
Proof.
  destruct srp as [x|e]; simpl; [|discriminate]. now intros ->.
Qed.

Lemma submitted_leaves srp :
  answered_200 srp = false -> goes_on (submitted f srp) = false.
Proof.
  destruct srp as [x|e]; simpl; [|reflexivity]. now intros ->.
Qed.

Lemma poll_loop_of_passes n : forall (s : state W) r s' E,
  poll_loop_of f thread_id run_id headers n s = (r, s', E) ->
  @passes W f thread_id run_id headers n r E.
Proof.
  induction n as [|n IH]; intros s r s' E H.
  - destruct f; inversion H; subst; constructor.
  - rewrite poll_loop_of_shared in H.
    apply (poll_loop_S_inv _ (on_requires_action_of_within f)) in H.
    destruct H as (E' & -> & H).
    set (rq := poll_request thread_id run_id headers) in *.
    destruct (classify (answer s rq)) as [| | |d|e] eqn:Hc.
    + destruct H as (E2 & -> & H). rewrite <- poll_loop_of_shared in H.
      apply passes_idle; eauto.
    + destruct H as [-> ->]. now apply passes_failed.
    + destruct H as (rp & -> & ->). now apply passes_completed.
    + destruct H as (c & s1 & E1 & Hra & _ & H).
      pose proof Hra as Hcase. apply on_requires_action_of_cases in Hcase.
      destruct Hcase as [(-> & -> & Hgo)|(records & Hne & -> & -> & ->)].
      * destruct c as [[]|]; try discriminate; destruct H as [-> ->];
          eapply passes_unapproved; eauto.
      * set (srq := submit_request thread_id run_id headers records) in *.
        destruct (answered_200 (answer (after s rq) srq)) eqn:H200.
        -- rewrite (submitted_goes_on _ H200) in H.
           assert (Hgo : exists E2,
             E' = (Request srq (answer (after s rq) srq)
                   :: pause_after_approval f ++ E2)%list /\
             exists s2, poll_loop_of f thread_id run_id headers n s2
                        = (r, s', E2)).
           { destruct f; unfold goes_on_by in H; destruct H as (E2 & -> & H);
               rewrite <- (poll_loop_of_shared _) in H;
               exists E2; split; try reflexivity; eauto. }
           destruct Hgo as (E2 & -> & s2 & Hl).
           eapply passes_approved; eauto.
        -- pose proof (submitted_leaves _ H200) as Hgo.
           destruct (submitted f (answer (after s rq) srq)) as [[]|] eqn:Hs;
             try discriminate; destruct H as [-> ->]; rewrite <- Hs;
             eapply passes_rejected; eauto; rewrite Hs; exact Hra.
    + destruct H as [-> ->]. now apply passes_broken.
Qed.

End Passes.

(** ** What leaves the cached agent alone *)

Section KeepsAgent.
Context {W : World}.

Lemma keeps_agent_ret p {A} (a : A) : @keeps_agent W p A (ret a).
Proof. intros s r s' E H. inversion H; subst. split; [reflexivity|constructor]. Qed.

Lemma keeps_agent_raise p {A} e : keeps_agent p (@raise W A e).
Proof. intros s r s' E H. inversion H; subst. split; [reflexivity|constructor]. Qed.

Lemma keeps_agent_lift p {A} (x : result A) : @keeps_agent W p A (lift x).
Proof. intros s r s' E H. inversion H; subst. split; [reflexivity|constructor]. Qed.

Lemma keeps_agent_bind p {A B} (m : M W A) (k : A -> M W B) :
  keeps_agent p m -> (forall a, keeps_agent p (k a)) -> keeps_agent p (bind m k).
Proof.
  intros Hm Hk s r s' E H. run_inv H.
  - destruct (Hm _ _ _ _ Hrun) as [T1 P1].
    destruct (Hk _ _ _ _ _ Hrun0) as [T2 P2].
    split; [congruence|]. now apply all_events_app.
  - exact (Hm _ _ _ _ Hrun).
Qed.

Lemma keeps_agent_try_except p {A} (m : M W A) (h : exn -> M W A) :
  keeps_agent p m -> (forall e, keeps_agent p (h e)) ->
  keeps_agent p (try_except m h).
Proof.
  intros Hm Hh s r s' E H. run_inv H.
  - exact (Hm _ _ _ _ Hrun).
  - destruct (Hm _ _ _ _ Hrun) as [T1 P1].
    destruct (Hh _ _ _ _ _ Hrun0) as [T2 P2].
    split; [congruence|]. now apply all_events_app.
Qed.

Lemma keeps_agent_send p rq :
  (forall rp, p (Request rq rp) = true) -> @keeps_agent W p _ (send rq).
Proof.
  intros Hp s r s' E H. apply send_inv in H.
  destruct H as (rp & _ & -> & T & _). split; [exact T|].
  constructor; [apply Hp|constructor].
Qed.

Lemma keeps_agent_sleep p secs :
  p (Sleep secs) = true -> @keeps_agent W p _ (sleep secs).
Proof.
  intros Hp s r s' E H. inversion H; subst. split; [reflexivity|].
  constructor; [exact Hp|constructor].
Qed.

Lemma keeps_agent_get_current_thread_id p :
  keeps_agent p (@get_current_thread_id W).
Proof. intros s r s' E H. inversion H; subst. split; [reflexivity|constructor]. Qed.

Lemma keeps_agent_set_current_thread_id p v :
  keeps_agent p (@set_current_thread_id W v).
Proof. intros s r s' E H. inversion H; subst. split; [reflexivity|constructor]. Qed.

Lemma keeps_agent_get_headers_of p f :
  (forall r, p (GetToken r) = true) -> keeps_agent p (@get_headers_of W f).
Proof.
  intros Hp s r s' E H. apply get_headers_of_inv in H.
  destruct H as (token & -> & _ & HA & _). split; [exact HA|].
  constructor; [apply Hp|constructor].
Qed.

Lemma keeps_agent_on_requires_action_of f t rid h d :
  keeps_agent conversation_event (@on_requires_action_of W f t rid h d).
Proof.
  intros s c s' E H. apply on_requires_action_of_cases in H.
  destruct H as [(-> & -> & _)|(records & _ & -> & -> & _)].
  - split; [reflexivity|constructor].
  - split; [reflexivity|]. constructor; [reflexivity|constructor].
Qed.

End KeepsAgent.

Ltac keeps_agent_step :=
  lazymatch goal with
  | |- keeps_agent _ (bind _ _) => apply keeps_agent_bind; [|intros ?]
  | |- keeps_agent _ (try_except _ _) => apply keeps_agent_try_except; [|intros ?]
  | |- keeps_agent _ (ret _) => apply keeps_agent_ret
  | |- keeps_agent _ (raise _) => apply keeps_agent_raise
  | |- keeps_agent _ (lift _) => apply keeps_agent_lift
  | |- keeps_agent _ (requests_get _ _) =>
      apply keeps_agent_send; intros ?; reflexivity
  | |- keeps_agent _ (requests_post _ _ _ _) =>
      apply keeps_agent_send; intros ?; reflexivity
  | |- keeps_agent _ (sleep _) => apply keeps_agent_sleep; reflexivity
  | |- keeps_agent _ get_current_thread_id =>
      apply keeps_agent_get_current_thread_id
  | |- keeps_agent _ (set_current_thread_id _) =>
      apply keeps_agent_set_current_thread_id
  | |- keeps_agent _ (get_headers_of _) =>
      apply keeps_agent_get_headers_of; intros ?; reflexivity
  | |- keeps_agent _ (on_requires_action_of _ _ _ _ _) =>
      apply keeps_agent_on_requires_action_of
  | |- keeps_agent _ (if ?b then _ else _) => destruct b
  | |- keeps_agent _ (match ?c with Some _ => _ | None => _ end) => destruct c
  | |- keeps_agent _ (match ?c with Next => _ | Continue => _ | Break => _ | Return _ => _ end) =>
      destruct c
  end.

Section KeepsAgentLoop.
Context {W : World}.
Variable f : file.

Lemma keeps_agent_poll_loop t rid h n :
  keeps_agent conversation_event
    (shared.poll_loop (@on_requires_action_of W f) t rid h n).
Proof.
  induction n as [|n IH]; simpl.
  - apply keeps_agent_ret.
  - unfold shared.poll_once, agent.on_completed. repeat keeps_agent_step.
    all: exact IH.
Qed.

Lemma keeps_agent_create_thread_of :
  keeps_agent conversation_event (@create_thread_of W f).
Proof.
  intros s r s' E H. rewrite create_thread_of_eq in H. cbv zeta in H.
  destruct (headers_for W f _); injection H; intros; subst;
    (split; [reflexivity|repeat constructor]).
Qed.

End KeepsAgentLoop.

(** ** The stages of [send_message] *)

Section Stages.
Context {W : World}.
Variable f : file.

Lemma exchange_eq t m a h (s : state W) :
  (response <-
     requests_post (ThreadMessages t) h
       (VDict [("role", VStr "user"); ("content", m)]) None ;;
   if negb (created_ok response) then ret VNone
   else
     run_response <-
       requests_post (ThreadRuns t) h (VDict [("assistant_id", a)]) None ;;
     if negb (created_ok run_response) then ret VNone
     else
       run <- lift (json run_response) ;;
       run_id <- lift (Py.getitem run "id") ;;
       returned <- shared.poll_loop (on_requires_action_of f) t run_id h 30 ;;
       match returned with
       | Some content => ret content
       | None => ret (VStr fallback)
       end)%proc s =
  exchange (fun rid => shared.poll_loop (on_requires_action_of f) t rid h 30)
    t m a h s.
Proof.
  unfold exchange, answer, after, bind, requests_post, send, message_request,
    run_request, lift, ret, accepted, refused, id_of, Py.bind, prepend,
    finished.
  cbv zeta.
  destruct (serve W (remote s) _) as [[x1|e1] sigma1];
    cbn [fst snd remote AGENT_ID current_thread_id negb app]; [|reflexivity].
  destruct (created_ok x1);
    cbn [fst snd remote AGENT_ID current_thread_id negb app]; [|reflexivity].
  destruct (serve W sigma1 _) as [[x2|e2] sigma2];
    cbn [fst snd remote AGENT_ID current_thread_id negb app]; [|reflexivity].
  destruct (created_ok x2);
    cbn [fst snd remote AGENT_ID current_thread_id negb app]; [|reflexivity].
  destruct (json x2) as [body|e]; [|reflexivity].
  destruct (Py.getitem body "id") as [rid|e]; [|reflexivity].
  destruct (shared.poll_loop _ _ _ _ _ _) as [[[[content|]|e] s3] E3];
    cbn [app finish]; rewrite ?app_nil_r; reflexivity.
Qed.

End Stages.

Section StagesOfSendMessage.
Context {W : World}.
Variable f : file.

(** A run of [send_message], stage by stage: the agent, the headers, the
    message, the run, the loop. *)
Lemma send_message_of_stages t m (s : state W) r s' E :
  send_message_of f t m s = (r, s', E) ->
  exists ar sa Ea,
    create_agent_of f s = (ar, sa, Ea) /\
    match ar with
    | Raise e => E = Ea /\ r = Raise e /\ s' = sa
    | Ok a =>
        AGENT_ID s' = AGENT_ID sa /\
        exists token,
          match headers_for W f token with
          | Raise e => E = (Ea ++ [GetToken token])%list /\ r = Raise e
          | Ok h =>
              exists rp1,
                if accepted rp1 then
                  exists rp2,
                    if accepted rp2 then
                      match id_of rp2 with
                      | Raise e =>
                          E = (Ea ++ [GetToken token;
                                      Request (message_request t h m) rp1;
                                      Request (run_request t h a) rp2])%list /\
                          r = Raise e
                      | Ok rid =>
                          exists r1 E1,
                            @passes W f t rid h 30 r1 E1 /\
                            E = (Ea ++ GetToken token
                                 :: Request (message_request t h m) rp1
                                 :: Request (run_request t h a) rp2 :: E1)%list /\
                            r = finish r1
                      end
                    else
                      E = (Ea ++ [GetToken token;
                                  Request (message_request t h m) rp1;
                                  Request (run_request t h a) rp2])%list /\
                      r = refused rp2
                else
                  E = (Ea ++ [GetToken token;
                              Request (message_request t h m) rp1])%list /\
                  r = refused rp1
          end
    end.
Proof.
  rewrite send_message_of_shared. unfold shared.send_message.
  unfold bind at 1.
  destruct (create_agent_of f s) as [[[a|e] sa] Ea] eqn:Hca.
  2:{ intros H. injection H; intros; subst. exists (Raise e), s', E. auto. }
  unfold bind at 1. rewrite get_headers_of_eq.
  set (token := fst (get_token W (remote sa))).
  set (sh := Build_state _ _ _).
  destruct (headers_for W f token) as [h|e] eqn:Hh.
  2:{ intros H. injection H; intros; subst.
      exists (Ok a), sa, Ea. split; [reflexivity|]. split; [reflexivity|].
      exists token. rewrite Hh. auto. }
  rewrite exchange_eq. unfold exchange. cbv zeta.
  set (rq1 := message_request t h m).
  set (rq2 := run_request t h a).
  intros H. exists (Ok a), sa, Ea. split; [reflexivity|].
  assert (HA : forall x : state W, AGENT_ID (after x rq1) = AGENT_ID x)
    by reflexivity.
  destruct (accepted (answer sh rq1)) eqn:H1.
  - destruct (accepted (answer (after sh rq1) rq2)) eqn:H2.
    + destruct (id_of (answer (after sh rq1) rq2)) as [rid|e] eqn:Hid.
      * destruct (shared.poll_loop _ _ _ _ _ _) as [[r1 s3] E1] eqn:Hl.
        simpl in H. injection H; intros; subst.
        pose proof (keeps_agent_poll_loop f _ _ _ _ _ _ _ _ Hl) as [HA3 _].
        rewrite <- poll_loop_of_shared in Hl. apply poll_loop_of_passes in Hl.
        split; [exact HA3|]. exists token. rewrite Hh.
        exists (answer sh rq1). rewrite H1.
        exists (answer (after sh rq1) rq2). rewrite H2, Hid.
        exists r1, E1. rewrite ?app_assoc; cbn [app]; rewrite <- ?app_assoc; cbn [app]; auto.
      * injection H; intros; subst. split; [reflexivity|].
        exists token. rewrite Hh. exists (answer sh rq1). rewrite H1.
        exists (answer (after sh rq1) rq2). rewrite H2, Hid.
        rewrite ?app_assoc; cbn [app]; rewrite <- ?app_assoc; cbn [app]; auto.
    + injection H; intros; subst. split; [reflexivity|].
      exists token. rewrite Hh. exists (answer sh rq1). rewrite H1.
      exists (answer (after sh rq1) rq2). rewrite H2.
      rewrite ?app_assoc; cbn [app]; rewrite <- ?app_assoc; cbn [app]; auto.
  - injection H; intros; subst. split; [reflexivity|].
    exists token. rewrite Hh. exists (answer sh rq1). rewrite H1.
    rewrite ?app_assoc; cbn [app]; rewrite <- ?app_assoc; cbn [app]; auto.
Qed.

End StagesOfSendMessage.

(** ** The stages of [chat] *)

Section StagesOfChat.
Context {W : World}.
Variable f : file.

Lemma create_thread_of_returns (s : state W) r s' E :
  create_thread_of f s = (r, s', E) -> exists created, r = Ok created.
Proof.
  rewrite create_thread_of_eq. cbv zeta.
  destruct (headers_for W f _); intros H; injection H; intros; subst; eauto.
Qed.

(** A call of the handler that does not reach the thread makes no request
    and answers with an error body. *)
Lemma chat_of_quiet g (s : state W) resp s' E :
  chat_of f g s = (resp, s', E) ->
  (exists data message,
      g = Ok data /\ Py.get data "message" (VStr "") = Ok message /\
      Py.truthy message = true) \/
  (E = [] /\ s' = s /\
   resp = Ok (match g with
              | Raise e => (error_body (exn_str e), 500)
              | Ok data =>
                  match Py.get data "message" (VStr "") with
                  | Raise e => (error_body (exn_str e), 500)
                  | Ok _ => (error_body "No message provided", 400)
                  end
              end)).
Proof.
  rewrite chat_of_shared. unfold shared.chat, try_except.
  unfold bind at 1. unfold lift at 1.
  destruct g as [data|e].
  2:{ intros H. inversion H; subst. right. auto. }
  unfold bind at 1. unfold lift at 1.
  destruct (Py.get data "message" (VStr "")) as [message|e] eqn:Hm.
  2:{ intros H. inversion H; subst. right. auto. }
  destruct (Py.truthy message) eqn:Ht.
  - intros _. left. eauto.
  - simpl. intros H. inversion H; subst. right. auto.
Qed.

Lemma chat_of_stages data message (s : state W) resp s' E :
  Py.get data "message" (VStr "") = Ok message ->
  Py.truthy message = true ->
  chat_of f (Ok data) s = (resp, s', E) ->
  exists Et st,
    ((Py.truthy (current_thread_id s) = true /\ Et = [] /\ st = s) \/
     (Py.truthy (current_thread_id s) = false /\
      exists created sc,
        create_thread_of f s = (Ok created, sc, Et) /\
        st = Build_state (AGENT_ID sc) created (remote sc))) /\
    ((Py.truthy (current_thread_id st) = false /\
      resp = Ok (error_body "Failed to create conversation thread", 500) /\
      E = Et /\ s' = st) \/
     (Py.truthy (current_thread_id st) = true /\
      exists sent E1,
        send_message_of f (current_thread_id st) message st = (sent, s', E1) /\
        E = (Et ++ E1)%list /\
        current_thread_id s' = current_thread_id st /\
        resp = Ok (reply_for sent (current_thread_id st)))).
Proof.
  intros Hm Ht H. rewrite chat_of_shared in H. unfold shared.chat in H.
  assert (Hsend : forall (st : state W) sent s2 E1,
    shared.send_message (on_requires_action_of f) (create_agent_of f)
      (get_headers_of f) (current_thread_id st) message st = (sent, s2, E1) ->
    current_thread_id s2 = current_thread_id st).
  { intros st sent s2 E1 Hs.
    exact (proj1 (send_message_within _ _ _ (on_requires_action_of_within f)
                    (create_agent_of_within f) (get_headers_of_within f)
                    _ _ _ _ _ _ Hs)). }
  run_all.
  all: repeat match goal with
              | Q : Py.get ?d "message" ?v = Ok _,
                Q' : Py.get ?d "message" ?v = _ |- _ =>
                  rewrite Q in Q'; clean_results
              | Q : negb _ = true |- _ => apply negb_true_iff in Q
              | Q : negb _ = false |- _ => apply negb_false_iff in Q
              end.
  all: try congruence.
  all: try match goal with
           | Q : create_thread_of f _ = (Raise _, _, _) |- _ =>
               apply create_thread_of_returns in Q; destruct Q; discriminate
           end.
  all: repeat (progress (cbn [app]; rewrite ?app_nil_r)).
  all: lazymatch goal with
       | Q : create_thread_of f ?s0 = (Ok ?a, ?sc, ?Et) |- _ =>
           exists Et, (Build_state (AGENT_ID sc) a (remote sc));
           split; [right; split; [assumption|exists a, sc; auto]|]
       | |- context [Py.truthy (current_thread_id ?s0) = true /\ _ = [] /\ _ = ?s0] =>
           exists [], s0; split; [left; auto|]
       end.
  all: lazymatch goal with
       | Q : shared.send_message _ _ _ _ _ ?st = (?sent, _, ?E1) |- _ =>
           right; pose proof (Hsend _ _ _ _ Q) as HT;
           split; [simpl; assumption|];
           exists sent, E1; rewrite send_message_of_shared;
           split; [exact Q|]; split; [reflexivity|]; split; [exact HT|];
           unfold reply_for, success_body, error_body; simpl in *;
           rewrite ?HT;
           repeat match goal with
                  | Q' : Py.truthy _ = _ |- _ => rewrite Q'
                  end; reflexivity
       | _ => left; simpl; auto
       end.
Qed.

End StagesOfChat.

(** ** What the grammar of passes shows *)

Ltac trace_eval :=
  unfold polls, listings, submissions, approvals in *;
  cbn [sleeps tokens calls map app length
       filter fst snd is_poll is_listing is_submission is_thread_creation
       is_agent_creation is_message_post is_run_creation any_request
       conversation_request negb poll_request listing_request submit_request
       message_request run_request thread_request creation_request req_method
       req_url req_headers req_json req_timeout pause_after_approval] in *.

Ltac split_hyps :=
  repeat match goal with
         | Q : _ /\ _ |- _ => destruct Q
         end.

Ltac split_goal :=
  repeat match goal with
         | |- _ /\ _ => split
         end.

Ltac forall_auto :=
  repeat first [ assumption
               | apply Forall_nil
               | apply Forall_cons; [reflexivity|] ].

Section Grammar.
Context {W : World}.
Variable f : file.
Variables thread_id run_id headers : value.

Lemma passes_bounds n r E :
  @passes W f thread_id run_id headers n r E ->
  (length (polls E) <= n)%nat /\
  (length (sleeps E) <= length (polls E))%nat /\
  (length (listings E) <= 1)%nat /\
  (length (submissions E) <= length (polls E))%nat /\
  Forall (fun secs => secs = 1) (sleeps E).
Proof.
  induction 1; try destruct f; trace_eval; rewrite ?length_map in *;
    split_hyps; split_goal; try lia; forall_auto.
Qed.

Lemma passes_loop_events n r E :
  @passes W f thread_id run_id headers n r E ->
  all_events loop_event E /\
  Forall (fun c => req_headers (fst c) = headers) (calls any_request E).
Proof.
  unfold all_events.
  induction 1; try destruct f; trace_eval; split_hyps; split_goal;
    forall_auto.
Qed.

(** The loop sleeps after every poll that leaves the run unfinished, and
    [agent.py] after every approval that was accepted. *)
Lemma passes_sleeps n r E :
  @passes W f thread_id run_id headers n r E ->
  length (sleeps E) =
  (length (filter is_idle (polls E)) + approval_pauses f E)%nat.
Proof.
  unfold approval_pauses.
  induction 1; try destruct f; trace_eval; unfold is_idle in *;
    repeat match goal with
           | Q : classify _ = _ |- _ => rewrite Q
           | Q : answered_200 _ = _ |- _ => rewrite Q
           end; trace_eval; try lia.
Qed.

End Grammar.

Lemma tokens_none p E :
  (forall r, p (GetToken r) = false) -> all_events p E -> tokens E = [].
Proof.
  intros Hk H. induction H as [|ev E Hev _ IH]; simpl; [reflexivity|].
  destruct ev as [rq rp|secs|r]; auto. rewrite Hk in Hev. discriminate.
Qed.

(** The loop creates nothing and asks for no token. *)
Lemma loop_quiet E :
  all_events loop_event E ->
  calls is_thread_creation E = [] /\ calls is_agent_creation E = [] /\
  calls is_message_post E = [] /\ calls is_run_creation E = [] /\
  tokens E = [].
Proof.
  intros H. split_goal.
  1-4: apply (calls_none _ loop_event); auto;
    intros [[] [] ? ? ?] rp; cbv; intros ?; congruence.
  apply (tokens_none loop_event); auto.
Qed.

(** What is known of the trace of a loop, for each loop at hand. *)
Ltac loop_facts :=
  repeat match goal with
         | Q : passes _ _ _ _ _ _ _ |- _ =>
             let B := fresh "Hbounds" in
             let L := fresh "Hloop" in
             let S := fresh "Hsleeps" in
             pose proof (passes_bounds _ _ _ _ _ _ _ Q) as B;
             pose proof (passes_loop_events _ _ _ _ _ _ _ Q) as L;
             pose proof (passes_sleeps _ _ _ _ _ _ _ Q) as S;
             destruct L as [L ?];
             apply loop_quiet in L;
             revert Q
         end;
  intros; split_hyps.

Ltac rewrite_quiet :=
  repeat match goal with
         | Q : calls _ _ = [] |- _ => rewrite Q in *; clear Q
         | Q : tokens _ = [] |- _ => rewrite Q in *; clear Q
         end.

(** ** Every run of the handler, stage by stage *)

Ltac stage_destruct :=
  repeat match goal with
         | Q : exists _, _ |- _ => destruct Q
         | Q : _ /\ _ |- _ => destruct Q
         | Q : _ \/ _ |- _ => destruct Q
         | Q : match ?x with Ok _ => _ | Raise _ => _ end |- _ =>
             destruct x eqn:?
         | Q : match ?x with Returns _ => _ | Fails _ => _ end |- _ =>
             destruct x eqn:?
         | Q : if ?b then _ else _ |- _ => destruct b eqn:?
         end.

(** The stages of a run of [send_message] in [Q], the trace made explicit
    up to the loop. *)
Ltac send_message_stages Q :=
  let ar := fresh "ar" in
  let sa := fresh "sa" in
  let Ea := fresh "Ea" in
  let Hca := fresh "Hca" in
  let Hrest := fresh "Hrest" in
  let HA := fresh "Hcached" in
  apply send_message_of_stages in Q;
  destruct Q as (ar & sa & Ea & Hca & Hrest);
  match type of Hca with
  | create_agent_of _ ?st = _ =>
      destruct (Py.truthy (AGENT_ID st)) eqn:HA;
      [ rewrite (create_agent_of_cached _ _ HA) in Hca;
        injection Hca; intros; subst ar sa Ea
      | apply (create_agent_of_inv _ _ _ _ _ HA) in Hca ]
  end;
  stage_destruct; subst.

(** The stages of a run of [chat] in [Q]. *)
Ltac chat_stages Q :=
  let data := fresh "data" in
  let message := fresh "message" in
  let Hm := fresh "Hmessage" in
  let Ht := fresh "Htruthy" in
  let Et := fresh "Et" in
  let st := fresh "st" in
  let Hthread := fresh "Hthread" in
  let Hsend := fresh "Hsend" in
  let Hc := fresh "Hthread_cached" in
  let created := fresh "created" in
  let sc := fresh "sc" in
  let Hct := fresh "Hct" in
  let sent := fresh "sent" in
  let E1 := fresh "E" in
  let Hsm := fresh "Hsm" in
  let HT := fresh "Hkept" in
  let Hf := fresh "Hnone" in
  let Q' := fresh "Hquiet" in
  pose proof (chat_of_quiet _ _ _ _ _ _ Q) as Q';
  destruct Q' as [(data & message & -> & Hm & Ht)|(-> & -> & ->)];
  [ apply (chat_of_stages _ data message _ _ _ _ Hm Ht) in Q;
    destruct Q as (Et & st & Hthread & Hsend);
    destruct Hthread as [(Hc & -> & ->)|(Hc & created & sc & Hct & ->)];
    [ | rewrite create_thread_of_eq in Hct; cbv zeta in Hct;
        destruct (headers_for _ _ _) eqn:?; injection Hct; intros; subst ];
    (destruct Hsend as [(Hf & -> & -> & ->)|(Hf & sent & E1 & Hsm & -> & HT & ->)];
     [ | send_message_stages Hsm ])
  | ].

(** ** The pass that decides a run of the loop *)

Section Decisive.
Context {W : World}.
Variable f : file.
Variables thread_id run_id headers : value.

Let loop_run := @passes W f thread_id run_id headers.
Let rq := poll_request thread_id run_id headers.

Ltac in_head Hin :=
  trace_eval; cbn [In] in Hin;
  first [ contradiction
        | destruct Hin as [Hin|Hin]; [subst|try contradiction]
        | idtac ].

Lemma in_pause_polls rp E :
  In rp (polls (pause_after_approval f ++ E)) -> In rp (polls E).
Proof. destruct f; trace_eval; auto. Qed.

Lemma in_pause_approvals rp E :
  In rp (approvals (pause_after_approval f ++ E)) -> In rp (approvals E).
Proof. destruct f; trace_eval; auto. Qed.

(** While every poll leaves the run unfinished, the loop uses all of its
    attempts and gives nothing. *)
Lemma passes_all_idle n r E :
  loop_run n r E ->
  forallb is_idle (polls E) = true ->
  r = Ok None /\ length (polls E) = n /\ E = idle_cycles rq (polls E).
Proof.
  unfold is_idle.
  induction 1 as [|n rp r E Hc Hp IH| | | | | |]; trace_eval; cbn [forallb];
    rewrite ?H; try (intros Q; discriminate Q); auto.
  rewrite Hc. cbn [andb]. intros Hall.
  destruct (IH Hall) as (-> & Hn & HE). cbn [length idle_cycles flat_map app].
  split_goal; auto. unfold idle_cycles in HE.
  unfold polls in HE. rewrite <- HE. reflexivity.
Qed.

(** A poll that could not be read is the last event; its exception leaves
    the loop. *)
Lemma passes_poll_broken n r E rp e :
  loop_run n r E ->
  In rp (polls E) -> classify rp = Broken e ->
  r = Raise e /\ exists E0, E = (E0 ++ [Request rq rp])%list.
Proof.
  intros Hp Hin Hc. induction Hp; in_head Hin; try congruence.
  - destruct (IHHp Hin) as (-> & E0 & ->). split; [reflexivity|].
    exists (Request rq rp0 :: Sleep 1 :: E0). reflexivity.
  - rewrite Hc in H. injection H; intros; subst. split; [reflexivity|].
    exists []. reflexivity.
  - apply in_pause_polls in Hin. destruct (IHHp Hin) as (-> & E0 & ->).
    split; [reflexivity|]. eexists (_ :: _ :: pause_after_approval f ++ E0).
    cbn [app]. now rewrite <- app_assoc.
Qed.

(** A poll that reads a terminal failure is the last event. *)
Lemma passes_poll_failed n r E rp :
  loop_run n r E ->
  In rp (polls E) -> classify rp = Failed ->
  r = Ok None /\ exists E0, E = (E0 ++ [Request rq rp])%list.
Proof.
  intros Hp Hin Hc. induction Hp; in_head Hin; try congruence.
  - destruct (IHHp Hin) as (-> & E0 & ->). split; [reflexivity|].
    exists (Request rq rp0 :: Sleep 1 :: E0). reflexivity.
  - split; [reflexivity|]. exists []. reflexivity.
  - apply in_pause_polls in Hin. destruct (IHHp Hin) as (-> & E0 & ->).
    split; [reflexivity|]. eexists (_ :: _ :: pause_after_approval f ++ E0).
    cbn [app]. now rewrite <- app_assoc.
Qed.

(** A poll that reads [completed] is followed by the listing, which ends
    the run. *)
Lemma passes_poll_completed n r E rp :
  loop_run n r E ->
  In rp (polls E) -> classify rp = Completed ->
  exists lrp E0,
    listings E = [lrp] /\ r = leave (completed_outcome lrp) /\
    E = (E0 ++ [Request rq rp;
                Request (listing_request thread_id headers) lrp])%list.
Proof.
  intros Hp Hin Hc. induction Hp; in_head Hin; try congruence.
  - destruct (IHHp Hin) as (lrp & E0 & HL & -> & ->).
    exists lrp, (Request rq rp0 :: Sleep 1 :: E0). auto.
  - exists lrp, []. auto.
  - apply in_pause_polls in Hin.
    destruct (IHHp Hin) as (lrp & E0 & HL & -> & ->).
    exists lrp. eexists (_ :: _ :: pause_after_approval f ++ E0).
    split_goal; auto.
    + destruct f; trace_eval; exact HL.
    + cbn [app]. now rewrite <- app_assoc.
Qed.

(** A poll that reads [requires_action]: what the branch did on its body,
    and that it ended the run unless it submitted approvals that were
    accepted. *)
Lemma passes_poll_requires_action n r E rp run_data :
  loop_run n r E ->
  In rp (polls E) -> classify rp = RequiresAction run_data ->
  exists c (s1 s2 : state W) E1,
    on_requires_action_of f thread_id run_id headers run_data s1 = (c, s2, E1) /\
    (goes_on c = false ->
     r = leave c /\ exists E0, E = (E0 ++ Request rq rp :: E1)%list).
Proof.
  intros Hp Hin Hc. induction Hp; in_head Hin; try congruence.
  - destruct (IHHp Hin) as (c & s1 & s2 & E1 & Hra & Hl).
    exists c, s1, s2, E1. split; [exact Hra|]. intros Hgo.
    destruct (Hl Hgo) as (-> & E0 & ->). split; [reflexivity|].
    exists (Request rq rp0 :: Sleep 1 :: E0). reflexivity.
  - rewrite Hc in H. injection H; intros; subst.
    exists c, s1, s2, []. split; [assumption|]. intros _.
    split; [reflexivity|]. exists []. reflexivity.
  - rewrite Hc in H. injection H; intros; subst.
    eexists _, s1, s2, _. split; [eassumption|]. intros _.
    split; [reflexivity|]. exists []. reflexivity.
  - rewrite Hc in H. injection H; intros; subst.
    eexists _, s1, s2, _. split; [eassumption|].
    rewrite (submitted_goes_on f _ H2). destruct f; discriminate.
  - apply in_pause_polls in Hin.
    destruct (IHHp Hin) as (c & s3 & s4 & E1 & Hra & Hl).
    exists c, s3, s4, E1. split; [exact Hra|]. intros Hgo.
    destruct (Hl Hgo) as (-> & E0 & ->). split; [reflexivity|].
    eexists (_ :: _ :: pause_after_approval f ++ E0).
    cbn [app]. now rewrite <- app_assoc.
Qed.

(** An approval that was not accepted is the last event. *)
Lemma passes_approval_rejected n r E srp :
  loop_run n r E ->
  In srp (approvals E) -> answered_200 srp = false ->
  r = leave (submitted f srp) /\
  exists E0 records,
    E = (E0 ++ [Request (submit_request thread_id run_id headers records) srp])%list.
Proof.
  intros Hp Hin Hc. induction Hp; in_head Hin; try congruence.
  - destruct (IHHp Hin) as (-> & E0 & records & ->). split; [reflexivity|].
    exists (Request rq rp :: Sleep 1 :: E0), records. reflexivity.
  - split; [reflexivity|]. exists [Request rq rp], records. reflexivity.
  - apply in_pause_approvals in Hin.
    destruct (IHHp Hin) as (-> & E0 & records' & ->). split; [reflexivity|].
    eexists (_ :: _ :: pause_after_approval f ++ E0), records'.
    cbn [app]. now rewrite <- app_assoc.
Qed.

End Decisive.

(** ** How a trace ends, and readings of a poll *)

Lemma ends_with_refl E tail : ends_with (E ++ tail) tail.
Proof. now exists E. Qed.

Lemma ends_with_self tail : ends_with tail tail.
Proof. now exists []. Qed.

Lemma ends_with_cons ev E tail : ends_with E tail -> ends_with (ev :: E) tail.
Proof. intros [E0 ->]. now exists (ev :: E0). Qed.

Lemma ends_with_app E1 E tail : ends_with E tail -> ends_with (E1 ++ E) tail.
Proof. intros [E0 ->]. exists (E1 ++ E0)%list. now rewrite app_assoc. Qed.

Ltac ends_with_auto :=
  repeat first [ apply ends_with_self
               | apply ends_with_refl
               | apply ends_with_cons
               | apply ends_with_app ].

Lemma poll_exception_broken rp e :
  poll_exception rp = Some e -> classify rp = Broken e.
Proof.
  unfold poll_exception, classify. destruct rp as [r|e0]; [|congruence].
  destruct (status_code r =? 200); [|discriminate].
  destruct (json r) as [d|e0]; [|congruence].
  destruct (Py.getitem d "status"); [discriminate|congruence].
Qed.

Lemma other_status_idle rp : other_status rp = true -> is_idle rp = true.
Proof.
  unfold other_status, is_idle. intros H.
  destruct (polled_status rp) as [status|] eqn:Hs; [|discriminate].
  apply negb_true_iff in H. unfold known_statuses in H. cbn [Py.in_strs existsb] in H.
  repeat (apply orb_false_iff in H; destruct H as [? H]).
  rewrite (classify_polled_idle rp status); auto.
  unfold terminal_failure. cbn [Py.in_strs existsb].
  repeat (apply orb_false_iff; split; auto).
Qed.

Lemma has_status_classify_requires_action rp :
  has_status "requires_action" rp = true ->
  exists kv, classify rp = RequiresAction (VDict kv) /\
             required_action_of rp = lookup "required_action" kv.
Proof.
  intros H. apply has_status_polled in H.
  destruct (classify_polled_requires_action _ H) as (r & d & -> & Hj & Hc).
  unfold polled, polled_status in H.
  destruct (status_code r =? 200); [|discriminate]. rewrite Hj in H.
  destruct d as [| | | | |kv]; try discriminate.
  exists kv. split; [exact Hc|]. unfold required_action_of. now rewrite Hj.
Qed.

Ltac impossible :=
  try match goal with
      | Q : raised (Ok _) = true |- _ => discriminate Q
      | Q : ?x = true, Q' : ?x = false |- _ => rewrite Q in Q'; discriminate Q'
      end.

Ltac chat_cases Q :=
  chat_stages Q; impossible; clean_results; loop_facts; trace_eval;
  rewrite_quiet.

Lemma forallb_impl {A} (p q : A -> bool) l :
  (forall x, p x = true -> q x = true) ->
  forallb p l = true -> forallb q l = true.
Proof.
  intros Hpq. induction l as [|x l IH]; simpl; [auto|].
  intros H. apply andb_true_iff in H. destruct H as [Hx Hl].
  now rewrite (Hpq _ Hx), IH.
Qed.

Lemma headers_for_agent_raised W token h :
  no_api_key W = true -> headers_for W agent_py token = Ok h ->
  raised token = false.
Proof.
  unfold headers_for. intros ->. destruct token; [reflexivity|discriminate].
Qed.

Lemma headers_for_app_raised W token h :
  no_api_key W = true -> headers_for W app_py token = Ok h ->
  raised token = true -> h = VNone.
Proof.
  unfold headers_for. intros ->. destruct token; cbn [raised]; intros;
    [discriminate|congruence].
Qed.

Lemma headers_for_agent_none W token e :
  headers_for W agent_py token = Raise e -> e = RuntimeError no_auth.
Proof.
  unfold headers_for. destruct token; [discriminate|].
  destruct (no_api_key W); [|discriminate].
  intros Q. injection Q as <-. reflexivity.
Qed.

Lemma calls_any_sub (kind : request -> bool) (P : request * reply -> Prop) E :
  Forall P (calls any_request E) -> Forall P (calls kind E).
Proof.
  induction E as [|ev E IH]; [auto|].
  destruct ev as [rq rp| |]; cbn [calls any_request]; auto.
  intros H. inversion H; subst. destruct (kind rq); auto.
Qed.

(** ** The branch [requires_action] on particular payloads *)

Section Payloads.
Context {W : World}.
Local Arguments lookup : simpl never.

(** No [required_action] in the body of the poll: [agent.py] reads an empty
    payload and leaves the loop, [app.py] raises. *)
Lemma on_requires_action_of_missing f t rid h kv (s : state W) :
  lookup "required_action" kv = None ->
  on_requires_action_of f t rid h (VDict kv) s =
  (match f with
   | agent_py => Ok Break
   | app_py => Raise (KeyError "required_action")
   end, s, []).
Proof.
  intros H.
  destruct f; unfold on_requires_action_of, agent.on_requires_action,
    app.on_requires_action, bind, lift, ret, Py.get, Py.getitem;
    rewrite H; reflexivity.
Qed.

Lemma collect_nothing tool_calls :
  forallb is_dict tool_calls = true ->
  existsb is_mcp tool_calls = false ->
  collect_tool_approvals tool_calls = Ok [].
Proof.
  induction tool_calls as [|tc rest IH]; [reflexivity|].
  cbn [forallb existsb]. intros Hd Hm.
  apply andb_true_iff in Hd. destruct Hd as [Hd Hrest].
  apply orb_false_iff in Hm. destruct Hm as [Hm Hrest'].
  destruct tc as [| | | | |kv]; try discriminate.
  cbn [collect_tool_approvals]. unfold Py.bind, Py.get. unfold is_mcp in Hm.
  destruct (lookup "type" kv) as [ty|].
  - rewrite Hm. auto.
  - cbn [Py.eq_str]. auto.
Qed.

(** Pending calls none of which is of type [mcp]: the branch submits
    nothing and leaves the loop. *)
Lemma on_requires_action_of_nothing f field t rid h kv ra tool_calls
    (s : state W) :
  lookup "required_action" kv = Some ra ->
  field = "submit_tool_outputs" \/
  (field = "submit_tool_approval" /\ lacks "submit_tool_outputs" ra = true) ->
  pending_calls field ra = Some tool_calls ->
  forallb is_dict tool_calls = true ->
  existsb is_mcp tool_calls = false ->
  on_requires_action_of f t rid h (VDict kv) s = (Ok Break, s, []).
Proof.
  intros Hra Hfield Hp Hd Hm.
  assert (Hrun : on_requires_action_of f t rid h (VDict kv) s =
                 approval_run (goes_on_by f) t rid h tool_calls s).
  { destruct Hfield as [->|[-> Hl]].
    - eapply on_requires_action_of_primary; eauto.
    - eapply on_requires_action_of_legacy; eauto. }
  rewrite Hrun. unfold approval_run.
  now rewrite (collect_nothing _ Hd Hm).
Qed.

End Payloads.

Lemma existsb_In {A} (p : A -> bool) l :
  existsb p l = true -> exists x, In x l /\ p x = true.
Proof. intros H. apply existsb_exists in H. exact H. Qed.

Section Listing.
Context {W : World}.
Variable f : file.
Variables thread_id run_id headers : value.

(** The listing of the messages is the last event, and decides the run. *)
Lemma passes_listing n r E lrp :
  @passes W f thread_id run_id headers n r E ->
  In lrp (listings E) ->
  r = leave (completed_outcome lrp) /\
  ends_with E [Request (listing_request thread_id headers) lrp].
Proof.
  intros Hp Hin. induction Hp; trace_eval; cbn [In] in Hin;
    try contradiction.
  - destruct (IHHp Hin) as [-> He]. split; [reflexivity|]. ends_with_auto.
    exact He.
  - destruct Hin as [<-|[]]. split; [reflexivity|]. ends_with_auto.
  - assert (Hin' : In lrp (listings E)) by (destruct f; trace_eval; exact Hin).
    destruct (IHHp Hin') as [-> He]. split; [reflexivity|].
    do 2 apply ends_with_cons. apply ends_with_app. exact He.
Qed.

End Listing.

Lemma completed_outcome_unanswered lrp :
  answered_200 lrp = false ->
  completed_outcome lrp =
  match lrp with
  | Returns _ => Ok Break
  | Fails e => Raise e
  end.
Proof.
  destruct lrp as [r|e]; cbn [answered_200 completed_outcome]; [|reflexivity].
  now intros ->.
Qed.

Lemma approvable_collect tc rest :
  approvable tc = true ->
  collect_tool_approvals (tc :: rest) =
  if is_mcp tc then
    match Py.getitem tc "id", collect_tool_approvals rest with
    | Ok id, Ok more => Ok (approval id :: more)
    | Ok _, Raise e => Raise e
    | Raise e, _ => Raise e
    end
  else collect_tool_approvals rest.
Proof.
  unfold approvable. intros H. apply andb_true_iff in H. destruct H as [Hd _].
  destruct tc as [| | | | |kv]; try discriminate.
  cbn [collect_tool_approvals]. unfold Py.bind, Py.get, is_mcp.
  destruct (lookup "type" kv) as [ty|]; cbn [Py.eq_str].
  - destruct (Py.eq_str ty "mcp"); [|reflexivity].
    destruct (Py.getitem (VDict kv) "id"); [|reflexivity].
    destruct (collect_tool_approvals rest); reflexivity.
  - reflexivity.
Qed.

Lemma not_approvable_collect tc rest :
  approvable tc = false ->
  collect_tool_approvals (tc :: rest) =
  Raise (if is_dict tc then KeyError "id" else AttributeError tc "get").
Proof.
  unfold approvable, has_key, is_mcp. intros H.
  destruct tc as [| | | | |kv]; try reflexivity.
  cbn [is_dict andb] in H. cbn [collect_tool_approvals is_dict].
  unfold Py.bind, Py.get, Py.getitem.
  destruct (lookup "type" kv) as [ty|]; [|discriminate].
  destruct (Py.eq_str ty "mcp"); [|discriminate].
  destruct (lookup "id" kv); [discriminate|reflexivity].
Qed.

Section CreateAgent.
Context {W : World}.
Variable f : file.

(** A call of [create_agent] that returns: the id is the cached one. *)
Lemma create_agent_of_ok (s : state W) id s1 E :
  create_agent_of f s = (Ok id, s1, E) ->
  AGENT_ID s1 = id /\ current_thread_id s1 = current_thread_id s /\
  (length (calls any_request E) <= 1)%nat /\
  (Py.truthy (AGENT_ID s) = true -> E = [] /\ s1 = s).
Proof.
  intros H. destruct (Py.truthy (AGENT_ID s)) eqn:Hc.
  - rewrite (create_agent_of_cached f s Hc) in H.
    injection H; intros; subst. simpl. auto.
  - apply (create_agent_of_inv f s _ _ _ Hc) in H.
    destruct H as (HT & token & [(_ & _ & Hr & _)|(h & rp & _ & -> & Hrp)]);
      [discriminate|].
    split; [|split; [exact HT|split; [simpl; lia|discriminate]]].
    destruct rp as [x|e]; [|destruct Hrp; discriminate].
    destruct (_ && _); [destruct Hrp; discriminate|].
    destruct (id_of (Returns x)); destruct Hrp; congruence.
Qed.

(** A call of [create_agent] that raises: nothing is cached. *)
Lemma create_agent_of_raise (s : state W) e s1 E :
  create_agent_of f s = (Raise e, s1, E) ->
  AGENT_ID s1 = AGENT_ID s /\
  Py.truthy (AGENT_ID s) = false /\
  current_thread_id s1 = current_thread_id s /\
  (length (calls any_request E) <= 1)%nat /\
  (forall r,
      In (Returns r) (replies is_agent_creation E) ->
      400 <= status_code r < 600 ->
      e = HTTPError (http_error r)).
Proof.
  intros H. destruct (Py.truthy (AGENT_ID s)) eqn:Hc.
  - rewrite (create_agent_of_cached f s Hc) in H. discriminate.
  - apply (create_agent_of_inv f s _ _ _ Hc) in H.
    destruct H as (HT & token & [(-> & _ & _ & HA)|(h & rp & _ & -> & Hrp)]).
    + split; [exact HA|]. split; [reflexivity|]. split; [exact HT|].
      split; [simpl; lia|]. intros r [].
    + assert (HA : AGENT_ID s1 = AGENT_ID s).
      { destruct rp as [x|e0]; [|tauto].
        destruct (_ && _); [tauto|].
        destruct (id_of (Returns x)); destruct Hrp; congruence. }
      split; [exact HA|]. split; [reflexivity|]. split; [exact HT|].
      split; [simpl; lia|].
      unfold replies. trace_eval. intros r [Hin|[]] Hcode. subst rp.
      assert (Hb : (400 <=? status_code r) && (status_code r <? 600) = true).
      { apply andb_true_iff. split; [apply Z.leb_le|apply Z.ltb_lt]; lia. }
      rewrite Hb in Hrp. destruct Hrp; congruence.
Qed.

End CreateAgent.

(** ** The cached agent over the calls of a process *)

Lemma chat_of_keeps_agent {W : World} (f : file) g (s : state W) resp s' E :
  Py.truthy (AGENT_ID s) = true ->
  chat_of f g s = (resp, s', E) ->
  AGENT_ID s' = AGENT_ID s /\
  calls is_agent_creation E = [] /\
  Forall (fun c => req_json (fst c)
                   = Some (VDict [("assistant_id", AGENT_ID s)]))
    (calls is_run_creation E).
Proof.
  intros Hagent H. chat_cases H.
  all: cbn [AGENT_ID after] in *.
  all: try congruence.
  all: split; [congruence|]; split; [reflexivity|].
  all: repeat first
         [ apply Forall_nil
         | apply Forall_cons; [cbn [fst req_json run_request]; congruence|] ].
Qed.

Lemma chats_keep_agent {W : World} (f : file) requests :
  forall (s : state W) resps s' E,
    Py.truthy (AGENT_ID s) = true ->
    chats f requests s = (resps, s', E) ->
    AGENT_ID s' = AGENT_ID s /\
    calls is_agent_creation E = [] /\
    Forall (fun c => req_json (fst c)
                     = Some (VDict [("assistant_id", AGENT_ID s)]))
      (calls is_run_creation E).
Proof.
  induction requests as [|g rest IH]; intros s resps s' E Ht H; simpl in H.
  - injection H; intros; subst. simpl. auto.
  - destruct (chat_of f g s) as [[resp s1] E1] eqn:H1.
    destruct (chats f rest s1) as [[resps' s2] E2] eqn:H2.
    injection H; intros; subst.
    destruct (chat_of_keeps_agent f g s resp s1 E1 Ht H1) as (A1 & C1 & R1).
    assert (Ht1 : Py.truthy (AGENT_ID s1) = true) by congruence.
    destruct (IH s1 resps' s' E2 Ht1 H2) as (A2 & C2 & R2).
    split; [congruence|]. rewrite !calls_app, C1, C2.
    split; [reflexivity|]. apply Forall_app. split; [exact R1|].
    rewrite <- A1. exact R2.
Qed.

Section Addresses.
Context {W : World}.
Variable f : file.
Variables thread_id run_id headers : value.

(** Every request of the loop addresses its thread, and every poll and
    approval its run. *)
Lemma passes_addresses n r E :
  @passes W f thread_id run_id headers n r E ->
  Forall (fun c => thread_of (req_url (fst c)) = Some thread_id)
    (calls any_request E) /\
  Forall (fun c => run_of (req_url (fst c)) = Some run_id) (calls is_poll E) /\
  Forall (fun c => run_of (req_url (fst c)) = Some run_id)
    (calls is_submission E).
Proof.
  induction 1; try destruct f; trace_eval; split_hyps; split_goal;
    forall_auto.
Qed.

End Addresses.

(** * The test script *)

Lemma token_with_before E :
  token_with_each_request E = true -> token_before_each_request E = true.
Proof.
  revert E. fix IH 1. intros [|ev E]; [reflexivity|].
  destruct ev as [rq rp|secs|r]; cbn [token_with_each_request
    token_before_each_request]; try discriminate.
  - apply IH.
  - destruct E as [|[rq rp|secs|r'] E']; try discriminate. apply IH.
Qed.

Lemma token_with_app E1 E2 :
  token_with_each_request E1 = true -> token_with_each_request E2 = true ->
  token_with_each_request (E1 ++ E2) = true.
Proof.
  revert E1. fix IH 1. intros [|ev E]; [auto|].
  destruct ev as [rq rp|secs|r]; cbn [token_with_each_request app];
    try discriminate.
  - apply IH.
  - destruct E as [|[rq rp|secs|r'] E']; try discriminate.
    cbn [app]. apply IH.
Qed.

Lemma token_before_app E1 E2 :
  token_with_each_request E1 = true -> token_before_each_request E2 = true ->
  token_before_each_request (E1 ++ E2) = true.
Proof.
  revert E1. fix IH 1. intros [|ev E]; [auto|].
  destruct ev as [rq rp|secs|r]; cbn [token_with_each_request
    token_before_each_request app]; try discriminate.
  - apply IH.
  - destruct E as [|[rq rp|secs|r'] E']; try discriminate.
    cbn [app]. apply IH.
Qed.

Section Script.
Context {W : World}.

Lemma attach_get_headers_eq (s : state W) :
  attach.get_headers s =
  (headers_for W agent_py (fst (get_token W (remote s))),
   Build_state (AGENT_ID s) (current_thread_id s) (snd (get_token W (remote s))),
   [GetToken (fst (get_token W (remote s)))]).
Proof. exact (get_headers_of_eq agent_py s). Qed.

(** *** Tokens and requests in pairs *)

Lemma paired_ret {A} (a : A) : @paired W A (ret a).
Proof. intros s r s' E H. inversion H; subst. reflexivity. Qed.

Lemma paired_lift {A} (x : result A) : @paired W A (lift x).
Proof. intros s r s' E H. inversion H; subst. destruct r; reflexivity. Qed.

Lemma paired_sleep secs : @paired W _ (sleep secs).
Proof. intros s r s' E H. inversion H; subst. reflexivity. Qed.

Lemma paired_raise_for_status r : paired (@raise_for_status W r).
Proof.
  unfold raise_for_status. intros s r0 s' E H.
  destruct (_ && _); inversion H; subst; reflexivity.
Qed.

Lemma paired_bind {A B} (m : M W A) (k : A -> M W B) :
  paired m -> (forall a, paired (k a)) -> paired (bind m k).
Proof.
  intros Hm Hk s r s' E H. run_inv H.
  - pose proof (Hm _ _ _ _ Hrun) as P1. pose proof (Hk _ _ _ _ _ Hrun0) as P2.
    cbv beta iota in P1. destruct r.
    + now apply token_with_app.
    + now apply token_before_app.
  - exact (Hm _ _ _ _ Hrun).
Qed.

(** The headers and the request they are made for. *)
Lemma paired_request {A} (mk : value -> request) (k : response -> M W A) :
  (forall r, paired (k r)) ->
  paired (bind attach.get_headers (fun headers => bind (send (mk headers)) k)).
Proof.
  intros Hk s r s' E H. unfold bind at 1 in H.
  rewrite attach_get_headers_eq in H.
  destruct (headers_for W agent_py _) as [h|e].
  2:{ injection H; intros; subst. reflexivity. }
  destruct (bind (send (mk h)) k _) as [[r1 s1] E1] eqn:Hb.
  injection H; intros; subst. run_inv Hb.
  - apply send_inv in Hrun. destruct Hrun as (rp & _ & -> & _).
    pose proof (Hk _ _ _ _ _ Hrun0) as P. cbn [app].
    destruct r; cbn [token_with_each_request token_before_each_request];
      exact P.
  - apply send_inv in Hrun. destruct Hrun as (rp & _ & -> & _). reflexivity.
Qed.

(** *** Error statuses *)

Lemma strict_quiet {A} (m : M W A) :
  (forall s r s' E, m s = (r, s', E) -> calls any_request E = []) -> strict m.
Proof.
  intros Hq s r s' E H rq x Hin. rewrite (Hq _ _ _ _ H) in Hin. destruct Hin.
Qed.

Lemma strict_ret {A} (a : A) : @strict W A (ret a).
Proof. apply strict_quiet. intros s r s' E H. now inversion H. Qed.

Lemma strict_lift {A} (x : result A) : @strict W A (lift x).
Proof. apply strict_quiet. intros s r s' E H. now inversion H. Qed.

Lemma strict_sleep secs : @strict W _ (sleep secs).
Proof. apply strict_quiet. intros s r s' E H. now inversion H. Qed.

Lemma strict_get_headers : strict (@attach.get_headers W).
Proof.
  apply strict_quiet. intros s r s' E H. rewrite attach_get_headers_eq in H.
  now inversion H.
Qed.

Lemma strict_bind {A B} (m : M W A) (k : A -> M W B) :
  strict m -> (forall a, strict (k a)) -> strict (bind m k).
Proof.
  intros Hm Hk s r s' E H rq x Hin Herr. run_inv H.
  - rewrite calls_app in Hin. apply in_app_or in Hin. destruct Hin as [Hin|Hin].
    + destruct (Hm _ _ _ _ Hrun rq x Hin Herr) as [Q _]. discriminate.
    + destruct (Hk _ _ _ _ _ Hrun0 rq x Hin Herr) as [-> He].
      split; [reflexivity|]. now apply ends_with_app.
  - destruct (Hm _ _ _ _ Hrun rq x Hin Herr) as [Q He].
    injection Q as ->. auto.
Qed.

(** A request followed by [raise_for_status]. *)
Lemma checked_eq {A} (rq0 : request) (k : response -> M W A) (s : state W) :
  bind (send rq0) (fun r => bind (raise_for_status r) (fun _ => k r)) s =
  match answer s rq0 with
  | Fails e => (Raise e, after s rq0, [Request rq0 (Fails e)])
  | Returns y =>
      if error_status y
      then (Raise (HTTPError (http_error y)), after s rq0,
            [Request rq0 (Returns y)])
      else prepend [Request rq0 (Returns y)] (k y (after s rq0))
  end.
Proof.
  unfold bind, send, raise_for_status, answer, after, error_status, prepend,
    raise, ret.
  destruct (serve W (remote s) rq0) as [[y|e] sigma]; cbn [fst snd];
    [|reflexivity].
  destruct ((400 <=? status_code y) && (status_code y <? 600));
    [reflexivity|].
  destruct (k y _) as [[r1 s1] E1]. reflexivity.
Qed.

Lemma strict_checked {A} (rq0 : request) (k : response -> M W A) :
  (forall r, strict (k r)) ->
  strict (bind (send rq0) (fun r => bind (raise_for_status r) (fun _ => k r))).
Proof.
  intros Hk s r s' E H rq x Hin Herr. rewrite checked_eq in H.
  destruct (answer s rq0) as [y|e].
  - destruct (error_status y) eqn:Hy.
    + injection H; intros; subst. cbn [calls any_request] in Hin.
      destruct Hin as [Hin|[]]. injection Hin; intros; subst.
      split; [reflexivity|apply ends_with_self].
    + destruct (k y (after s rq0)) as [[r1 s1] E1] eqn:Hrun.
      injection H; intros; subst. cbn [calls any_request app] in Hin.
      destruct Hin as [Hin|Hin]; [injection Hin; intros; subst; congruence|].
      destruct (Hk _ _ _ _ _ Hrun rq x Hin Herr) as [-> He].
      split; [reflexivity|]. now apply ends_with_cons.
  - injection H; intros; subst. cbn [calls any_request] in Hin.
    destruct Hin as [Hin|[]]. discriminate.
Qed.

End Script.

Ltac paired_step :=
  lazymatch goal with
  | |- paired (bind attach.get_headers _) =>
      unfold requests_post; apply paired_request; intros ?
  | |- paired (bind _ _) => apply paired_bind; [|intros ?]
  | |- paired (ret _) => apply paired_ret
  | |- paired (lift _) => apply paired_lift
  | |- paired (sleep _) => apply paired_sleep
  | |- paired (raise_for_status _) => apply paired_raise_for_status
  | |- paired (if ?b then _ else _) => destruct b
  | |- paired (match ?c with Some _ => _ | None => _ end) => destruct c
  | |- paired (match ?c with Next => _ | Continue => _ | Break => _ | Return _ => _ end) =>
      destruct c
  end.

Ltac strict_step :=
  lazymatch goal with
  | |- strict (bind (send _) (fun r => bind (raise_for_status r) _)) =>
      apply strict_checked; intros ?
  | |- strict (bind (requests_post _ _ _ _) _) => unfold requests_post
  | |- strict (bind _ _) => apply strict_bind; [|intros ?]
  | |- strict attach.get_headers => apply strict_get_headers
  | |- strict (ret _) => apply strict_ret
  | |- strict (lift _) => apply strict_lift
  | |- strict (sleep _) => apply strict_sleep
  | |- strict (if ?b then _ else _) => destruct b
  | |- strict (match ?c with Some _ => _ | None => _ end) => destruct c
  | |- strict (match ?c with Next => _ | Continue => _ | Break => _ | Return _ => _ end) =>
      destruct c
  end.

Section ScriptFunctions.
Context {W : World}.
Variable agent_id : value.

Lemma paired_create_thread : paired (@attach.create_thread W).
Proof. unfold attach.create_thread. repeat paired_step. Qed.

Lemma paired_create_run t m : paired (@attach.create_run W agent_id t m).
Proof. unfold attach.create_run. repeat paired_step. Qed.

Lemma paired_poll_run t rid : paired (@attach.poll_run W t rid).
Proof. unfold attach.poll_run. repeat paired_step. Qed.

Lemma paired_approve t rid ra :
  paired (@attach.approve_pending_tool_calls W t rid ra).
Proof. unfold attach.approve_pending_tool_calls. repeat paired_step. Qed.

Lemma paired_test_once t rid : paired (@attach.test_once W t rid).
Proof.
  unfold attach.test_once.
  repeat first [ apply paired_poll_run | apply paired_approve | paired_step ].
Qed.

Lemma paired_test_loop t rid n : paired (@attach.test_loop W t rid n).
Proof.
  induction n as [|n IH]; cbn [attach.test_loop].
  - apply paired_ret.
  - repeat first [ apply paired_test_once | exact IH | paired_step ].
Qed.

Lemma paired_test_mcp_functionality :
  paired (@attach.test_mcp_functionality W agent_id).
Proof.
  unfold attach.test_mcp_functionality.
  repeat first [ apply paired_create_thread | apply paired_create_run
               | apply paired_test_loop | paired_step ].
Qed.

Lemma strict_create_thread : strict (@attach.create_thread W).
Proof. unfold attach.create_thread. repeat strict_step. Qed.

Lemma strict_create_run t m : strict (@attach.create_run W agent_id t m).
Proof. unfold attach.create_run. repeat strict_step. Qed.

Lemma strict_poll_run t rid : strict (@attach.poll_run W t rid).
Proof. unfold attach.poll_run. repeat strict_step. Qed.

Lemma strict_approve t rid ra :
  strict (@attach.approve_pending_tool_calls W t rid ra).
Proof. unfold attach.approve_pending_tool_calls. repeat strict_step. Qed.

Lemma strict_test_once t rid : strict (@attach.test_once W t rid).
Proof.
  unfold attach.test_once.
  repeat first [ apply strict_poll_run | apply strict_approve | strict_step ].
Qed.

Lemma strict_test_loop t rid n : strict (@attach.test_loop W t rid n).
Proof.
  induction n as [|n IH]; cbn [attach.test_loop].
  - apply strict_ret.
  - repeat first [ apply strict_test_once | exact IH | strict_step ].
Qed.

Lemma strict_test_mcp_functionality :
  strict (@attach.test_mcp_functionality W agent_id).
Proof.
  unfold attach.test_mcp_functionality.
  repeat first [ apply strict_create_thread | apply strict_create_run
               | apply strict_test_loop | strict_step ].
Qed.

End ScriptFunctions.

(** *** The polls of the script *)

Section ScriptLoop.
Context {W : World}.
Variable agent_id : value.

Lemma attach_poll_run_inv t rid (s : state W) r s' E :
  attach.poll_run t rid s = (r, s', E) ->
  (length (polls E) <= 1)%nat /\ sleeps E = [] /\
  (forall run,
      r = Ok run ->
      exists token rq x,
        E = [GetToken token; Request rq (Returns x)] /\
        is_poll rq = true /\ error_status x = false /\ json x = Ok run).
Proof.
  unfold attach.poll_run. unfold bind at 1. rewrite attach_get_headers_eq.
  destruct (headers_for W agent_py _) as [h|e].
  2:{ intros H. injection H; intros; subst. split_goal; auto.
      intros run Q. discriminate Q. }
  rewrite checked_eq.
  set (s0 := Build_state _ _ _). set (rq := Build_request _ _ _ _ _).
  destruct (answer s0 rq) as [y|e].
  - destruct (error_status y) eqn:Hy.
    + intros H. injection H; intros; subst. split_goal; auto.
      intros run Q. discriminate Q.
    + unfold lift, prepend. intros H. injection H; intros; subst.
      split_goal; auto. intros run Q. do 3 eexists. split; [reflexivity|].
      auto.
  - intros H. injection H; intros; subst. split_goal; auto.
    intros run Q. discriminate Q.
Qed.

Lemma attach_approve_within t rid ra :
  within approval_event_or_token (@attach.approve_pending_tool_calls W t rid ra).
Proof.
  unfold attach.approve_pending_tool_calls, attach.get_headers.
  within_auto.
Qed.

End ScriptLoop.

Section ScriptVerdict.
Context {W : World}.

Lemma approval_or_token_quiet E :
  all_events approval_event_or_token E -> polls E = [] /\ sleeps E = [].
Proof.
  intros H. split.
  - unfold polls. rewrite (calls_none is_poll approval_event_or_token E); auto.
    intros [[] [] ? ? ?] rp; cbv; intros ?; congruence.
  - apply (sleeps_none approval_event_or_token); auto.
Qed.

Lemma polls_cons_request rq rp E :
  polls (Request rq rp :: E) = if is_poll rq then rp :: polls E else polls E.
Proof. unfold polls. cbn [calls]. now destruct (is_poll rq). Qed.

Lemma polls_cons_token r E : polls (GetToken r :: E) = polls E.
Proof. reflexivity. Qed.

Lemma read_completed_later E0 E :
  read_completed E -> read_completed (E0 ++ E).
Proof.
  intros (rq & x & run & He & H). exists rq, x, run.
  split; [now apply ends_with_app|exact H].
Qed.

Lemma attach_test_once_inv t rid (s : state W) c s' E :
  attach.test_once t rid s = (c, s', E) ->
  (length (polls E) <= 1)%nat /\ sleeps E = [] /\
  (forall c0, c = Ok c0 -> length (polls E) = 1%nat) /\
  (forall v,
      c = Ok (Return v) ->
      (v = VBool true /\ read_completed E) \/ v = VBool false).
Proof.
  unfold attach.test_once. intros H. run_inv H.
  2:{ destruct (attach_poll_run_inv _ _ _ _ _ _ Hrun) as (P & S & _).
      split_goal; auto; intros v Q; discriminate Q. }
  destruct (attach_poll_run_inv _ _ _ _ _ _ Hrun) as (P & S & Hok).
  destruct (Hok a eq_refl) as (token & rq & x & -> & Hrq & Hx & Hj).
  clear Hok Hrun.
  run_all.
  all: rewrite ?app_nil_r; cbn [app].
  all: repeat match goal with
              | Q : attach.approve_pending_tool_calls _ _ _ _ = _ |- _ =>
                  apply attach_approve_within in Q; destruct Q as [_ Q];
                  apply approval_or_token_quiet in Q; destruct Q
              end.
  all: rewrite ?polls_cons_token, ?polls_cons_request, ?Hrq;
    cbn [sleeps length].
  all: repeat match goal with
              | Q : polls _ = [] |- _ => rewrite Q
              | Q : sleeps _ = [] |- _ => rewrite Q
              end.
  all: split_goal; auto.
  all: try (intros v Q; discriminate Q).
  - intros v Q. injection Q as <-. left. split; [reflexivity|].
    apply eq_str_true in Heqb. subst.
    exists rq, x, a. split; [cbn [app]; ends_with_auto|]. auto.
  - intros v Q. injection Q as <-. right. reflexivity.
  - intros v Q. injection Q as <-. right. reflexivity.
Qed.

Lemma attach_test_loop_inv t rid n : forall (s : state W) r s' E,
  attach.test_loop t rid n s = (r, s', E) ->
  (length (polls E) <= n)%nat /\
  (length (sleeps E) <= length (polls E))%nat /\
  (forall v,
      r = Ok (Some v) ->
      (v = VBool true /\ read_completed E) \/ v = VBool false).
Proof.
  induction n as [|n IH]; intros s r s' E H; cbn [attach.test_loop] in H.
  - run_inv H. split_goal; auto. intros v Q. discriminate Q.
  - apply bind_inv in H.
    destruct H as [(c & s1 & E1 & E2 & Hone & Hk & ->)|(e & Hone & ->)].
    2:{ destruct (attach_test_once_inv _ _ _ _ _ _ Hone) as (P & S & _).
        rewrite S. split_goal; [lia|simpl; lia|]. intros v Q. discriminate Q. }
    destruct (attach_test_once_inv _ _ _ _ _ _ Hone) as (P & S & P1 & Hv).
    specialize (P1 c eq_refl).
    rewrite polls_app, sleeps_app, S, length_app, P1. cbn [app].
    destruct c as [| | |v0].
    + apply bind_inv in Hk.
      destruct Hk as [(u & s2 & E3 & E4 & Hs & Hl & ->)|(e & Hs & _)];
        [|inversion Hs].
      inversion Hs; subst.
      destruct (IH _ _ _ _ Hl) as (P2 & S2 & V2).
      cbn [sleeps app length]. change (polls (Sleep 1 :: E4)) with (polls E4).
      split_goal; try lia. intros v Q.
      destruct (V2 v Q) as [[-> Hr]| ->]; [left|right; reflexivity].
      split; [reflexivity|]. apply read_completed_later.
      now apply (read_completed_later [Sleep 1]).
    + destruct (IH _ _ _ _ Hk) as (P2 & S2 & V2).
      split_goal; try lia. intros v Q.
      destruct (V2 v Q) as [[-> Hr]| ->]; [left|right; reflexivity].
      split; [reflexivity|]. now apply read_completed_later.
    + inversion Hk; subst. rewrite app_nil_r. cbn [polls calls map sleeps length].
      split_goal; try lia. intros v Q. discriminate Q.
    + inversion Hk; subst. rewrite app_nil_r. cbn [polls calls map sleeps length].
      split_goal; try lia. intros v Q. injection Q as <-.
      exact (Hv v0 eq_refl).
Qed.

End ScriptVerdict.

Section ScriptSetup.
Context {W : World}.
Variable agent_id : value.

Lemma attach_create_thread_within :
  within thread_event (@attach.create_thread W).
Proof. unfold attach.create_thread, attach.get_headers. within_auto. Qed.

Lemma attach_create_run_within t m :
  within prelude_event (@attach.create_run W agent_id t m).
Proof. unfold attach.create_run, attach.get_headers. within_auto. Qed.

Lemma prelude_no_poll E :
  all_events prelude_event E -> polls E = [] /\ sleeps E = [].
Proof.
  intros H. split.
  - unfold polls. rewrite (calls_none is_poll prelude_event E); auto.
    intros [[] [] ? ? ?] rp; cbv; intros ?; congruence.
  - apply (sleeps_none prelude_event); auto.
Qed.

(** What [approve_pending_tool_calls] does on pending calls none of which
    is of type [mcp]. *)
Lemma attach_approve_nothing t rid ra tool_calls (s : state W) :
  pending_calls "submit_tool_outputs" ra = Some tool_calls ->
  tool_calls <> [] ->
  forallb is_dict tool_calls = true ->
  existsb is_mcp tool_calls = false ->
  attach.approve_pending_tool_calls t rid ra s =
  (headers <- attach.get_headers ;;
   r <- send (submit_request t rid headers []) ;;
   raise_for_status r ;;;
   ret true)%proc s.
Proof.
  intros Hp Hne Hd Hm. apply pending_calls_names in Hp.
  destruct Hp as (kv & details & -> & _ & Hf & Hc).
  unfold attach.approve_pending_tool_calls.
  unfold bind at 1. unfold lift at 1. unfold Py.get at 1. rewrite Hf.
  assert (Htruthy : Py.truthy (VDict details) = true).
  { destruct details; [discriminate|reflexivity]. }
  unfold bind at 1. rewrite Htruthy. unfold ret at 1.
  unfold bind at 1. unfold lift at 1. unfold Py.get at 1. rewrite Hc.
  assert (Hcalls : Py.truthy (VList tool_calls) = true).
  { destruct tool_calls; [congruence|reflexivity]. }
  rewrite Hcalls. cbn [negb].
  unfold bind at 1. unfold lift at 1. cbn [Py.iter].
  unfold bind at 1. unfold lift at 1. rewrite (collect_nothing _ Hd Hm).
  cbn [app]. unfold requests_post, submit_request.
  destruct (bind attach.get_headers _ s) as [[r1 s1] E1]. reflexivity.
Qed.

End ScriptSetup.

(** * The approval of pending calls and the end of a call *)

(** ** Where the pending calls are read *)

Lemma pending_calls_typed field ra tool_calls :
  type_is field ra = true ->
  held_under field ra = Some tool_calls ->
  pending_calls field ra = Some tool_calls.
Proof.
  unfold type_is, held_under, pending_calls.
  destruct ra as [| | | | |kv]; try discriminate.
  destruct (lookup "type" kv) as [ty|]; [|discriminate].
  intros ->. destruct (lookup field kv) as [[| | | | |details]|]; try discriminate.
  auto.
Qed.

Section Fields.
Context {W : World}.

Lemma app_on_requires_action_held field tid rid h kv ra tool_calls
    (s : state W) :
  lookup "required_action" kv = Some ra ->
  field = "submit_tool_outputs" \/
  (field = "submit_tool_approval" /\ lacks "submit_tool_outputs" ra = true) ->
  held_under field ra = Some tool_calls ->
  app.on_requires_action tid rid h (VDict kv) s =
  approval_run Continue tid rid h tool_calls s.
Proof.
  intros Hra Hfield Hheld. unfold held_under in Hheld.
  destruct ra as [| | | | |rkv]; try discriminate.
  destruct (lookup field rkv) as [[| | | | |details]|] eqn:Hdet; try discriminate.
  destruct (lookup "tool_calls" details) as [[| | | |calls|]|] eqn:Hcalls;
    try discriminate.
  injection Hheld as ->.
  unfold app.on_requires_action, approval_run, bind, lift, ret,
    requests_post, send, submit_request, answer, after.
  assert (Ht : Py.truthy (VDict details) = true)
    by (destruct details; [discriminate|reflexivity]).
  simpl. rewrite Hra. simpl.
  destruct Hfield as [-> | [-> Hl]].
  - rewrite Hdet. cbn [Py.bind]. rewrite Ht. simpl. rewrite Hcalls.
    destruct tool_calls as [|tc rest]; [reflexivity|].
    cbn -[collect_tool_approvals].
    destruct (collect_tool_approvals (tc :: rest)) as [[|rec recs]|e];
      simpl; [reflexivity| |reflexivity].
    destruct (serve W (remote s) _) as [[r|e] sigma]; simpl;
      [destruct (status_code r =? 200); reflexivity|reflexivity].
  - unfold lacks, has_key in Hl.
    destruct (lookup "submit_tool_outputs" rkv); [discriminate|].
    simpl. rewrite Hdet. cbn [Py.bind]. rewrite Ht. simpl. rewrite Hcalls.
    destruct tool_calls as [|tc rest]; [reflexivity|].
    cbn -[collect_tool_approvals].
    destruct (collect_tool_approvals (tc :: rest)) as [[|rec recs]|e];
      simpl; [reflexivity| |reflexivity].
    destruct (serve W (remote s) _) as [[r|e] sigma]; simpl;
      [destruct (status_code r =? 200); reflexivity|reflexivity].
Qed.

(** [agent.py] on a payload that holds its calls under the legacy name
    only, and whose [type] is not that name: nothing is approved. *)
Lemma agent_on_requires_action_untyped tid rid h kv ra tool_calls
    (s : state W) :
  lookup "required_action" kv = Some ra ->
  held_under "submit_tool_approval" ra = Some tool_calls ->
  lacks "submit_tool_outputs" ra = true ->
  type_is "submit_tool_approval" ra = false ->
  agent.on_requires_action tid rid h (VDict kv) s = (Ok Break, s, []).
Proof.
  intros Hra Hheld Hl Hty. unfold held_under in Hheld.
  destruct ra as [| | | | |rkv]; try discriminate.
  unfold lacks, has_key in Hl. unfold type_is in Hty.
  destruct (lookup "submit_tool_outputs" rkv) eqn:Hp; [discriminate|].
  unfold agent.on_requires_action.
  unfold bind at 1. unfold lift at 1. cbn [Py.get]. rewrite Hra.
  cbv zeta.
  replace (if Py.truthy (VDict rkv) then VDict rkv else VDict [])
    with (VDict rkv) by (destruct rkv; reflexivity).
  unfold bind at 1. unfold lift at 1. cbn [Py.get].
  destruct (lookup "type" rkv) as [ty|] eqn:Q.
  - rewrite Hty.
    destruct (Py.eq_str ty "submit_tool_outputs"); [|reflexivity].
    unfold bind, lift, ret. cbn [Py.get]. rewrite Hp. reflexivity.
  - reflexivity.
Qed.

End Fields.

(** ** The records that are due *)

Lemma type_of_call kv :
  exists ty,
    Py.get (VDict kv) "type" VNone = Ok ty /\
    Py.eq_str ty "mcp" = is_mcp (VDict kv).
Proof.
  unfold Py.get, is_mcp. destruct (lookup "type" kv) as [ty|]; eauto.
Qed.

Lemma collect_approvals_for tool_calls :
  forallb approvable tool_calls = true ->
  collect_tool_approvals tool_calls = Ok (approvals_for tool_calls).
Proof.
  unfold approvals_for.
  induction tool_calls as [|tc rest IH]; [reflexivity|].
  cbn [forallb]. intros H. apply andb_true_iff in H. destruct H as [Htc Hrest].
  specialize (IH Hrest). cbn [collect_tool_approvals filter].
  unfold approvable in Htc. apply andb_true_iff in Htc.
  destruct Htc as [Hd Hid].
  destruct tc as [| | | | |kv]; try discriminate.
  destruct (type_of_call kv) as (ty & Hg & Hm).
  rewrite Hg. cbn [Py.bind]. rewrite Hm.
  destruct (is_mcp (VDict kv)); [|exact IH].
  cbn [negb orb] in Hid. unfold has_key in Hid. cbn [Py.getitem map call_id].
  destruct (lookup "id" kv) as [id|]; [|discriminate].
  cbn [Py.bind]. rewrite IH. reflexivity.
Qed.

Lemma approvals_for_nil tool_calls :
  existsb is_mcp tool_calls = true -> approvals_for tool_calls <> [].
Proof.
  unfold approvals_for. induction tool_calls as [|tc rest IH]; [discriminate|].
  cbn [existsb filter]. destruct (is_mcp tc); [discriminate|]. exact IH.
Qed.

Lemma approvals_for_cover tool_calls :
  forallb approvable tool_calls = true ->
  covers_mcp_calls tool_calls (approvals_for tool_calls).
Proof.
  intros H. apply collect_covers. now apply collect_approvals_for.
Qed.

(** The branch on pending calls that it gets past, one of them of type
    [mcp]: one submission, of the records that are due. *)
Lemma approval_run_due {W : World} go tid rid h tool_calls (s : state W) :
  forallb approvable tool_calls = true ->
  existsb is_mcp tool_calls = true ->
  let rq := submit_request tid rid h (approvals_for tool_calls) in
  approval_run go tid rid h tool_calls s =
  (match answer s rq with
   | Returns r => if status_code r =? 200 then Ok go else Ok Break
   | Fails e => Raise e
   end, after s rq, [Request rq (answer s rq)]).
Proof.
  intros Hall Hex. unfold approval_run.
  rewrite (collect_approvals_for _ Hall).
  pose proof (approvals_for_nil _ Hex) as Hne.
  destruct (approvals_for tool_calls); [congruence|reflexivity].
Qed.

Lemma required_action_of_classified rp run_data ra :
  classify rp = RequiresAction run_data ->
  required_action_of rp = Some ra ->
  exists kv, run_data = VDict kv /\ lookup "required_action" kv = Some ra.
Proof.
  unfold classify, required_action_of. destruct rp as [r|e]; [|discriminate].
  destruct (status_code r =? 200); [|discriminate].
  destruct (json r) as [d|]; [|discriminate].
  destruct (Py.getitem d "status") as [st|]; [|discriminate].
  destruct (Py.eq_str st "completed"); [discriminate|].
  destruct (Py.eq_str st "requires_action").
  - intros Q. injection Q as <-.
    destruct d as [| | | | |kv]; try discriminate. eauto.
  - destruct (Py.in_strs st terminal_failure); discriminate.
Qed.

Lemma approval_trace_readings {W : World} f t rid h (s : state W) records :
  let E := approval_trace f t rid h s records in
  submissions E = [Some (VDict [("tool_approvals", VList records)])] /\
  length (polls E) = 3%nat /\
  length (listings E) = 1%nat /\
  sleeps E = (1 :: sleeps (pause_after_approval f))%list.
Proof.
  unfold approval_trace. destruct f; repeat split; reflexivity.
Qed.

(** ** The loop, pass by pass, on what the service answers *)

Section Steps.
Context {W : World}.
Variable f : file.
Variables t rid h : value.

Lemma poll_loop_of_idle n (s : state W) :
  let rq := poll_request t rid h in
  classify (answer s rq) = Idle ->
  poll_loop_of f t rid h (S n) s =
  prepend [Request rq (answer s rq); Sleep 1]
    (poll_loop_of f t rid h n (slept 1 (after s rq))).
Proof.
  intros rq H. rewrite !poll_loop_of_shared, poll_loop_S, poll_once_eq.
  cbv zeta. fold rq. rewrite H. reflexivity.
Qed.

Lemma poll_loop_of_completed n (s : state W) :
  let rq := poll_request t rid h in
  let lrq := listing_request t h in
  classify (answer s rq) = Completed ->
  poll_loop_of f t rid h (S n) s =
  (leave (completed_outcome (answer (after s rq) lrq)),
   after (after s rq) lrq,
   [Request rq (answer s rq); Request lrq (answer (after s rq) lrq)]).
Proof.
  intros rq lrq H. rewrite !poll_loop_of_shared, poll_loop_S, poll_once_eq.
  cbv zeta. fold rq. rewrite H, on_completed_eq. fold lrq. cbn [prepend app].
  pose proof (completed_outcome_leaves (answer (after s rq) lrq)) as Hl.
  destruct (completed_outcome (answer (after s rq) lrq)) as [[]|];
    try discriminate Hl; reflexivity.
Qed.

Lemma poll_loop_of_approved n (s : state W) run_data records :
  let rq := poll_request t rid h in
  let srq := submit_request t rid h records in
  classify (answer s rq) = RequiresAction run_data ->
  on_requires_action_of f t rid h run_data (after s rq) =
    (Ok (goes_on_by f), after (after s rq) srq,
     [Request srq (answer (after s rq) srq)]) ->
  poll_loop_of f t rid h (S n) s =
  prepend
    ([Request rq (answer s rq); Request srq (answer (after s rq) srq)]
       ++ pause_after_approval f)
    (poll_loop_of f t rid h n (resumed f (after (after s rq) srq))).
Proof.
  intros rq srq H Hra. rewrite !poll_loop_of_shared, poll_loop_S, poll_once_eq.
  cbv zeta. fold rq. rewrite H, Hra. fold srq. cbn [prepend app].
  destruct f; reflexivity.
Qed.

End Steps.

Section Forward.
Context {W : World}.
Variable f : file.

(** The loop on a service that approves and completes. *)
Lemma poll_loop_of_approves_and_completes t rid h n (s : state W)
    ra tool_calls messages content :
  approves_and_completes f t rid h s ra (approvals_for tool_calls) messages ->
  pending_calls "submit_tool_outputs" ra = Some tool_calls ->
  forallb approvable tool_calls = true ->
  existsb is_mcp tool_calls = true ->
  first_assistant_text messages = Ok (Some content) ->
  exists s',
    poll_loop_of f t rid h (S (S (S n))) s =
    (Ok (Some content), s',
     approval_trace f t rid h s (approvals_for tool_calls)).
Proof.
  intros (Hq & Hr & Hra & Hs & Hc & Hl) Hp Hall Hex Hfirst.
  cbv zeta in *.
  set (poll := poll_request t rid h) in *.
  set (submit := submit_request t rid h (approvals_for tool_calls)) in *.
  set (s1 := slept 1 (after s poll)) in *.
  set (s2 := after s1 poll) in *.
  set (s3 := resumed f (after s2 submit)) in *.
  assert (C1 : classify (answer s poll) = Idle).
  { apply non_terminal_idle. unfold non_terminal. rewrite Hq.
    apply orb_true_r. }
  destruct (classify_polled_requires_action _ (has_status_polled _ _ Hr))
    as (r2 & run_data & _ & _ & C2).
  destruct (required_action_of_classified _ _ _ C2 Hra) as (kv & -> & Hkv).
  pose proof (classify_polled_completed _ (has_status_polled _ _ Hc)) as C3.
  assert (Hrun :
            on_requires_action_of f t rid h (VDict kv) s2 =
            (Ok (goes_on_by f), after s2 submit,
             [Request submit (answer s2 submit)])).
  { rewrite (on_requires_action_of_primary f _ _ _ _ _ _ _ Hkv Hp).
    rewrite (approval_run_due _ _ _ _ _ _ Hall Hex). cbv zeta. fold submit.
    unfold answered_200 in Hs.
    destruct (answer s2 submit) as [r|e]; [|discriminate].
    now rewrite Hs. }
  exists (after (after s3 poll) (listing_request t h)).
  rewrite (poll_loop_of_idle f t rid h _ s C1). fold poll s1.
  rewrite (poll_loop_of_approved f t rid h _ s1 _ _ C2 Hrun).
  fold poll s2 submit s3.
  rewrite (poll_loop_of_completed f t rid h _ s3 C3). fold poll.
  rewrite (completed_outcome_listed _ _ Hl), Hfirst.
  unfold approval_trace. cbv zeta. fold poll submit s1 s2 s3.
  cbn [prepend leave app]. reflexivity.
Qed.

(** [send_message] up to its loop, on a service that starts the run. *)
Lemma send_message_of_started t m (s : state W) h rid :
  starts_run f t m s h rid ->
  send_message_of f t m s =
  prepend
    [GetToken (fst (get_token W (remote s)));
     Request (message_request t h m)
       (answer (with_token s) (message_request t h m));
     Request (run_request t h (AGENT_ID s))
       (answer (after (with_token s) (message_request t h m))
          (run_request t h (AGENT_ID s)))]
    (finished (poll_loop_of f t rid h 30 (loop_entry t m h s))).
Proof.
  intros (Ha & Hh & Hm & Hr & Hid).
  rewrite send_message_of_shared. unfold shared.send_message.
  unfold bind at 1. rewrite (create_agent_of_cached f s Ha).
  unfold bind at 1. rewrite get_headers_of_eq, Hh.
  rewrite exchange_eq. unfold exchange. fold (with_token s).
  rewrite Hm, Hr, Hid. fold (loop_entry t m h s).
  rewrite <- poll_loop_of_shared.
  destruct (poll_loop_of f t rid h 30 (loop_entry t m h s)) as [[r1 s1] E1].
  reflexivity.
Qed.

End Forward.

(** ** A loop that ran out of attempts *)

Lemma passes_nil {W : World} f t rid h n r :
  @passes W f t rid h n r [] -> r = Ok None.
Proof. intros H. inversion H; reflexivity. Qed.

Lemma last_cons2 {A} (a : A) l d : l <> [] -> last (a :: l) d = last l d.
Proof. destruct l; [congruence|reflexivity]. Qed.

Lemma last_app_r {A} (l1 l2 : list A) d :
  l2 <> [] -> last (l1 ++ l2) d = last l2 d.
Proof.
  intros Hne. induction l1 as [|a l1 IH]; [reflexivity|].
  cbn [app]. rewrite last_cons2; [exact IH|].
  destruct l1; [exact Hne|discriminate].
Qed.

Lemma polled_not_nil (E : list event) : polls E <> [] -> E <> [].
Proof. intros H ->. now apply H. Qed.

Lemma passes_spent {W : World} f t rid h n r E d :
  @passes W f t rid h n r E ->
  E <> [] ->
  went_on (last E d) = true ->
  r = Ok None.
Proof.
  induction 1; intros Hne Hlast.
  - reflexivity.
  - destruct E as [|ev E'].
    + eapply passes_nil; eassumption.
    + apply IHpasses; [discriminate|]. exact Hlast.
  - reflexivity.
  - simpl in Hlast. discriminate.
  - simpl in Hlast. discriminate.
  - simpl in Hlast. discriminate.
  - simpl in Hlast. congruence.
  - destruct E as [|ev E'].
    + eapply passes_nil; eassumption.
    + apply IHpasses; [discriminate|].
      destruct f; exact Hlast.
Qed.

(** A call whose loop ran out of attempts gives the fallback. *)
Lemma send_message_spent {W : World} (f : file) t m (s : state W) r s' E d :
  send_message_of f t m s = (r, s', E) ->
  polls E <> [] ->
  went_on (last E d) = true ->
  r = Ok (VStr fallback).
Proof.
  intros H Hne Hlast. apply send_message_of_inv in H.
  apply (send_message_inv _ _ _ (create_agent_of_within f)
           (get_headers_of_within f)) in H.
  destruct H as [[HE _]|(E0 & E1 & s0 & rid & h & r1 & -> & HE0 & Hloop & ->)].
  { apply prelude_quiet in HE. destruct HE as (P & _). contradiction. }
  pose proof (prelude_quiet _ HE0) as (P0 & _).
  rewrite polls_app, P0 in Hne. cbn [app] in Hne.
  apply polled_not_nil in Hne.
  rewrite last_app_r in Hlast by exact Hne.
  rewrite <- poll_loop_of_shared in Hloop.
  apply poll_loop_of_passes in Hloop.
  now rewrite (passes_spent _ _ _ _ _ _ _ _ Hloop Hne Hlast).
Qed.

(** ** Properties of the approval and of the answer to a failed run *)

(** C1: a run whose polls read [queued], then [requires_action] with a
    [submit_tool_outputs] payload, then [completed].

    First, read off the trace of [send_message]: when its polls read these
    three statuses in this order, the payload of the second holding the
    tool calls [tool_calls], exactly one approval submission was issued,
    for the one [requires_action]; its records cover exactly the calls of
    type [mcp], one record per call with the call's id, [approve] true and
    an empty [headers] map; and when the listing holds an assistant message
    with a text after messages of other roles only, that text is returned.

    Second, from the side of the service, for the loop in any state: the
    service answers the first poll with [queued] and the next, a second
    later, with [requires_action] and a [submit_tool_outputs] payload whose
    pending calls are objects, those of type [mcp] with an [id] and at
    least one of them; it takes the submission of the records that are due
    with status 200, then answers the poll with [completed] and the listing
    with messages of which the first of role [assistant] has a text.  Then
    the events of the loop are exactly: poll, pause, poll, the one
    submission, the pause of [agent.py], poll, listing; the one submission
    carries the records that are due, one per call of type [mcp], in order,
    with the call's id, [approve] true and an empty [headers] map; and the
    loop gives that text, which [send_message] returns.

    Third, for [send_message] itself: when moreover the agent is cached and
    the service accepts the message and starts the run, [send_message]
    returns that text; its events are those before the loop, with no
    poll, listing, submission or pause among them, and then those of the
    loop above, so that the call holds the one submission of the records
    that are due.  All three hold in [agent.py] and in [app.py]. *)
Theorem approval_then_completion (W : World) (f : file) tid msg (s : state W) :
  (forall r s' E rp required_action tool_calls listing earlier m later content,
      send_message_of f tid msg s = (r, s', E) ->
      map polled_status (polls E) =
        [Some (VStr "queued"); Some (VStr "requires_action");
         Some (VStr "completed")] ->
      nth_error (polls E) 1 = Some rp ->
      required_action_of rp = Some required_action ->
      pending_calls "submit_tool_outputs" required_action = Some tool_calls ->
      listings E = [listing] ->
      listed_messages listing = Some (earlier ++ m :: later)%list ->
      forallb not_assistant earlier = true ->
      role_is "assistant" m = true ->
      message_text m = Some content ->
      (exists records,
          submissions E = [Some (VDict [("tool_approvals", VList records)])] /\
          covers_mcp_calls tool_calls records) /\
      r = Ok content) /\
  (forall h run_id (s0 : state W) required_action tool_calls
          earlier m later content,
      approves_and_completes f tid run_id h s0
        required_action (approvals_for tool_calls) (earlier ++ m :: later) ->
      pending_calls "submit_tool_outputs" required_action = Some tool_calls ->
      forallb approvable tool_calls = true ->
      existsb is_mcp tool_calls = true ->
      forallb not_assistant earlier = true ->
      role_is "assistant" m = true ->
      message_text m = Some content ->
      exists s',
        poll_loop_of f tid run_id h 30 s0 =
        (Ok (Some content), s',
         approval_trace f tid run_id h s0 (approvals_for tool_calls)) /\
        submissions (approval_trace f tid run_id h s0 (approvals_for tool_calls))
        = [Some (VDict [("tool_approvals", VList (approvals_for tool_calls))])] /\
        covers_mcp_calls tool_calls (approvals_for tool_calls) /\
        finish (Ok (Some content)) = Ok content) /\
  (forall h run_id required_action tool_calls earlier m later content,
      starts_run f tid msg s h run_id ->
      approves_and_completes f tid run_id h (loop_entry tid msg h s)
        required_action (approvals_for tool_calls) (earlier ++ m :: later) ->
      pending_calls "submit_tool_outputs" required_action = Some tool_calls ->
      forallb approvable tool_calls = true ->
      existsb is_mcp tool_calls = true ->
      forallb not_assistant earlier = true ->
      role_is "assistant" m = true ->
      message_text m = Some content ->
      exists s' E0 E,
        send_message_of f tid msg s = (Ok content, s', E) /\
        E = (E0 ++ approval_trace f tid run_id h (loop_entry tid msg h s)
                     (approvals_for tool_calls))%list /\
        polls E0 = [] /\ listings E0 = [] /\ submissions E0 = [] /\
        sleeps E0 = [] /\
        submissions E =
        [Some (VDict [("tool_approvals", VList (approvals_for tool_calls))])] /\
        covers_mcp_calls tool_calls (approvals_for tool_calls)).
Proof.
  split; [|split].
  - intros r s' E rp required_action tool_calls listing earlier m later content
      H HP Hnth Hra Hpending HL Hlisted Hearlier Hrole Htext.
    apply send_message_of_inv in H.
    destruct (polls E) as [|rp1 [|rp2 [|rp3 [|rp4 rest]]]] eqn:HE;
      try discriminate HP.
    simpl in HP, Hnth. injection HP; intros H3 H2 H1.
    injection Hnth; intros ->.
    assert (C1 : classify rp1 = Idle).
    { eapply classify_polled_idle; eauto. }
    destruct (classify_polled_requires_action rp H2)
      as (r2 & run_data & -> & Hjson & C2).
    pose proof (classify_polled_completed rp3 H3) as C3.
    destruct (send_message_approved _ _ _ (on_requires_action_of_within f)
                (create_agent_of_within f) (get_headers_of_within f)
                _ _ _ _ _ _ _ _ _ _ H HE C1 C2 C3)
      as [(c & s1 & s2 & E1 & rid & h & Hrun & Hgo & HS) (rp' & HL' & ->)].
    split.
    + unfold required_action_of in Hra. rewrite Hjson in Hra.
      destruct run_data as [| | | | |kv]; try discriminate Hra.
      rewrite (on_requires_action_of_primary f _ _ _ _ _ _ _ Hra Hpending)
        in Hrun.
      destruct (approval_run_goes_on _ _ _ _ _ _ _ _ _ Hrun Hgo)
        as (records & Hsub & Hcov & _).
      exists records. rewrite HS. auto.
    + rewrite HL in HL'. injection HL'; intros <-.
      rewrite (completed_outcome_listed _ _ Hlisted),
        first_assistant_text_skip, (first_assistant_text_found _ _ _ Hrole Htext);
        auto.
  - intros h run_id s0 required_action tool_calls earlier m later content
      Hserv Hpending Hall Hex Hearlier Hrole Htext.
    assert (Hfirst :
              first_assistant_text (earlier ++ m :: later) = Ok (Some content)).
    { rewrite first_assistant_text_skip by exact Hearlier.
      exact (first_assistant_text_found _ _ _ Hrole Htext). }
    destruct (poll_loop_of_approves_and_completes f tid run_id h 27 s0
                required_action tool_calls (earlier ++ m :: later) content
                Hserv Hpending Hall Hex Hfirst) as (s' & Hloop).
    exists s'. split; [exact Hloop|].
    split; [exact (proj1 (approval_trace_readings f tid run_id h s0 _))|].
    split; [now apply approvals_for_cover|reflexivity].
  - intros h run_id required_action tool_calls earlier m later content
      Hstart Hserv Hpending Hall Hex Hearlier Hrole Htext.
    assert (Hfirst :
              first_assistant_text (earlier ++ m :: later) = Ok (Some content)).
    { rewrite first_assistant_text_skip by exact Hearlier.
      exact (first_assistant_text_found _ _ _ Hrole Htext). }
    destruct (poll_loop_of_approves_and_completes f tid run_id h 27
                (loop_entry tid msg h s) required_action tool_calls
                (earlier ++ m :: later) content Hserv Hpending Hall Hex
                Hfirst) as (s' & Hloop).
    rewrite (send_message_of_started f tid msg s h run_id Hstart).
    change (S (S (S 27))) with 30%nat in Hloop. rewrite Hloop.
    destruct (approval_trace_readings f tid run_id h (loop_entry tid msg h s)
                (approvals_for tool_calls)) as (Hsub & _).
    exists s',
      [GetToken (fst (get_token W (remote s)));
       Request (message_request tid h msg)
         (answer (with_token s) (message_request tid h msg));
       Request (run_request tid h (AGENT_ID s))
         (answer (after (with_token s) (message_request tid h msg))
            (run_request tid h (AGENT_ID s)))].
    eexists. split; [reflexivity|].
    split; [reflexivity|].
    repeat split; try reflexivity.
    + exact Hsub.
    + now apply approvals_for_cover.
Qed.

Lemma approval_then_completion_witness :
  let W := script.approving "submit_tool_outputs" in
  let t := VStr "thread_1" in
  let payload :=
    VDict [("type", VStr "submit_tool_outputs");
           ("submit_tool_outputs",
            VDict [("tool_calls", VList script.pending)])] in
  let assistant := script.message "assistant" [script.text "Hello"] in
  let user := script.message "user" [script.text "Hi"] in
  let h := json_headers "Authorization" "Bearer token" in
  let due :=
    [Some (VDict [("tool_approvals", VList (approvals_for script.pending))])] in
  let s := Build_state (VStr "asst_1") VNone ((0%nat, 0%nat) : server W) in
  let x := send_message_of agent_py t (VStr "hi") (script.start W (0%nat, 0%nat)) in
  let y := send_message_of agent_py t (VStr "hi") s in
  let z := send_message_of app_py t (VStr "hi") s in
  ((exists records,
       submissions (trace_of x) =
         [Some (VDict [("tool_approvals", VList records)])] /\
       covers_mcp_calls script.pending records) /\
   result_of x = Ok (VStr "Hello")) /\
  (result_of y = Ok (VStr "Hello") /\ submissions (trace_of y) = due /\
   sleeps (trace_of y) = [1; 1]) /\
  (result_of z = Ok (VStr "Hello") /\ submissions (trace_of z) = due /\
   sleeps (trace_of z) = [1]) /\
  result_of (poll_loop_of app_py t (VStr "run_1") VNone 30
               (script.start W (0%nat, 0%nat)))
  = Ok (Some (VStr "Hello")).
Proof.
  intros W t payload assistant user h due s x y z.
  split; [|split; [|split]].
  - exact (proj1 (approval_then_completion W agent_py t (VStr "hi")
                    (script.start W (0%nat, 0%nat)))
             (result_of x) (state_of x)
             (trace_of x) (script.run_requires "submit_tool_outputs")
             payload script.pending (script.listing script.hello) []
             assistant [user] (VStr "Hello")
             (run_eta x)
             ltac:(vm_compute; reflexivity) ltac:(vm_compute; reflexivity)
             ltac:(vm_compute; reflexivity) ltac:(vm_compute; reflexivity)
             ltac:(vm_compute; reflexivity) ltac:(vm_compute; reflexivity)
             ltac:(vm_compute; reflexivity) ltac:(vm_compute; reflexivity)
             ltac:(vm_compute; reflexivity)).
  - destruct (proj2 (proj2 (approval_then_completion W agent_py t (VStr "hi") s))
                h (VStr "run_1") payload script.pending [] assistant [user]
                (VStr "Hello")
                ltac:(vm_compute; repeat split; reflexivity)
                ltac:(vm_compute; repeat split; reflexivity)
                eq_refl eq_refl eq_refl eq_refl eq_refl eq_refl)
      as (s' & E0 & E & Hrun & HE & _ & _ & _ & HS & Hsub & _).
    unfold y. rewrite Hrun. cbn [result_of trace_of fst snd].
    split; [reflexivity|]. split; [exact Hsub|].
    rewrite HE, sleeps_app, HS. reflexivity.
  - destruct (proj2 (proj2 (approval_then_completion W app_py t (VStr "hi") s))
                h (VStr "run_1") payload script.pending [] assistant [user]
                (VStr "Hello")
                ltac:(vm_compute; repeat split; reflexivity)
                ltac:(vm_compute; repeat split; reflexivity)
                eq_refl eq_refl eq_refl eq_refl eq_refl eq_refl)
      as (s' & E0 & E & Hrun & HE & _ & _ & _ & HS & Hsub & _).
    unfold z. rewrite Hrun. cbn [result_of trace_of fst snd].
    split; [reflexivity|]. split; [exact Hsub|].
    rewrite HE, sleeps_app, HS. reflexivity.
  - destruct (proj1 (proj2 (approval_then_completion W app_py t (VStr "hi") s))
                VNone (VStr "run_1") (script.start W (0%nat, 0%nat))
                payload script.pending [] assistant [user] (VStr "Hello")
                ltac:(vm_compute; repeat split; reflexivity)
                eq_refl eq_refl eq_refl eq_refl eq_refl eq_refl)
      as (s' & Hrun & _).
    rewrite Hrun. reflexivity.
Defined.

(** C2, as the code has it: take a [requires_action] payload that holds its
    pending tool calls under the legacy name [submit_tool_approval] and has
    no field [submit_tool_outputs], and a payload that holds the same calls
    under the primary name.  A file that reads both fields handles the two
    alike: it extracts the same list, builds the same approval records and
    issues the same submission, with the same outcome for the loop; when
    the calls are objects, those of type [mcp] with an [id] and at least
    one of them, that is the one submission of the records that are due.
    [app.py] reads the field that is there, whatever the [type] of the
    payload.  [agent.py] reads the field that the [type] names: it handles
    the two alike when the [type] of each payload is the name of its field,
    and on a legacy payload whose [type] is absent or anything but
    [submit_tool_approval] it approves nothing and leaves the loop. *)
Theorem legacy_field_is_approved_alike (W : World) tid rid h
    kv_legacy kv_primary legacy primary tool_calls (s : state W) :
  lookup "required_action" kv_legacy = Some legacy ->
  held_under "submit_tool_approval" legacy = Some tool_calls ->
  lacks "submit_tool_outputs" legacy = true ->
  lookup "required_action" kv_primary = Some primary ->
  held_under "submit_tool_outputs" primary = Some tool_calls ->
  (forall f,
      reads_field f "submit_tool_approval" legacy = true ->
      reads_field f "submit_tool_outputs" primary = true ->
      on_requires_action_of f tid rid h (VDict kv_legacy) s =
      on_requires_action_of f tid rid h (VDict kv_primary) s /\
      on_requires_action_of f tid rid h (VDict kv_legacy) s =
      approval_run (goes_on_by f) tid rid h tool_calls s /\
      (forallb approvable tool_calls = true ->
       existsb is_mcp tool_calls = true ->
       trace_of (on_requires_action_of f tid rid h (VDict kv_legacy) s) =
       [Request (submit_request tid rid h (approvals_for tool_calls))
          (answer s (submit_request tid rid h (approvals_for tool_calls)))])) /\
  (type_is "submit_tool_approval" legacy = false ->
   on_requires_action_of agent_py tid rid h (VDict kv_legacy) s =
   (Ok Break, s, [])).
Proof.
  intros Hl Hhl Hlacks Hp Hhp. split.
  - intros f Hrl Hrp.
    assert (Hlegacy :
              on_requires_action_of f tid rid h (VDict kv_legacy) s =
              approval_run (goes_on_by f) tid rid h tool_calls s).
    { destruct f; cbn [reads_field] in Hrl.
      - apply (on_requires_action_of_legacy agent_py) with (ra := legacy);
          auto using pending_calls_typed.
      - apply (app_on_requires_action_held "submit_tool_approval")
          with (ra := legacy); auto. }
    assert (Hprimary :
              on_requires_action_of f tid rid h (VDict kv_primary) s =
              approval_run (goes_on_by f) tid rid h tool_calls s).
    { destruct f; cbn [reads_field] in Hrp.
      - apply (on_requires_action_of_primary agent_py) with (ra := primary);
          auto using pending_calls_typed.
      - apply (app_on_requires_action_held "submit_tool_outputs")
          with (ra := primary); auto. }
    split; [congruence|]. split; [exact Hlegacy|].
    intros Hall Hex. rewrite Hlegacy.
    rewrite (approval_run_due _ _ _ _ _ _ Hall Hex). reflexivity.
  - intros Hty.
    apply (agent_on_requires_action_untyped _ _ _ _ legacy tool_calls); auto.
Qed.

Lemma legacy_field_is_approved_alike_witness :
  let W := script.approving "submit_tool_approval" in
  let s := script.start W (0%nat, 0%nat) in
  let t := VStr "thread_1" in
  let rid := VStr "run_1" in
  let run_data payload :=
    [("id", VStr "run_1"); ("status", VStr "requires_action");
     ("required_action", payload)] in
  let bare field :=
    VDict [(field, VDict [("tool_calls", VList script.pending)])] in
  let typed field :=
    VDict [("type", VStr field);
           (field, VDict [("tool_calls", VList script.pending)])] in
  let rq := submit_request t rid VNone (approvals_for script.pending) in
  (on_requires_action_of app_py t rid VNone
     (VDict (run_data (bare "submit_tool_approval"))) s =
   on_requires_action_of app_py t rid VNone
     (VDict (run_data (bare "submit_tool_outputs"))) s /\
   trace_of (on_requires_action_of app_py t rid VNone
               (VDict (run_data (bare "submit_tool_approval"))) s) =
   [Request rq (answer s rq)]) /\
  (on_requires_action_of agent_py t rid VNone
     (VDict (run_data (typed "submit_tool_approval"))) s =
   on_requires_action_of agent_py t rid VNone
     (VDict (run_data (typed "submit_tool_outputs"))) s /\
   trace_of (on_requires_action_of agent_py t rid VNone
               (VDict (run_data (typed "submit_tool_approval"))) s) =
   [Request rq (answer s rq)]) /\
  on_requires_action_of agent_py t rid VNone
    (VDict (run_data (bare "submit_tool_approval"))) s = (Ok Break, s, []).
Proof.
  intros W s t rid run_data bare typed rq.
  pose proof (legacy_field_is_approved_alike W t rid VNone
                (run_data (bare "submit_tool_approval"))
                (run_data (bare "submit_tool_outputs"))
                (bare "submit_tool_approval") (bare "submit_tool_outputs")
                script.pending s eq_refl eq_refl eq_refl eq_refl eq_refl)
    as [Hbare Huntyped].
  pose proof (legacy_field_is_approved_alike W t rid VNone
                (run_data (typed "submit_tool_approval"))
                (run_data (typed "submit_tool_outputs"))
                (typed "submit_tool_approval") (typed "submit_tool_outputs")
                script.pending s eq_refl eq_refl eq_refl eq_refl eq_refl)
    as [Htyped _].
  destruct (Hbare app_py eq_refl eq_refl) as (Q1 & _ & Q2).
  destruct (Htyped agent_py eq_refl eq_refl) as (Q3 & _ & Q4).
  split; [split; [exact Q1|exact (Q2 eq_refl eq_refl)]|].
  split; [split; [exact Q3|exact (Q4 eq_refl eq_refl)]|].
  exact (Huntyped eq_refl).
Defined.

(** [agent.py] reads the pending calls under the field that the [type] of
    the payload names: on a payload that holds its calls under the legacy
    name while its [type] is [submit_tool_outputs], it approves nothing and
    the call ends with the fallback, whereas the same payload with the
    calls under the primary name is approved and the call returns the
    text; [app.py] approves both. *)
Lemma legacy_field_is_not_approved_by_agent_py :
  let payload field :=
    VDict [("type", VStr "submit_tool_outputs");
           (field, VDict [("tool_calls", VList script.pending)])] in
  let requires field :=
    script.ok (VDict [("id", VStr "run_1"); ("status", VStr "requires_action");
                      ("required_action", payload field)]) in
  let W field :=
    script.world
      [script.run_status "queued"; requires field; script.run_status "completed"]
      (script.run_status "completed") (script.listing script.hello)
      (script.ok (VDict [])) in
  let run f field :=
    send_message_of f (VStr "thread_1") (VStr "hi")
      (script.start (W field) (0%nat, 0%nat)) in
  held_under "submit_tool_approval" (payload "submit_tool_approval") =
  Some script.pending /\
  lacks "submit_tool_outputs" (payload "submit_tool_approval") = true /\
  held_under "submit_tool_outputs" (payload "submit_tool_outputs") =
  Some script.pending /\
  (submissions (trace_of (run agent_py "submit_tool_approval")) = [] /\
   result_of (run agent_py "submit_tool_approval") = Ok (VStr fallback)) /\
  (submissions (trace_of (run agent_py "submit_tool_outputs")) =
   [Some (VDict [("tool_approvals", VList (approvals_for script.pending))])] /\
   result_of (run agent_py "submit_tool_outputs") = Ok (VStr "Hello")) /\
  (submissions (trace_of (run app_py "submit_tool_approval")) =
   [Some (VDict [("tool_approvals", VList (approvals_for script.pending))])] /\
   result_of (run app_py "submit_tool_approval") = Ok (VStr "Hello")).
Proof.
  intros payload requires W run.
  repeat split; vm_compute; reflexivity.
Qed.

(** C4, as the code has it: when the run behind a /chat request ends in
    [failed], [cancelled] or [expired], or in the timeout of the poll
    budget (thirty polls were made and the last pass of the loop went on to
    the next attempt: it paused after a poll that left the run unfinished,
    whatever status or error code it read, or it had its approval
    accepted), the handler answers with status 200 and a success body whose
    [response] is the fixed fallback string and whose [thread_id] is the
    cached thread; nothing of the upstream reply is in the body. *)
Theorem failed_run_is_answered_with_the_fallback (W : World) (f : file) g
    (s : state W) resp s' E :
  chat_of f g s = (resp, s', E) ->
  existsb terminal_failed (polls E) = true \/ budget_spent E = true ->
  resp = Ok (success_body (VStr fallback) (current_thread_id s'), 200).
Proof.
  intros H Hcase.
  assert (Hne : polls E <> []).
  { destruct Hcase as [Hf|Hb].
    - destruct (polls E); discriminate.
    - unfold budget_spent in Hb. apply andb_true_iff in Hb.
      destruct Hb as [Hb _]. apply Nat.eqb_eq in Hb.
      destruct (polls E); discriminate. }
  destruct (chat_of_polled f g s resp s' E H Hne)
    as (E0 & E1 & s0 & message & sent & -> & HP & _ & Hsend & Hs' & ->).
  rewrite HP in Hcase, Hne. rewrite Hs'.
  assert (Hsent : sent = Ok (VStr fallback)).
  { destruct Hcase as [Hf|Hb].
    - apply send_message_of_inv in Hsend.
      apply existsb_Exists with (1 := terminal_failed_failed) in Hf.
      exact (send_message_failed _ _ _ (on_requires_action_of_within f)
               (create_agent_of_within f) (get_headers_of_within f)
               _ _ _ _ _ _ Hsend Hf).
    - unfold budget_spent in Hb. apply andb_true_iff in Hb.
      destruct Hb as [_ Hb].
      rewrite last_app_r in Hb by (apply polled_not_nil; exact Hne).
      exact (send_message_spent f _ _ _ _ _ _ _ Hsend Hne Hb). }
  rewrite Hsent. reflexivity.
Qed.

Lemma failed_run_is_answered_with_the_fallback_witness :
  let asking :=
    script.answering is_poll (script.run_requires "submit_tool_outputs")
      (script.always "completed") in
  let x :=
    chat_of app_py (script.say "hi")
      (script.start (script.always "cancelled") (0%nat, 0%nat)) in
  let y :=
    chat_of agent_py (script.say "hi")
      (script.start (script.always "cancelling") (0%nat, 0%nat)) in
  let z := chat_of app_py (script.say "hi") (script.start asking (0%nat, 0%nat)) in
  let u := chat_of agent_py (script.say "hi") (script.start asking (0%nat, 0%nat)) in
  (existsb terminal_failed (polls (trace_of x)) = true /\
   result_of x =
   Ok (success_body (VStr fallback) (current_thread_id (state_of x)), 200)) /\
  (budget_spent (trace_of y) = true /\
   forallb (has_status "cancelling") (polls (trace_of y)) = true /\
   result_of y =
   Ok (success_body (VStr fallback) (current_thread_id (state_of y)), 200)) /\
  (budget_spent (trace_of z) = true /\
   forallb (has_status "requires_action") (polls (trace_of z)) = true /\
   length (filter answered_200 (approvals (trace_of z))) = 30%nat /\
   result_of z =
   Ok (success_body (VStr fallback) (current_thread_id (state_of z)), 200)) /\
  (budget_spent (trace_of u) = true /\
   forallb (has_status "requires_action") (polls (trace_of u)) = true /\
   length (filter answered_200 (approvals (trace_of u))) = 30%nat /\
   result_of u =
   Ok (success_body (VStr fallback) (current_thread_id (state_of u)), 200)).
Proof.
  intros asking x y z u.
  assert (Hx : existsb terminal_failed (polls (trace_of x)) = true)
    by (vm_compute; reflexivity).
  assert (Hy : budget_spent (trace_of y) = true) by (vm_compute; reflexivity).
  assert (Hz : budget_spent (trace_of z) = true) by (vm_compute; reflexivity).
  assert (Hu : budget_spent (trace_of u) = true) by (vm_compute; reflexivity).
  split; [split; [exact Hx|]|split; [split; [exact Hy|split; [vm_compute; reflexivity|]]|split; (split; [assumption|split; [vm_compute; reflexivity|split; [vm_compute; reflexivity|]]])]].
  - exact (failed_run_is_answered_with_the_fallback (script.always "cancelled")
             app_py (script.say "hi") _ (result_of x) (state_of x) (trace_of x)
             (run_eta x) (or_introl Hx)).
  - exact (failed_run_is_answered_with_the_fallback (script.always "cancelling")
             agent_py (script.say "hi") _ (result_of y) (state_of y) (trace_of y)
             (run_eta y) (or_intror Hy)).
  - exact (failed_run_is_answered_with_the_fallback asking
             app_py (script.say "hi") _ (result_of z) (state_of z) (trace_of z)
             (run_eta z) (or_intror Hz)).
  - exact (failed_run_is_answered_with_the_fallback asking
             agent_py (script.say "hi") _ (result_of u) (state_of u) (trace_of u)
             (run_eta u) (or_intror Hu)).
Defined.

(** On a run that reads [failed], and on a run that uses up its thirty
    polls on [in_progress], the handler answers with status 200 and a
    success body, not with an error body. *)
Lemma failed_run_is_not_answered_with_an_error :
  let x :=
    chat_of agent_py (script.say "hi")
      (script.start (script.always "failed") (0%nat, 0%nat)) in
  let y :=
    chat_of agent_py (script.say "hi")
      (script.start (script.always "in_progress") (0%nat, 0%nat)) in
  (existsb (has_status "failed") (polls (trace_of x)) = true /\
   result_of x = Ok (success_body (VStr fallback) (VStr "thread_1"), 200) /\
   ~ (exists text code, result_of x = Ok (error_body text, code))) /\
  (length (polls (trace_of y)) = 30%nat /\
   forallb (has_status "in_progress") (polls (trace_of y)) = true /\
   result_of y = Ok (success_body (VStr fallback) (VStr "thread_1"), 200) /\
   ~ (exists text code, result_of y = Ok (error_body text, code))).
Proof.
  intros x y.
  assert (Hx : result_of x
               = Ok (success_body (VStr fallback) (VStr "thread_1"), 200))
    by (vm_compute; reflexivity).
  assert (Hy : result_of y
               = Ok (success_body (VStr fallback) (VStr "thread_1"), 200))
    by (vm_compute; reflexivity).
  repeat split; try (vm_compute; reflexivity).
  - intros (text & code & Q). rewrite Hx in Q. discriminate Q.
  - intros (text & code & Q). rewrite Hy in Q. discriminate Q.
Qed.

(** * Further properties of the two programs *)

(** X1: whatever the service answers, one call of the /chat handler asks for
    the status of the run at most 30 times, sleeps at most once per poll and
    one second each time, lists the messages at most once, submits at most
    one list of approvals per poll, creates at most one thread, one agent,
    one message and one run, and asks for at most three tokens.  This holds
    in [agent.py] and in [app.py]. *)
Theorem chat_is_bounded (W : World) (f : file) (g : result value)
    (s : state W) resp s' E :
  chat_of f g s = (resp, s', E) ->
  (length (polls E) <= 30)%nat /\
  (length (sleeps E) <= length (polls E))%nat /\
  Forall (fun secs => secs = 1) (sleeps E) /\
  (length (listings E) <= 1)%nat /\
  (length (submissions E) <= length (polls E))%nat /\
  (length (calls is_thread_creation E) <= 1)%nat /\
  (length (calls is_agent_creation E) <= 1)%nat /\
  (length (calls is_message_post E) <= 1)%nat /\
  (length (calls is_run_creation E) <= 1)%nat /\
  (length (tokens E) <= 3)%nat.
Proof.
  intros H. chat_stages H.
  all: loop_facts; trace_eval; rewrite_quiet; rewrite ?length_map in *.
  all: split_goal; try (cbn [length]; lia); forall_auto.
Qed.

Lemma chat_is_bounded_witness :
  let W := script.approving "submit_tool_outputs" in
  let s := script.start W (0%nat, 0%nat) in
  let x := chat_of agent_py (script.say "hello") s in
  (length (polls (trace_of x)) = 3%nat /\
   length (tokens (trace_of x)) = 3%nat) /\
  (length (polls (trace_of x)) <= 30)%nat /\
  (length (sleeps (trace_of x)) <= length (polls (trace_of x)))%nat /\
  Forall (fun secs => secs = 1) (sleeps (trace_of x)) /\
  (length (listings (trace_of x)) <= 1)%nat /\
  (length (submissions (trace_of x)) <= length (polls (trace_of x)))%nat /\
  (length (calls is_thread_creation (trace_of x)) <= 1)%nat /\
  (length (calls is_agent_creation (trace_of x)) <= 1)%nat /\
  (length (calls is_message_post (trace_of x)) <= 1)%nat /\
  (length (calls is_run_creation (trace_of x)) <= 1)%nat /\
  (length (tokens (trace_of x)) <= 3)%nat.
Proof.
  intros W s x. split; [split; vm_compute; reflexivity|].
  exact (chat_is_bounded W agent_py (script.say "hello") s (result_of x)
           (state_of x) (trace_of x) (run_eta x)).
Defined.

(** X2: the loop pauses one second after every poll that leaves the run
    unfinished; after an approval that the service accepted [agent.py]
    pauses as well, while [app.py] polls again at once.  So the pauses of
    one call of the handler number the idle polls, plus in [agent.py] the
    accepted approvals. *)
Theorem pauses_follow_idle_polls (W : World) (f : file) (g : result value)
    (s : state W) resp s' E :
  chat_of f g s = (resp, s', E) ->
  length (sleeps E) =
  (length (filter is_idle (polls E)) + approval_pauses f E)%nat.
Proof.
  intros H. unfold approval_pauses. chat_cases H.
  all: try (destruct f; reflexivity).
  all: unfold approval_pauses, approvals, polls in *; assumption.
Qed.

Lemma pauses_follow_idle_polls_witness :
  let W := script.approving "submit_tool_outputs" in
  let s := script.start W (0%nat, 0%nat) in
  let x := chat_of agent_py (script.say "hello") s in
  let y := chat_of app_py (script.say "hello") s in
  (length (sleeps (trace_of x)) =
   (length (filter is_idle (polls (trace_of x)))
    + approval_pauses agent_py (trace_of x))%nat /\
   length (sleeps (trace_of x)) = 2%nat) /\
  (length (sleeps (trace_of y)) =
   (length (filter is_idle (polls (trace_of y)))
    + approval_pauses app_py (trace_of y))%nat /\
   length (sleeps (trace_of y)) = 1%nat).
Proof.
  intros W s x y. split; split.
  - exact (pauses_follow_idle_polls W agent_py (script.say "hello") s
             (result_of x) (state_of x) (trace_of x) (run_eta x)).
  - vm_compute. reflexivity.
  - exact (pauses_follow_idle_polls W app_py (script.say "hello") s
             (result_of y) (state_of y) (trace_of y) (run_eta y)).
  - vm_compute. reflexivity.
Defined.

(** X3: a poll that cannot be read ends the call: when the request of a
    poll raises (a timeout, a refused connection), or a poll answered with
    200 carries a body that is no JSON or has no [status], the handler
    answers 500 with the text of that exception, and the poll is the last
    event of the call.  Unlike a poll answered with an error status, such a
    poll is not retried. *)
Theorem unreadable_poll_ends_the_chat (W : World) (f : file)
    (g : result value) (s : state W) resp s' E rp e :
  chat_of f g s = (resp, s', E) ->
  In rp (polls E) ->
  poll_exception rp = Some e ->
  resp = Ok (error_body (exn_str e), 500) /\
  exists rq, ends_with E [Request rq rp].
Proof.
  intros H Hin He. apply poll_exception_broken in He. chat_cases H.
  all: cbn [In] in Hin; try contradiction.
  all: match goal with
       | Q : passes _ _ _ _ _ _ _ |- _ =>
           destruct (passes_poll_broken _ _ _ _ _ _ _ _ _ Q Hin He)
             as (-> & E0 & ->)
       end.
  all: split; [reflexivity|eexists; cbn [app]; ends_with_auto].
Qed.

Lemma unreadable_poll_ends_the_chat_witness :
  let W := script.answering is_poll script.timed_out (script.always "completed") in
  let s := script.start W (0%nat, 0%nat) in
  let x := chat_of agent_py (script.say "hello") s in
  In script.timed_out (polls (trace_of x)) /\
  result_of x = Ok (error_body "read timed out", 500) /\
  exists rq, ends_with (trace_of x) [Request rq script.timed_out].
Proof.
  intros W s x.
  assert (Hin : In script.timed_out (polls (trace_of x)))
    by (vm_compute; auto).
  split; [exact Hin|].
  exact (unreadable_poll_ends_the_chat W agent_py (script.say "hello") s
           (result_of x) (state_of x) (trace_of x) script.timed_out
           (Exn "ReadTimeout" "read timed out") (run_eta x) Hin eq_refl).
Defined.

(** X4: a status the loop does not know (anything but [completed],
    [requires_action], [failed], [cancelled], [expired]; so [cancelling] or
    [incomplete] as well as [in_progress]) is treated as unfinished: when
    every poll of a call reads such a status the loop polls 30 times,
    pausing a second after each, and the handler answers with the fallback
    text. *)
Theorem unknown_status_is_polled_to_the_end (W : World) (f : file)
    (g : result value) (s : state W) resp s' E :
  chat_of f g s = (resp, s', E) ->
  polls E <> [] ->
  forallb other_status (polls E) = true ->
  length (polls E) = 30%nat /\
  sleeps E = repeat 1 30 /\
  resp = Ok (success_body (VStr fallback) (current_thread_id s'), 200).
Proof.
  intros H Hne Hall.
  apply (forallb_impl _ _ _ other_status_idle) in Hall.
  chat_cases H.
  all: try congruence.
  all: match goal with
       | Q : passes _ _ _ _ _ _ _ |- _ =>
           destruct (passes_all_idle _ _ _ _ _ _ _ Q Hall) as (-> & Hn & HE)
       end.
  all: unfold polls in Hn; rewrite Hn; split; [reflexivity|].
  all: split; [rewrite HE, sleeps_idle_cycles; unfold polls; now rewrite Hn|].
  all: cbn [finish reply_for]; rewrite Hkept; reflexivity.
Qed.

Lemma unknown_status_is_polled_to_the_end_witness :
  let W := script.always "incomplete" in
  let s := script.start W (0%nat, 0%nat) in
  let x := chat_of app_py (script.say "hello") s in
  polls (trace_of x) <> [] /\
  forallb other_status (polls (trace_of x)) = true /\
  length (polls (trace_of x)) = 30%nat /\
  sleeps (trace_of x) = repeat 1 30 /\
  result_of x =
  Ok (success_body (VStr fallback) (current_thread_id (state_of x)), 200).
Proof.
  intros W s x.
  assert (Hne : polls (trace_of x) <> []) by (vm_compute; discriminate).
  assert (Hall : forallb other_status (polls (trace_of x)) = true)
    by (vm_compute; reflexivity).
  split; [exact Hne|]. split; [exact Hall|].
  exact (unknown_status_is_polled_to_the_end W app_py (script.say "hello") s
           (result_of x) (state_of x) (trace_of x) (run_eta x) Hne Hall).
Defined.

(** X5: a poll that reads [requires_action] in a body without the key
    [required_action] ends the call, and the two files differ on how:
    [agent.py] reads the absent payload as empty, leaves the loop and the
    handler answers with the fallback text; [app.py] indexes the body, the
    [KeyError] leaves [send_message] and the handler answers 500 with the
    text ['required_action'].  In both the poll is the last event. *)
Theorem missing_required_action_ends_the_chat (W : World) (f : file)
    (g : result value) (s : state W) resp s' E rp :
  chat_of f g s = (resp, s', E) ->
  In rp (polls E) ->
  has_status "requires_action" rp = true ->
  required_action_of rp = None ->
  resp = Ok (match f with
             | agent_py =>
                 (success_body (VStr fallback) (current_thread_id s'), 200)
             | app_py => (error_body "'required_action'", 500)
             end) /\
  exists rq, ends_with E [Request rq rp].
Proof.
  intros H Hin Hst Hra.
  destruct (has_status_classify_requires_action _ Hst) as (kv & Hc & Hl).
  rewrite Hra in Hl. symmetry in Hl.
  chat_cases H.
  all: cbn [In] in Hin; try contradiction.
  all: match goal with
       | Q : passes _ _ _ _ _ _ _ |- _ =>
           destruct (passes_poll_requires_action _ _ _ _ _ _ _ _ _ Q Hin Hc)
             as (c & s1 & s2 & E1 & Hrun & Hleave)
       end.
  all: rewrite (on_requires_action_of_missing _ _ _ _ _ _ Hl) in Hrun.
  all: injection Hrun; intros; subst.
  all: destruct Hleave as (-> & E0 & ->); [destruct f; reflexivity|].
  all: split; [destruct f; cbn [leave finish reply_for]; rewrite ?Hkept;
               reflexivity|].
  all: eexists; cbn [app]; ends_with_auto.
Qed.

Lemma missing_required_action_ends_the_chat_witness :
  let W := script.always "requires_action" in
  let s := script.start W (0%nat, 0%nat) in
  let x := chat_of agent_py (script.say "hello") s in
  let y := chat_of app_py (script.say "hello") s in
  In (script.run_status "requires_action") (polls (trace_of x)) /\
  In (script.run_status "requires_action") (polls (trace_of y)) /\
  result_of x =
  Ok (success_body (VStr fallback) (current_thread_id (state_of x)), 200) /\
  result_of y = Ok (error_body "'required_action'", 500).
Proof.
  intros W s x y.
  assert (Hx : In (script.run_status "requires_action") (polls (trace_of x)))
    by (vm_compute; auto).
  assert (Hy : In (script.run_status "requires_action") (polls (trace_of y)))
    by (vm_compute; auto).
  split; [exact Hx|]. split; [exact Hy|]. split.
  - exact (proj1 (missing_required_action_ends_the_chat W agent_py
                    (script.say "hello") s (result_of x) (state_of x)
                    (trace_of x) (script.run_status "requires_action")
                    (run_eta x) Hx eq_refl eq_refl)).
  - exact (proj1 (missing_required_action_ends_the_chat W app_py
                    (script.say "hello") s (result_of y) (state_of y)
                    (trace_of y) (script.run_status "requires_action")
                    (run_eta y) Hy eq_refl eq_refl)).
Defined.

(** X6: pending tool calls none of which is of type [mcp] are not approved:
    when a poll reads [requires_action] and the payload names its calls
    (under [submit_tool_outputs], or under the legacy
    [submit_tool_approval]), all of them objects and none of type [mcp]
    (the list may be empty), the loop is left without a submission after
    that poll, which is the last event, and the handler answers with the
    fallback text. *)
Theorem nothing_to_approve_ends_the_chat (W : World) (f : file)
    (g : result value) (s : state W) resp s' E rp ra field tool_calls :
  chat_of f g s = (resp, s', E) ->
  In rp (polls E) ->
  has_status "requires_action" rp = true ->
  required_action_of rp = Some ra ->
  field = "submit_tool_outputs" \/
  (field = "submit_tool_approval" /\ lacks "submit_tool_outputs" ra = true) ->
  pending_calls field ra = Some tool_calls ->
  forallb is_dict tool_calls = true ->
  existsb is_mcp tool_calls = false ->
  resp = Ok (success_body (VStr fallback) (current_thread_id s'), 200) /\
  exists rq, ends_with E [Request rq rp].
Proof.
  intros H Hin Hst Hra Hfield Hp Hd Hm.
  destruct (has_status_classify_requires_action _ Hst) as (kv & Hc & Hl).
  rewrite Hra in Hl. symmetry in Hl.
  assert (Hora : forall t rid h (s0 : state W),
             on_requires_action_of f t rid h (VDict kv) s0 = (Ok Break, s0, []))
    by (intros; now apply (on_requires_action_of_nothing f field) with
          (ra := ra) (tool_calls := tool_calls)).
  clear Hfield Hp Hd Hm.
  chat_cases H.
  all: cbn [In] in Hin; try contradiction.
  all: match goal with
       | Q : passes _ _ _ _ _ _ _ |- _ =>
           destruct (passes_poll_requires_action _ _ _ _ _ _ _ _ _ Q Hin Hc)
             as (c & s1 & s2 & E1 & Hrun & Hleave)
       end.
  all: rewrite Hora in Hrun.
  all: injection Hrun; intros; subst.
  all: destruct (Hleave eq_refl) as (-> & E0 & ->).
  all: split; [cbn [leave finish reply_for]; rewrite ?Hkept; reflexivity|].
  all: eexists; cbn [app]; ends_with_auto.
Qed.

Lemma nothing_to_approve_ends_the_chat_witness :
  let calls := [script.tool_call "call_1" "function"] in
  let rp := script.run_requiring "submit_tool_approval" calls in
  let W := script.world [] rp (script.listing script.hello)
             (script.ok (VDict [])) in
  let s := script.start W (0%nat, 0%nat) in
  let x := chat_of agent_py (script.say "hello") s in
  In rp (polls (trace_of x)) /\
  submissions (trace_of x) = [] /\
  result_of x =
  Ok (success_body (VStr fallback) (current_thread_id (state_of x)), 200) /\
  exists rq, ends_with (trace_of x) [Request rq rp].
Proof.
  intros calls rp W s x.
  assert (Hin : In rp (polls (trace_of x))) by (vm_compute; auto).
  split; [exact Hin|]. split; [vm_compute; reflexivity|].
  exact (nothing_to_approve_ends_the_chat W agent_py (script.say "hello") s
           (result_of x) (state_of x) (trace_of x) rp
           (VDict [("type", VStr "submit_tool_approval");
                   ("submit_tool_approval",
                    VDict [("tool_calls", VList calls)])])
           "submit_tool_approval" calls
           (run_eta x) Hin eq_refl eq_refl
           (or_intror (conj eq_refl eq_refl)) eq_refl eq_refl eq_refl).
Defined.

(** X7: an approval that the service does not accept ends the call: when a
    submission of approvals is answered with a status other than 200 the
    loop is left and the handler answers with the fallback text; when the
    submission raises, the handler answers 500 with the text of the
    exception.  In both cases the submission is the last event: the run is
    not polled again. *)
Theorem rejected_approval_ends_the_chat (W : World) (f : file)
    (g : result value) (s : state W) resp s' E srp :
  chat_of f g s = (resp, s', E) ->
  In srp (approvals E) ->
  answered_200 srp = false ->
  resp = Ok (match srp with
             | Returns _ =>
                 (success_body (VStr fallback) (current_thread_id s'), 200)
             | Fails e => (error_body (exn_str e), 500)
             end) /\
  exists rq, ends_with E [Request rq srp].
Proof.
  intros H Hin Hrej.
  chat_cases H.
  all: cbn [In] in Hin; try contradiction.
  all: match goal with
       | Q : passes _ _ _ _ _ _ _ |- _ =>
           destruct (passes_approval_rejected _ _ _ _ _ _ _ _ Q Hin Hrej)
             as (-> & E0 & records & ->)
       end.
  all: split; [|eexists; cbn [app]; ends_with_auto].
  all: destruct srp as [?|?]; cbn [submitted answered_200] in *;
    rewrite ?Hrej; cbn [leave finish reply_for]; rewrite ?Hkept; reflexivity.
Qed.

Lemma rejected_approval_ends_the_chat_witness :
  let W := script.answering is_submission script.refusal
             (script.approving "submit_tool_outputs") in
  let s := script.start W (0%nat, 0%nat) in
  let x := chat_of app_py (script.say "hello") s in
  In script.refusal (approvals (trace_of x)) /\
  length (polls (trace_of x)) = 2%nat /\
  result_of x =
  Ok (success_body (VStr fallback) (current_thread_id (state_of x)), 200) /\
  exists rq, ends_with (trace_of x) [Request rq script.refusal].
Proof.
  intros W s x.
  assert (Hin : In script.refusal (approvals (trace_of x)))
    by (vm_compute; auto).
  split; [exact Hin|]. split; [vm_compute; reflexivity|].
  exact (rejected_approval_ends_the_chat W app_py (script.say "hello") s
           (result_of x) (state_of x) (trace_of x) script.refusal
           (run_eta x) Hin eq_refl).
Defined.

(** X8: the loop that builds the approvals, the same text at its three
    places in the two files, gets past a tool call when it is an object
    that, if its type is [mcp], has an [id].  When every call is such, the
    approvals are one record per call of type [mcp], in order, each with
    the id of its call; otherwise the first call that is not raises, an
    [AttributeError] when it is no object and [KeyError('id')] when it is
    an [mcp] call without an id, whatever follows it, so that nothing is
    submitted. *)
Theorem approvals_are_collected_or_raise (tool_calls : list value) :
  match collect_tool_approvals tool_calls with
  | Ok records =>
      forallb approvable tool_calls = true /\
      covers_mcp_calls tool_calls records
  | Raise e =>
      exists before tc rest,
        tool_calls = (before ++ tc :: rest)%list /\
        forallb approvable before = true /\
        approvable tc = false /\
        e = if is_dict tc then KeyError "id" else AttributeError tc "get"
  end.
Proof.
  destruct (collect_tool_approvals tool_calls) as [records|e] eqn:H.
  - split; [|now apply collect_covers].
    revert records H. induction tool_calls as [|tc rest IH]; [reflexivity|].
    intros records H. cbn [forallb].
    destruct (approvable tc) eqn:Ha.
    + rewrite (approvable_collect _ _ Ha) in H. cbn [andb].
      destruct (is_mcp tc); [|eauto].
      destruct (Py.getitem tc "id"); [|discriminate].
      destruct (collect_tool_approvals rest); [eauto|discriminate].
    + rewrite (not_approvable_collect _ _ Ha) in H. discriminate.
  - revert e H. induction tool_calls as [|tc rest IH]; [discriminate|].
    intros e H. destruct (approvable tc) eqn:Ha.
    + rewrite (approvable_collect _ _ Ha) in H.
      assert (Hrest : collect_tool_approvals rest = Raise e).
      { destruct (is_mcp tc) eqn:Hmcp; [|exact H].
        unfold approvable, has_key in Ha. rewrite Hmcp in Ha.
        destruct tc as [| | | | |kv]; try discriminate.
        cbn [is_dict andb negb orb] in Ha. unfold Py.getitem in H.
        destruct (lookup "id" kv); [|discriminate].
        destruct (collect_tool_approvals rest); [discriminate|exact H]. }
      destruct (IH e Hrest) as (before & tc' & rest' & -> & Hb & Hn & He).
      exists (tc :: before), tc', rest'. cbn [forallb app]. rewrite Ha, Hb. auto.
    + rewrite (not_approvable_collect _ _ Ha) in H. injection H as <-.
      exists [], tc, rest. auto.
Qed.

(** X9: a listing of the messages that the service does not answer with
    200 ends the call: on another status the loop is left and the handler
    answers with the fallback text; when the request raises, the handler
    answers 500 with the text of the exception.  The listing is the last
    event of the call in both cases. *)
Theorem unanswered_listing_ends_the_chat (W : World) (f : file)
    (g : result value) (s : state W) resp s' E lrp :
  chat_of f g s = (resp, s', E) ->
  In lrp (listings E) ->
  answered_200 lrp = false ->
  resp = Ok (match lrp with
             | Returns _ =>
                 (success_body (VStr fallback) (current_thread_id s'), 200)
             | Fails e => (error_body (exn_str e), 500)
             end) /\
  exists rq, ends_with E [Request rq lrp].
Proof.
  intros H Hin Hrej.
  chat_cases H.
  all: cbn [In] in Hin; try contradiction.
  all: match goal with
       | Q : passes _ _ _ _ _ _ _ |- _ =>
           destruct (passes_listing _ _ _ _ _ _ _ _ Q Hin) as (-> & He)
       end.
  all: split; [|eexists; cbn [app]; ends_with_auto; exact He].
  all: rewrite (completed_outcome_unanswered _ Hrej).
  all: destruct lrp as [?|?]; cbn [leave finish reply_for]; rewrite ?Hkept;
    reflexivity.
Qed.

Lemma unanswered_listing_ends_the_chat_witness :
  let W := script.world [] (script.run_status "completed") script.unavailable
             (script.ok (VDict [])) in
  let s := script.start W (0%nat, 0%nat) in
  let x := chat_of app_py (script.say "hello") s in
  In script.unavailable (listings (trace_of x)) /\
  result_of x =
  Ok (success_body (VStr fallback) (current_thread_id (state_of x)), 200) /\
  exists rq, ends_with (trace_of x) [Request rq script.unavailable].
Proof.
  intros W s x.
  assert (Hin : In script.unavailable (listings (trace_of x)))
    by (vm_compute; auto).
  split; [exact Hin|].
  exact (unanswered_listing_ends_the_chat W app_py (script.say "hello") s
           (result_of x) (state_of x) (trace_of x) script.unavailable
           (run_eta x) Hin eq_refl).
Defined.

(** X10: an assistant message whose text is empty is answered as a
    failure: when the listing holds, before any other assistant message, an
    assistant message whose first content element has a falsy [text.value]
    (the empty string, [null]), [send_message] returns that value and the
    handler answers 500 with [Failed to get response from agent]; later
    assistant messages are not looked at. *)
Theorem empty_answer_is_a_500 (W : World) (f : file) (g : result value)
    (s : state W) resp s' E lrp earlier msg later content :
  chat_of f g s = (resp, s', E) ->
  In lrp (listings E) ->
  listed_messages lrp = Some (earlier ++ msg :: later)%list ->
  forallb not_assistant earlier = true ->
  role_is "assistant" msg = true ->
  message_text msg = Some content ->
  Py.truthy content = false ->
  resp = Ok (error_body "Failed to get response from agent", 500).
Proof.
  intros H Hin Hl He Hr Ht Hf.
  pose proof (completed_outcome_listed _ _ Hl) as Ho.
  rewrite (first_assistant_text_skip _ _ He) in Ho.
  rewrite (first_assistant_text_found _ _ _ Hr Ht) in Ho.
  clear Hl He Hr Ht.
  chat_cases H.
  all: cbn [In] in Hin; try contradiction.
  all: match goal with
       | Q : passes _ _ _ _ _ _ _ |- _ =>
           destruct (passes_listing _ _ _ _ _ _ _ _ Q Hin) as (-> & _)
       end.
  all: rewrite Ho; cbn [leave finish reply_for]; rewrite Hf; reflexivity.
Qed.

Lemma empty_answer_is_a_500_witness :
  let msgs := [script.message "user" [script.text "Hi"];
               script.message "assistant" [script.text ""];
               script.message "assistant" [script.text "Hello"]] in
  let W := script.completed_with msgs in
  let s := script.start W (0%nat, 0%nat) in
  let x := chat_of agent_py (script.say "hello") s in
  In (script.listing msgs) (listings (trace_of x)) /\
  result_of x = Ok (error_body "Failed to get response from agent", 500).
Proof.
  intros msgs W s x.
  assert (Hin : In (script.listing msgs) (listings (trace_of x)))
    by (vm_compute; auto).
  split; [exact Hin|].
  exact (empty_answer_is_a_500 W agent_py (script.say "hello") s
           (result_of x) (state_of x) (trace_of x) (script.listing msgs)
           [script.message "user" [script.text "Hi"]]
           (script.message "assistant" [script.text ""])
           [script.message "assistant" [script.text "Hello"]]
           (VStr "") (run_eta x) Hin eq_refl eq_refl eq_refl eq_refl eq_refl).
Defined.

(** X11: a message or a run that the service does not take ends the call
    before any poll: when the request that adds the message, or the one
    that starts the run, is answered with a status other than 200 and 201,
    [send_message] returns [None] and the handler answers 500 with
    [Failed to get response from agent]; when the request raises, the
    handler answers 500 with the text of the exception.  The request is the
    last event of the call, and no poll is made. *)
Theorem refused_message_or_run_ends_the_chat (W : World) (f : file)
    (g : result value) (s : state W) resp s' E rp :
  chat_of f g s = (resp, s', E) ->
  In rp (replies is_message_post E) \/ In rp (replies is_run_creation E) ->
  accepted rp = false ->
  resp = Ok (error_body
               match rp with
               | Returns _ => "Failed to get response from agent"
               | Fails e => exn_str e
               end, 500) /\
  polls E = [] /\
  exists rq, ends_with E [Request rq rp].
Proof.
  intros H Hin Hrej. unfold replies in Hin.
  chat_cases H.
  all: cbn [In map] in *; try contradiction.
  all: repeat match goal with
              | Q : _ \/ False |- _ => destruct Q as [Q|[]]
              | Q : False \/ _ |- _ => destruct Q as [[]|Q]
              | Q : _ \/ _ |- _ => destruct Q as [Q|Q]
              end; try contradiction; subst; try congruence.
  all: split_goal;
    [ destruct rp; reflexivity
    | reflexivity
    | eexists; cbn [app]; ends_with_auto ].
Qed.

Lemma refused_message_or_run_ends_the_chat_witness :
  let W := script.answering is_run_creation script.refusal
             (script.always "completed") in
  let s := script.start W (0%nat, 0%nat) in
  let x := chat_of agent_py (script.say "hello") s in
  In script.refusal (replies is_run_creation (trace_of x)) /\
  result_of x = Ok (error_body "Failed to get response from agent", 500) /\
  polls (trace_of x) = [] /\
  exists rq, ends_with (trace_of x) [Request rq script.refusal].
Proof.
  intros W s x.
  assert (Hin : In script.refusal (replies is_run_creation (trace_of x)))
    by (vm_compute; auto).
  split; [exact Hin|].
  exact (refused_message_or_run_ends_the_chat W agent_py (script.say "hello")
           s (result_of x) (state_of x) (trace_of x) script.refusal
           (run_eta x) (or_intror Hin) eq_refl).
Defined.

(** X12: a run that the service creates without telling its id is a 500:
    when the request that starts the run is answered with 200 or 201 and
    the body is no JSON or has no [id], the exception of
    [run_response.json()['id']] is not guarded in [send_message]; the
    handler answers 500 with its text (['id'] for a missing key), and no
    poll is made. *)
Theorem run_without_id_ends_the_chat (W : World) (f : file)
    (g : result value) (s : state W) resp s' E rp e :
  chat_of f g s = (resp, s', E) ->
  In rp (replies is_run_creation E) ->
  accepted rp = true ->
  id_of rp = Raise e ->
  resp = Ok (error_body (exn_str e), 500) /\
  polls E = [] /\
  exists rq, ends_with E [Request rq rp].
Proof.
  intros H Hin Hacc Hid. unfold replies in Hin.
  chat_cases H.
  all: cbn [In map] in *; try contradiction.
  all: repeat match goal with
              | Q : _ \/ False |- _ => destruct Q as [Q|[]]
              end; try contradiction; subst; try congruence.
  all: match goal with
       | Q : id_of _ = Raise ?e0 |- context [Raise ?e0] =>
           assert (e0 = e) by congruence; subst e0
       end.
  all: split_goal;
    [ reflexivity | reflexivity | eexists; cbn [app]; ends_with_auto ].
Qed.

Lemma run_without_id_ends_the_chat_witness :
  let W := script.answering is_run_creation (script.ok (VDict []))
             (script.always "completed") in
  let s := script.start W (0%nat, 0%nat) in
  let x := chat_of app_py (script.say "hello") s in
  In (script.ok (VDict [])) (replies is_run_creation (trace_of x)) /\
  result_of x = Ok (error_body "'id'", 500) /\
  polls (trace_of x) = [] /\
  exists rq, ends_with (trace_of x) [Request rq (script.ok (VDict []))].
Proof.
  intros W s x.
  assert (Hin : In (script.ok (VDict [])) (replies is_run_creation (trace_of x)))
    by (vm_compute; auto).
  split; [exact Hin|].
  exact (run_without_id_ends_the_chat W app_py (script.say "hello")
           s (result_of x) (state_of x) (trace_of x) (script.ok (VDict []))
           (KeyError "id") (run_eta x) Hin eq_refl eq_refl).
Defined.

(** X13: the thread is cached as soon as the service has answered its
    creation, whatever becomes of the rest of the call: after a call that
    asked for a thread the cached thread is what [create_thread] made of
    the answer, the [id] of a body answered with 200 or 201 and [None]
    otherwise (an error status, a request that raised, a body without
    [id]: [create_thread] guards them all).  When that value is falsy the
    handler answers 500 with [Failed to create conversation thread], the
    creation being the last event, and the next call asks again. *)
Theorem thread_is_cached_once_answered (W : World) (f : file)
    (g : result value) (s : state W) resp s' E rp :
  chat_of f g s = (resp, s', E) ->
  In rp (replies is_thread_creation E) ->
  current_thread_id s' = thread_made rp /\
  (Py.truthy (thread_made rp) = false ->
   resp = Ok (error_body "Failed to create conversation thread", 500) /\
   exists rq, ends_with E [Request rq rp]).
Proof.
  intros H Hin. unfold replies in Hin.
  chat_cases H.
  all: cbn [In map] in *; try contradiction.
  all: repeat match goal with
              | Q : _ \/ False |- _ => destruct Q as [Q|[]]
              end; try contradiction; subst.
  all: cbn [current_thread_id] in *.
  all: split; [congruence|intros Hfalsy]; try congruence.
  all: split; [reflexivity|eexists; cbn [app]; ends_with_auto].
Qed.

Lemma thread_is_cached_once_answered_witness :
  let W := script.answering is_thread_creation script.timed_out
             (script.always "completed") in
  let s := script.start W (0%nat, 0%nat) in
  let x := chat_of agent_py (script.say "hello") s in
  In script.timed_out (replies is_thread_creation (trace_of x)) /\
  current_thread_id (state_of x) = VNone /\
  result_of x = Ok (error_body "Failed to create conversation thread", 500).
Proof.
  intros W s x.
  assert (Hin : In script.timed_out (replies is_thread_creation (trace_of x)))
    by (vm_compute; auto).
  split; [exact Hin|].
  destruct (thread_is_cached_once_answered W agent_py (script.say "hello")
              s (result_of x) (state_of x) (trace_of x) script.timed_out
              (run_eta x) Hin) as [Hc Hf].
  split; [exact Hc|]. exact (proj1 (Hf eq_refl)).
Defined.

(** X14: every run is started for the agent that is cached when the call
    ends: the request that starts the run carries that agent as its
    [assistant_id].  When an agent is cached before the call, the call
    keeps it and makes no request to create one. *)
Theorem run_is_started_for_the_cached_agent (W : World) (f : file)
    (g : result value) (s : state W) resp s' E :
  chat_of f g s = (resp, s', E) ->
  Forall (fun c => req_json (fst c)
                   = Some (VDict [("assistant_id", AGENT_ID s')]))
    (calls is_run_creation E) /\
  (Py.truthy (AGENT_ID s) = true ->
   AGENT_ID s' = AGENT_ID s /\ calls is_agent_creation E = []).
Proof.
  intros H. chat_cases H.
  all: clean_results.
  all: try match goal with
           | Q : raised (Ok _) = true |- _ => discriminate Q
           end.
  all: cbn [AGENT_ID after] in *.
  all: split; [|intros Hagent;
                repeat match goal with
                       | Q : AGENT_ID _ = _ |- _ => rewrite Q
                       end; split; congruence].
  all: repeat first
         [ apply Forall_nil
         | apply Forall_cons; [cbn [fst req_json run_request]; congruence|] ].
Qed.

Lemma run_is_started_for_the_cached_agent_witness :
  let W := script.always "completed" in
  let s := Build_state (VStr "asst_7") VNone ((0%nat, 0%nat) : server W) in
  let x := chat_of agent_py (script.say "hello") s in
  Py.truthy (AGENT_ID s) = true /\
  map (fun c => req_json (fst c)) (calls is_run_creation (trace_of x)) =
  [Some (VDict [("assistant_id", VStr "asst_7")])] /\
  Forall (fun c => req_json (fst c)
                   = Some (VDict [("assistant_id", AGENT_ID (state_of x))]))
    (calls is_run_creation (trace_of x)) /\
  AGENT_ID (state_of x) = AGENT_ID s /\
  calls is_agent_creation (trace_of x) = [].
Proof.
  intros W s x.
  split; [reflexivity|]. split; [vm_compute; reflexivity|].
  destruct (run_is_started_for_the_cached_agent W agent_py
              (script.say "hello") s (result_of x) (state_of x) (trace_of x)
              (run_eta x)) as [Hrun Hkeep].
  split; [exact Hrun|]. exact (Hkeep eq_refl).
Defined.

(** X15: in [agent.py] a token that cannot be had, with no API key to fall
    back on, ends the call at once: [get_headers] raises, so that the
    failed token request is the last event of the call and no request
    follows it.  The handler answers 500: with
    [Failed to create conversation thread] when the token was asked for the
    headers of the thread creation, which guards the exception (no thread
    was cached and it is the only token of the call), and with the text of
    the [RuntimeError] in every other case. *)
Theorem no_credentials_end_the_chat (W : World) (g : result value)
    (s : state W) resp s' E e :
  no_api_key W = true ->
  chat_of agent_py g s = (resp, s', E) ->
  In (Raise e) (tokens E) ->
  ends_with E [GetToken (Raise e)] /\
  resp =
  Ok (error_body
        (if thread_token W s E then "Failed to create conversation thread"
         else no_auth), 500).
Proof.
  intros Hkey H Hin. unfold thread_token. chat_cases H.
  all: cbn [In] in Hin; try contradiction.
  all: repeat match goal with
              | Q : headers_for _ agent_py _ = Ok _ |- _ =>
                  apply (headers_for_agent_raised _ _ _ Hkey) in Q
              | Q : headers_for _ agent_py _ = Raise _ |- _ =>
                  apply headers_for_agent_none in Q
              end.
  all: repeat match goal with
              | Q : _ \/ False |- _ => destruct Q as [Q|[]]
              | Q : _ \/ _ |- _ => destruct Q as [Q|Q]
              end; try contradiction; subst; try discriminate.
  all: try match goal with
           | Q : ?t = Raise _, Q' : raised ?t = false |- _ =>
               rewrite Q in Q'; discriminate Q'
           end.
  all: try match goal with
           | Q : ?t = Raise _ |- context [GetToken ?t] => rewrite Q
           end.
  all: split; [cbn [app]; ends_with_auto|].
  all: cbn [reply_for Nat.eqb]; rewrite ?andb_false_r, ?andb_true_r.
  all: try match goal with
           | Q : Py.truthy (current_thread_id _) = _ |- _ => rewrite Q
           end.
  all: reflexivity.
Qed.

Lemma no_credentials_end_the_chat_witness :
  let W := script.without_token None (script.always "completed") in
  let s := script.start W (0%nat, 0%nat) in
  let t := Build_state VNone (VStr "thread_9") ((0%nat, 0%nat) : server W) in
  let e := Exn "CredentialUnavailableError" "no credential" in
  let x := chat_of agent_py (script.say "hello") s in
  let y := chat_of agent_py (script.say "hello") t in
  (thread_token W s (trace_of x) = true /\
   ends_with (trace_of x) [GetToken (Raise e)] /\
   result_of x = Ok (error_body "Failed to create conversation thread", 500)) /\
  (thread_token W t (trace_of y) = false /\
   ends_with (trace_of y) [GetToken (Raise e)] /\
   result_of y = Ok (error_body no_auth, 500)).
Proof.
  intros W s t e x y.
  split; (split; [vm_compute; reflexivity|]).
  - exact (no_credentials_end_the_chat W (script.say "hello") s
             (result_of x) (state_of x) (trace_of x) e eq_refl
             (run_eta x) (or_introl eq_refl)).
  - exact (no_credentials_end_the_chat W (script.say "hello") t
             (result_of y) (state_of y) (trace_of y) e eq_refl
             (run_eta y) (or_introl eq_refl)).
Defined.

(** X16: in [app.py] the same situation does not stop the call:
    [get_auth_headers] falls off its end and returns [None], and the
    requests are sent all the same.  When no API key is set and every token
    request of a call fails, every request of the call carries [None] as
    its headers. *)
Theorem app_sends_without_credentials (W : World) (g : result value)
    (s : state W) resp s' E :
  no_api_key W = true ->
  chat_of app_py g s = (resp, s', E) ->
  forallb raised (tokens E) = true ->
  Forall (fun c => req_headers (fst c) = VNone) (calls any_request E).
Proof.
  intros Hkey H Hall. chat_cases H.
  all: cbn [forallb] in Hall;
    repeat match goal with
           | Q : _ && _ = true |- _ =>
               apply andb_true_iff in Q; destruct Q
           end.
  all: repeat match goal with
              | Q : headers_for _ app_py ?t = Ok _, Q' : raised ?t = true |- _ =>
                  apply (headers_for_app_raised _ _ _ Hkey) in Q;
                  [subst|exact Q']
              end.
  all: repeat first
         [ assumption
         | apply Forall_nil
         | apply Forall_cons; [reflexivity|] ].
Qed.

Lemma app_sends_without_credentials_witness :
  let W := script.without_token (Some "") (script.always "completed") in
  let s := script.start W (0%nat, 0%nat) in
  let x := chat_of app_py (script.say "hello") s in
  forallb raised (tokens (trace_of x)) = true /\
  length (calls any_request (trace_of x)) = 6%nat /\
  Forall (fun c => req_headers (fst c) = VNone)
    (calls any_request (trace_of x)).
Proof.
  intros W s x.
  assert (Hall : forallb raised (tokens (trace_of x)) = true)
    by (vm_compute; reflexivity).
  split; [exact Hall|]. split; [vm_compute; reflexivity|].
  exact (app_sends_without_credentials W (script.say "hello") s
           (result_of x) (state_of x) (trace_of x) eq_refl (run_eta x) Hall).
Defined.

(** X17: the headers are made once for the exchange with the agent: the
    message, the start of the run, every poll, the listing and every
    submission of approvals of one call carry the same headers.  So a token
    is not renewed while the run is polled, however long that takes. *)
Theorem one_token_serves_the_exchange (W : World) (f : file)
    (g : result value) (s : state W) resp s' E :
  chat_of f g s = (resp, s', E) ->
  exists headers,
    Forall (fun c => req_headers (fst c) = headers) (calls is_exchange E).
Proof.
  intros H. chat_cases H.
  all: cbn [is_exchange is_agent_creation is_thread_creation req_method
            req_url message_request run_request thread_request
            creation_request negb andb].
  all: try match goal with
           | Q : Forall _ (calls any_request ?E1) |- _ =>
               apply (calls_any_sub is_exchange) in Q
           end.
  all: try (exists VNone; apply Forall_nil).
  all: match goal with
       | |- context [message_request _ ?h _] => exists h
       end.
  all: repeat first
         [ assumption
         | apply Forall_nil
         | apply Forall_cons; [reflexivity|] ].
Qed.

Lemma one_token_serves_the_exchange_witness :
  let W := script.approving "submit_tool_approval" in
  let s := script.start W (0%nat, 0%nat) in
  let x := chat_of agent_py (script.say "hello") s in
  length (calls is_exchange (trace_of x)) = 7%nat /\
  exists headers,
    Forall (fun c => req_headers (fst c) = headers)
      (calls is_exchange (trace_of x)).
Proof.
  intros W s x. split; [vm_compute; reflexivity|].
  exact (one_token_serves_the_exchange W agent_py (script.say "hello") s
           (result_of x) (state_of x) (trace_of x) (run_eta x)).
Defined.

(** X18: [create_agent] caches what it returns: after a call that returned
    an id the global [AGENT_ID] is that id and the cached thread is
    untouched; when the id is truthy, a further call returns it again
    without a token request or a request to the service. *)
Theorem created_agent_is_cached (W : World) (f : file) (s : state W)
    id s1 E :
  create_agent_of f s = (Ok id, s1, E) ->
  AGENT_ID s1 = id /\
  current_thread_id s1 = current_thread_id s /\
  (Py.truthy id = true -> create_agent_of f s1 = (Ok id, s1, [])).
Proof.
  intros H. destruct (create_agent_of_ok f s id s1 E H) as (HA & HT & _).
  split_goal; auto.
  intros Htruthy. rewrite <- HA in *. now apply create_agent_of_cached.
Qed.

Lemma created_agent_is_cached_witness :
  let W := script.always "completed" in
  let s := script.start W (0%nat, 0%nat) in
  let x := create_agent_of agent_py s in
  result_of x = Ok (VStr "asst_1") /\
  length (trace_of x) = 2%nat /\
  AGENT_ID (state_of x) = VStr "asst_1" /\
  create_agent_of agent_py (state_of x) = (Ok (VStr "asst_1"), state_of x, []).
Proof.
  intros W s x.
  assert (Hx : x = (Ok (VStr "asst_1"), state_of x, trace_of x))
    by (vm_compute; reflexivity).
  split; [vm_compute; reflexivity|]. split; [vm_compute; reflexivity|].
  destruct (created_agent_is_cached W agent_py s (VStr "asst_1") (state_of x)
              (trace_of x) Hx) as (HA & _ & Hagain).
  split; [exact HA|]. exact (Hagain eq_refl).
Defined.

(** X19: a creation of the agent that fails caches nothing: whenever
    [create_agent] raises, [AGENT_ID] is as before, hence still falsy, so
    that the next call tries again.  An answer with a status from 400 to
    599 is such a failure, an [HTTPError] raised by [raise_for_status]
    before the body is read. *)
Theorem failed_creation_caches_no_agent (W : World) (f : file)
    (s : state W) e s1 E :
  create_agent_of f s = (Raise e, s1, E) ->
  AGENT_ID s1 = AGENT_ID s /\
  Py.truthy (AGENT_ID s1) = false /\
  current_thread_id s1 = current_thread_id s /\
  (forall r,
      In (Returns r) (replies is_agent_creation E) ->
      400 <= status_code r < 600 ->
      e = HTTPError (http_error r)).
Proof.
  intros H.
  destruct (create_agent_of_raise f s e s1 E H) as (HA & Hf & HT & _ & Hr).
  rewrite HA. auto.
Qed.

Lemma failed_creation_caches_no_agent_witness :
  let W := script.answering is_agent_creation script.unavailable
             (script.always "completed") in
  let s := script.start W (0%nat, 0%nat) in
  let x := create_agent_of app_py s in
  result_of x = Raise (HTTPError "503 Server Error") /\
  AGENT_ID (state_of x) = VNone /\
  Py.truthy (AGENT_ID (state_of x)) = false.
Proof.
  intros W s x.
  assert (Hx : x = (Raise (HTTPError "503 Server Error"), state_of x,
                    trace_of x)) by (vm_compute; reflexivity).
  split; [vm_compute; reflexivity|].
  destruct (failed_creation_caches_no_agent W app_py s
              (HTTPError "503 Server Error") (state_of x) (trace_of x) Hx)
    as (HA & Hf & _).
  split; [exact HA|exact Hf].
Defined.

(** X20: [create_thread] never raises and touches no global: it asks for
    one token and makes at most one request; it returns the [id] of the
    answer when the service answered 200 or 201 with a body that has one,
    and [None] in every other case, also when no headers could be had,
    when the request raised or when the body could not be read.  (It is
    the handler that stores the result in [current_thread_id].) *)
Theorem create_thread_never_raises (W : World) (f : file) (s : state W) :
  exists created s1 E,
    create_thread_of f s = (Ok created, s1, E) /\
    AGENT_ID s1 = AGENT_ID s /\
    current_thread_id s1 = current_thread_id s /\
    length (tokens E) = 1%nat /\
    (length (calls any_request E) <= 1)%nat /\
    created = match replies any_request E with
              | [rp] => thread_made rp
              | _ => VNone
              end /\
    replies any_request E = replies is_thread_creation E.
Proof.
  rewrite create_thread_of_eq. cbv zeta.
  destruct (headers_for W f _) as [h|e]; do 3 eexists;
    (split; [reflexivity|]); unfold replies; trace_eval; split_goal; auto.
Qed.

(** X21: the handler answers a body that is no JSON object with a 500
    that carries the text of the exception: when [request.get_json()]
    raises, the text of what it raised; when it gives a value that is no
    object ([null], a list, a string, a number), the text of the
    [AttributeError] of [data.get].  No request is made and the globals are
    untouched. *)
Theorem chat_without_an_object_is_a_500 (W : World) (f : file)
    (g : result value) (s : state W) :
  match g with
  | Ok data => is_dict data = false
  | Raise _ => True
  end ->
  chat_of f g s =
  (Ok (error_body
         match g with
         | Ok data =>
             "'" ++ type_name data ++ "' object has no attribute 'get'"
         | Raise e => exn_str e
         end, 500), s, []).
Proof.
  intros H.
  destruct (chat_of f g s) as [[resp s'] E] eqn:Hrun.
  destruct (chat_of_quiet f g s resp s' E Hrun)
    as [(data & message & -> & Hm & _)|(-> & -> & ->)].
  - destruct data; discriminate.
  - destruct g as [data|e]; [|reflexivity].
    destruct data; try discriminate; reflexivity.
Qed.

Lemma chat_without_an_object_is_a_500_witness :
  chat_of agent_py (Ok VNone)
    (script.start (script.always "completed") (0%nat, 0%nat)) =
  (Ok (error_body "'NoneType' object has no attribute 'get'", 500),
   script.start (script.always "completed") (0%nat, 0%nat), []).
Proof.
  exact (chat_without_an_object_is_a_500 (script.always "completed") agent_py
           (Ok VNone) (script.start (script.always "completed") (0%nat, 0%nat))
           eq_refl).
Defined.

(** X22: the /health handler of [agent.py] goes through [create_agent]
    without a guard: it answers 200 with the agent that is cached when it
    returns, creating it if none was; with an agent cached before, it makes
    no request and changes nothing; and what [create_agent] raises (no
    credentials, an error status of the service) leaves the handler, where
    /chat would have answered with an error body. *)
Theorem health_reports_the_cached_agent (W : World) (ENDPOINT : value)
    (s : state W) r s' E :
  agent.health ENDPOINT s = (r, s', E) ->
  match r with
  | Ok (body, code) =>
      code = 200 /\
      body = VDict [("status", VStr "healthy"); ("endpoint", ENDPOINT);
                    ("agent_id", AGENT_ID s'); ("api_version", VStr "v1")]
  | Raise e =>
      agent.create_agent s = (Raise e, s', E) /\
      Py.truthy (AGENT_ID s') = false
  end /\
  current_thread_id s' = current_thread_id s /\
  (length (calls any_request E) <= 1)%nat /\
  (Py.truthy (AGENT_ID s) = true -> E = [] /\ s' = s).
Proof.
  unfold agent.health. intros H. run_inv H.
  - run_inv Hrun0.
    change (create_agent_of agent_py s = (Ok a, s', E0)) in Hrun.
    destruct (create_agent_of_ok agent_py s a s' E0 Hrun)
      as (HA & HT & Hn & Hc).
    rewrite app_nil_r. rewrite HA. auto.
  - change (create_agent_of agent_py s = (Raise e, s', E)) in Hrun.
    destruct (create_agent_of_raise agent_py s e s' E Hrun)
      as (HA & Hf & HT & Hn & _).
    rewrite HA. split_goal; auto. rewrite Hf. discriminate.
Qed.

Lemma health_reports_the_cached_agent_witness :
  let W := script.always "completed" in
  let s := script.start W (0%nat, 0%nat) in
  let x := agent.health (VStr "https://example.test") s in
  result_of x =
  Ok (VDict [("status", VStr "healthy");
             ("endpoint", VStr "https://example.test");
             ("agent_id", VStr "asst_1"); ("api_version", VStr "v1")], 200) /\
  AGENT_ID (state_of x) = VStr "asst_1" /\
  current_thread_id (state_of x) = current_thread_id s /\
  (length (calls any_request (trace_of x)) <= 1)%nat.
Proof.
  intros W s x.
  split; [vm_compute; reflexivity|]. split; [vm_compute; reflexivity|].
  destruct (health_reports_the_cached_agent W (VStr "https://example.test") s
              (result_of x) (state_of x) (trace_of x) (run_eta x))
    as (_ & HT & Hn & _).
  split; [exact HT|exact Hn].
Defined.

(** X23: an agent that is cached serves every later call of the process.
    Both files create the agent when the process starts, before any call is
    served; once [create_agent] has returned a truthy id, however many
    calls of the /chat handler follow and whatever the service answers to
    them, none makes a request to create an agent, [AGENT_ID] stays that
    id, and every run is started with it as [assistant_id]. *)
Theorem cached_agent_serves_every_call (W : World) (f : file)
    (requests : list (result value)) (s s0 s' : state W) id E0 resps E :
  create_agent_of f s = (Ok id, s0, E0) ->
  Py.truthy id = true ->
  chats f requests s0 = (resps, s', E) ->
  AGENT_ID s' = id /\
  calls is_agent_creation E = [] /\
  Forall (fun c => req_json (fst c) = Some (VDict [("assistant_id", id)]))
    (calls is_run_creation E).
Proof.
  intros Hstart Htruthy H.
  destruct (create_agent_of_ok f s id s0 E0 Hstart) as (HA & _).
  rewrite <- HA in *. now apply (chats_keep_agent f requests s0 resps).
Qed.

Lemma cached_agent_serves_every_call_witness :
  let W := script.approving "submit_tool_outputs" in
  let s := script.start W (0%nat, 0%nat) in
  let x := create_agent_of agent_py s in
  let requests := [script.say "hello"; Ok VNone; script.say "again"] in
  let y := chats agent_py requests (state_of x) in
  result_of x = Ok (VStr "asst_1") /\
  length (calls is_run_creation (trace_of y)) = 2%nat /\
  AGENT_ID (state_of y) = VStr "asst_1" /\
  calls is_agent_creation (trace_of y) = [] /\
  Forall (fun c => req_json (fst c)
                   = Some (VDict [("assistant_id", VStr "asst_1")]))
    (calls is_run_creation (trace_of y)).
Proof.
  intros W s x requests y.
  assert (Hx : x = (Ok (VStr "asst_1"), state_of x, trace_of x))
    by (vm_compute; reflexivity).
  split; [vm_compute; reflexivity|]. split; [vm_compute; reflexivity|].
  exact (cached_agent_serves_every_call W agent_py requests s (state_of x)
           (state_of y) (VStr "asst_1") (trace_of x) (result_of y)
           (trace_of y) Hx eq_refl (run_eta y)).
Defined.

(** X24: the test script makes its headers anew before every request: in a
    run of [test_mcp_functionality] every request, from the creation of the
    thread to the last poll or approval, has a token request of its own
    just before it, and a token request that no request follows (the
    headers could not be made) is the last event.  The two applications
    make the headers once for a whole exchange instead. *)
Theorem script_asks_a_token_for_every_request (W : World) (agent_id : value)
    (s : state W) r s' E :
  attach.test_mcp_functionality agent_id s = (r, s', E) ->
  token_before_each_request E = true /\
  (forall v, r = Ok v -> length (tokens E) = length (calls any_request E)).
Proof.
  intros H. pose proof (paired_test_mcp_functionality agent_id _ _ _ _ H) as P.
  split.
  - destruct r; [now apply token_with_before|exact P].
  - intros v ->. clear H. revert P. generalize E. fix IH 1.
    intros [|ev E0]; [reflexivity|].
    destruct ev as [rq rp|secs|t]; cbn [token_with_each_request tokens calls];
      try discriminate.
    + apply IH.
    + destruct E0 as [|[rq rp|secs|t'] E1]; try discriminate.
      cbn [tokens calls any_request length]. intros P. f_equal. now apply IH.
Qed.

Lemma script_asks_a_token_for_every_request_witness :
  let W := script.approving "submit_tool_outputs" in
  let s := script.start W (0%nat, 0%nat) in
  let x := attach.test_mcp_functionality (VStr "asst_1") s in
  result_of x = Ok (VBool true) /\
  length (calls any_request (trace_of x)) = 7%nat /\
  token_before_each_request (trace_of x) = true /\
  length (tokens (trace_of x)) = length (calls any_request (trace_of x)).
Proof.
  intros W s x.
  assert (Hr : result_of x = Ok (VBool true)) by (vm_compute; reflexivity).
  split; [exact Hr|]. split; [vm_compute; reflexivity|].
  destruct (script_asks_a_token_for_every_request W (VStr "asst_1") s
              (result_of x) (state_of x) (trace_of x) (run_eta x)) as [Ht Hn].
  split; [exact Ht|]. exact (Hn (VBool true) Hr).
Defined.

(** X25: in the test script an error status ends the run: every request is
    followed by [raise_for_status], so that when any request of
    [test_mcp_functionality] (the creation of the thread, of the message or
    of the run, a poll or an approval) is answered with a status from 400
    to 599, the script raises the [HTTPError] of that answer and the
    request is its last event.  The applications retry such a poll. *)
Theorem error_status_ends_the_script (W : World) (agent_id : value)
    (s : state W) r s' E rq x :
  attach.test_mcp_functionality agent_id s = (r, s', E) ->
  In (rq, Returns x) (calls any_request E) ->
  400 <= status_code x < 600 ->
  r = Raise (HTTPError (http_error x)) /\
  ends_with E [Request rq (Returns x)].
Proof.
  intros H Hin Hcode.
  apply (strict_test_mcp_functionality agent_id _ _ _ _ H rq x Hin).
  unfold error_status. apply andb_true_iff.
  split; [apply Z.leb_le|apply Z.ltb_lt]; lia.
Qed.

Lemma error_status_ends_the_script_witness :
  let W := script.answering is_poll script.unavailable
             (script.always "completed") in
  let s := script.start W (0%nat, 0%nat) in
  let x := attach.test_mcp_functionality (VStr "asst_1") s in
  let rq := Build_request GET (ThreadRun (VStr "thread_1") (VStr "run_1"))
              (json_headers "Authorization" "Bearer token") None (Some 30) in
  let r := Build_response 503
             (Raise (Exn "JSONDecodeError" "Expecting value"))
             "503 Server Error" in
  In (rq, Returns r) (calls any_request (trace_of x)) /\
  result_of x = Raise (HTTPError "503 Server Error") /\
  ends_with (trace_of x) [Request rq (Returns r)].
Proof.
  intros W s x rq r.
  assert (Hin : In (rq, Returns r) (calls any_request (trace_of x)))
    by (vm_compute; auto 10).
  split; [exact Hin|].
  exact (error_status_ends_the_script W (VStr "asst_1") s (result_of x)
           (state_of x) (trace_of x) rq r (run_eta x) Hin
           ltac:(simpl; lia)).
Defined.

(** X26: [test_mcp_functionality] polls the run at most 30 times and
    sleeps at most once per poll; when it returns, it returns [True] or
    [False], and [True] only when its last event is a poll that was
    answered without an error status and whose body reads [completed]. *)
Theorem script_passes_only_on_completed (W : World) (agent_id : value)
    (s : state W) r s' E :
  attach.test_mcp_functionality agent_id s = (r, s', E) ->
  (length (polls E) <= 30)%nat /\
  (length (sleeps E) <= length (polls E))%nat /\
  (forall v,
      r = Ok v ->
      (v = VBool true /\ read_completed E) \/ v = VBool false).
Proof.
  unfold attach.test_mcp_functionality. intros H.
  apply bind_inv in H.
  destruct H as [(t & s1 & E1 & E2 & Ht & H & ->)|(e & Ht & ->)].
  2:{ apply attach_create_thread_within in Ht. destruct Ht as [_ Ht].
      apply thread_quiet in Ht. destruct Ht as (-> & _ & _ & ->).
      split_goal; [simpl; lia|simpl; lia|]. intros v Q. discriminate Q. }
  apply attach_create_thread_within in Ht. destruct Ht as [_ Ht].
  apply thread_quiet in Ht. destruct Ht as (P1 & _ & _ & S1).
  rewrite polls_app, sleeps_app, P1, S1. cbn [app].
  apply bind_inv in H.
  destruct H as [(rid & s2 & E3 & E4 & Hr & H & ->)|(e & Hr & ->)].
  2:{ apply (attach_create_run_within agent_id) in Hr. destruct Hr as [_ Hr].
      apply prelude_no_poll in Hr. destruct Hr as (-> & ->).
      split_goal; [simpl; lia|simpl; lia|]. intros v Q. discriminate Q. }
  apply (attach_create_run_within agent_id) in Hr. destruct Hr as [_ Hr].
  apply prelude_no_poll in Hr. destruct Hr as (P3 & S3).
  rewrite polls_app, sleeps_app, P3, S3. cbn [app].
  apply bind_inv in H.
  destruct H as [(returned & s3 & E5 & E6 & Hl & H & ->)|(e & Hl & ->)].
  2:{ destruct (attach_test_loop_inv _ _ _ _ _ _ _ Hl) as (P & S & _).
      split_goal; auto. intros v Q. discriminate Q. }
  destruct (attach_test_loop_inv _ _ _ _ _ _ _ Hl) as (P & S & V).
  assert (E6 = []) as -> by (destruct returned; now inversion H).
  rewrite app_nil_r. split_goal; auto. intros v Q.
  assert (Hr : r = Ok match returned with
                      | Some v0 => v0
                      | None => VBool false
                      end)
    by (destruct returned; unfold ret in H; congruence).
  rewrite Hr in Q. injection Q as <-. destruct returned as [v0|].
  - destruct (V v0 eq_refl) as [[-> Hc]| ->]; [left|right; reflexivity].
    split; [reflexivity|]. now do 2 apply read_completed_later.
  - right. reflexivity.
Qed.

Lemma script_passes_only_on_completed_witness :
  let W := script.approving "submit_tool_approval" in
  let s := script.start W (0%nat, 0%nat) in
  let x := attach.test_mcp_functionality (VStr "asst_1") s in
  result_of x = Ok (VBool true) /\
  length (polls (trace_of x)) = 3%nat /\
  length (sleeps (trace_of x)) = 1%nat /\
  read_completed (trace_of x).
Proof.
  intros W s x.
  assert (Hr : result_of x = Ok (VBool true)) by (vm_compute; reflexivity).
  split; [exact Hr|]. split; [vm_compute; reflexivity|].
  split; [vm_compute; reflexivity|].
  destruct (script_passes_only_on_completed W (VStr "asst_1") s
              (result_of x) (state_of x) (trace_of x) (run_eta x))
    as (_ & _ & Hv).
  destruct (Hv (VBool true) Hr) as [[_ Hc]|Q]; [exact Hc|discriminate Q].
Defined.

(** X27: the test script submits an empty list of approvals: when the
    pending calls named under [submit_tool_outputs] are a non-empty list
    of objects none of which is of type [mcp],
    [approve_pending_tool_calls] still posts [{"tool_approvals": []}], and
    returns [True] when the answer has no error status, so that the run is
    polled again; only without credentials does it make no request.  On
    the same payload the two applications submit nothing and leave their
    loop. *)
Theorem empty_approvals_are_submitted (W : World)
    (thread_id run_id required_action : value) (tool_calls : list value)
    (s : state W) r s' E :
  attach.approve_pending_tool_calls thread_id run_id required_action s
  = (r, s', E) ->
  pending_calls "submit_tool_outputs" required_action = Some tool_calls ->
  tool_calls <> [] ->
  forallb is_dict tool_calls = true ->
  existsb is_mcp tool_calls = false ->
  (submissions E = [Some (VDict [("tool_approvals", VList [])])] /\
   (forall x,
       approvals E = [Returns x] -> error_status x = false -> r = Ok true)) \/
  (calls any_request E = [] /\ r = Raise (RuntimeError no_auth)).
Proof.
  intros H Hp Hne Hd Hm.
  rewrite (attach_approve_nothing _ _ _ _ _ Hp Hne Hd Hm) in H.
  unfold bind at 1 in H. rewrite attach_get_headers_eq in H.
  destruct (headers_for W agent_py _) as [h|e] eqn:Hh.
  - left. rewrite checked_eq in H.
    set (s0 := Build_state _ _ _) in H.
    destruct (answer s0 (submit_request thread_id run_id h [])) as [y|e].
    + destruct (error_status y) eqn:Hy; injection H; intros; subst;
        (split; [reflexivity|]); unfold approvals; trace_eval;
        intros x Q; injection Q as <-; congruence.
    + injection H; intros; subst. split; [reflexivity|].
      unfold approvals. trace_eval. intros x Q. discriminate Q.
  - right. injection H; intros; subst. split; [reflexivity|].
    now rewrite (headers_for_agent_none _ _ _ Hh).
Qed.

Lemma empty_approvals_are_submitted_witness :
  let W := script.always "requires_action" in
  let s := script.start W (0%nat, 0%nat) in
  let calls := [script.tool_call "call_1" "function"] in
  let ra := VDict [("type", VStr "submit_tool_outputs");
                   ("submit_tool_outputs",
                    VDict [("tool_calls", VList calls)])] in
  let x := attach.approve_pending_tool_calls (VStr "thread_1") (VStr "run_1")
             ra s in
  result_of x = Ok true /\
  submissions (trace_of x) = [Some (VDict [("tool_approvals", VList [])])].
Proof.
  intros W s calls ra x.
  split; [vm_compute; reflexivity|].
  destruct (empty_approvals_are_submitted W (VStr "thread_1") (VStr "run_1")
              ra calls s (result_of x) (state_of x) (trace_of x) (run_eta x)
              eq_refl ltac:(discriminate) eq_refl eq_refl)
    as [[Hs _]|[Hn _]]; [exact Hs|].
  exfalso. vm_compute in Hn. discriminate Hn.
Defined.

(** X28: the /chat handler never raises: whatever the body of the request
    and whatever the service does, it returns a body and a status, and the
    status is 200, 400 or 500; the body has the key [response] exactly when
    the status is 200, and the key [error] otherwise.  (The /health handler
    of [agent.py] has no such guard.) *)
Theorem chat_never_raises (W : World) (f : file) (g : result value)
    (s : state W) :
  exists body code s' E,
    chat_of f g s = (Ok (body, code), s', E) /\
    (code = 200 \/ code = 400 \/ code = 500) /\
    has_key "response" body = (code =? 200) /\
    has_key "error" body = negb (code =? 200).
Proof.
  destruct (chat_of f g s) as [[resp s'] E] eqn:H.
  assert (Hgoal : exists body code,
             resp = Ok (body, code) /\
             (code = 200 \/ code = 400 \/ code = 500) /\
             has_key "response" body = (code =? 200) /\
             has_key "error" body = negb (code =? 200)).
  { pose proof H as H0. chat_stages H0; impossible; clean_results.
    all: try (eexists _, _; split; [reflexivity|]; cbn; auto; fail).
    all: try match goal with
             | |- context [match ?g0 with Ok _ => _ | Raise _ => _ end] =>
                 let d := fresh "d" in
                 destruct g0 as [d|?];
                 [destruct (Py.get d "message" (VStr ""))|]
             end.
    all: try (eexists _, _; split; [reflexivity|]; cbn; auto; fail).
    all: match goal with
         | |- context [reply_for ?sent ?t] =>
             let v := fresh "v" in
             unfold reply_for; destruct sent as [v|?];
             [destruct (Py.truthy v)|]
         end.
    all: eexists _, _; split; [reflexivity|]; cbn; auto. }
  destruct Hgoal as (body & code & -> & Hc). exists body, code, s', E. auto.
Qed.

(** X29: the exchange of a call addresses the cached thread and the run
    just created: the message, the start of the run, the polls, the listing
    and the approvals of a call all go to the thread that is cached when
    the call ends, and every poll and approval goes to the run whose id the
    service gave in answer to the start of the run. *)
Theorem exchange_addresses_thread_and_run (W : World) (f : file)
    (g : result value) (s : state W) resp s' E :
  chat_of f g s = (resp, s', E) ->
  Forall (fun c => thread_of (req_url (fst c)) = Some (current_thread_id s'))
    (calls is_exchange E) /\
  (forall rp run_id,
      In rp (replies is_run_creation E) ->
      id_of rp = Ok run_id ->
      Forall (fun c => run_of (req_url (fst c)) = Some run_id)
        (calls is_poll E ++ calls is_submission E)).
Proof.
  intros H. unfold replies.
  chat_stages H; impossible; clean_results.
  all: repeat match goal with
              | Q : passes _ _ _ _ _ _ _ |- _ =>
                  let L := fresh "Hloop" in
                  let A := fresh "Haddr" in
                  pose proof (passes_loop_events _ _ _ _ _ _ _ Q) as [L _];
                  pose proof (passes_addresses _ _ _ _ _ _ _ Q) as A;
                  apply loop_quiet in L;
                  revert Q
              end; intros; split_hyps.
  all: try match goal with
           | Q : Forall _ (calls any_request ?E1) |- _ =>
               apply (calls_any_sub is_exchange) in Q
           end.
  all: trace_eval; rewrite_quiet.
  all: cbn [is_exchange is_agent_creation is_thread_creation req_method
            req_url message_request run_request thread_request
            creation_request negb andb app map In].
  all: split;
    [ repeat first
        [ apply Forall_nil
        | apply Forall_cons;
          [cbn [fst req_url thread_of message_request run_request];
           congruence|]
        | rewrite Hkept; assumption
        | assumption ]
    | intros rp run_id Hin Hid; try contradiction;
      try (destruct Hin as [<-|[]]; try congruence) ].
  all: try apply Forall_nil.
  all: match goal with
       | Q : id_of ?x = Ok ?a, Q' : id_of ?x = Ok ?b |- _ =>
           assert (a = b) by congruence; subst
       end.
  all: apply Forall_app; split; assumption.
Qed.

Lemma exchange_addresses_thread_and_run_witness :
  let W := script.approving "submit_tool_outputs" in
  let s := script.start W (0%nat, 0%nat) in
  let x := chat_of app_py (script.say "hello") s in
  current_thread_id (state_of x) = VStr "thread_1" /\
  length (calls is_exchange (trace_of x)) = 7%nat /\
  Forall (fun c => thread_of (req_url (fst c)) = Some (VStr "thread_1"))
    (calls is_exchange (trace_of x)) /\
  Forall (fun c => run_of (req_url (fst c)) = Some (VStr "run_1"))
    (calls is_poll (trace_of x) ++ calls is_submission (trace_of x)).
Proof.
  intros W s x.
  assert (Ht : current_thread_id (state_of x) = VStr "thread_1")
    by (vm_compute; reflexivity).
  split; [exact Ht|]. split; [vm_compute; reflexivity|].
  destruct (exchange_addresses_thread_and_run W app_py (script.say "hello") s
              (result_of x) (state_of x) (trace_of x) (run_eta x)) as [Ha Hr].
  split.
  - rewrite <- Ht. exact Ha.
  - apply (Hr (script.with_id "run_1") (VStr "run_1")).
    + vm_compute. auto.
    + reflexivity.
Defined.
